(** * langevinMD: a shallow embedding of the simulation core

    The development follows the Python sources file by file:
    [constants.py], [boundary.py], [integrators.py], [forces.py],
    [utils/analysis.py], [io/lammps_writer.py], [io/config_loader.py] and
    [simulation.py].

    Modelling conventions.
    - A numpy [float64] has two readings.  In the first part it is an exact
      rational ([Q]): no rounding, no NaN and no infinities.  This reading
      carries the statements that do not depend on the arithmetic: shapes,
      control flow, exceptions, files, what is printed, and the outcome of
      comparisons, [abs], negation and copies on ordinary numbers.  There,
      equalities that depend on arithmetic are stated with [==] and a value
      that the code copies (a clamp to a bound) with [=]; division by zero
      is outside this reading.
    - The module [Float64] gives the functions whose results depend on
      rounding, on infinities or on NaN once more, on IEEE 754 binary64
      numbers ([float], round to nearest even).  What is stated about the
      numbers that the integrator, the periodic wrap and the simulation
      step compute is stated there.
    - A 2-D array of shape (natoms, ndims) is the list of its rows; the
      in-place updates of the code return the updated arrays.  Arrays of
      agreeing shape are assumed where numpy would otherwise raise.
    - Python exceptions are values of [exn]; a call that can raise returns
      a [result].
    - The global numpy random generator is a cursor into two streams of
      samples that are parameters of the model (see [Numpy]); in the
      rational reading [np.sqrt] is a parameter as well. *)

From Stdlib Require Import QArith Qabs Qround Lqa ZArith Ascii String Floats.
From stdpp Require Import base list strings gmap.

Local Open Scope Q_scope.

(** A decimal literal in [float_scope] is the nearest binary64, as in
    Python. *)
#[local] Set Warnings "-inexact-float".

(** ** Python values and exceptions *)

Inductive exn :=
| ValueError (msg : string)
| ZeroDivisionError
| AttributeError
| TypeError
| IndexError
| KeyError.

Inductive result (A : Type) :=
| Ok (a : A)
| Raise (e : exn).
Arguments Ok {A} a.
Arguments Raise {A} e.

(** [str.lower] on 8-bit characters: A-Z go to a-z, the rest is kept. *)
Definition lower_ascii (c : ascii) : ascii :=
  let n := nat_of_ascii c in
  if ((65 <=? n) && (n <=? 90))%nat then ascii_of_nat (n + 32) else c.

Fixpoint lower (s : string) : string :=
  match s with
  | EmptyString => EmptyString
  | String c s' => String (lower_ascii c) (lower s')
  end.

(** [a // b] and [a % b] on Python integers: floor division and the
    remainder with the sign of the divisor, as [Z.div] and [Z.modulo]. *)
Definition py_floordiv (a b : Z) : result Z :=
  if (b =? 0)%Z then Raise ZeroDivisionError else Ok (a / b)%Z.

Definition py_mod (a b : Z) : result Z :=
  if (b =? 0)%Z then Raise ZeroDivisionError else Ok (a `mod` b)%Z.

(** [range(a, b)] *)
Definition py_range (a b : Z) : list Z :=
  map (fun k => (a + Z.of_nat k)%Z) (seq 0 (Z.to_nat (b - a))).

(** ** numpy arrays *)

Abbreviation ndarray1 := (list Q) (only parsing).
Abbreviation ndarray2 := (list (list Q)) (only parsing).

(** [a.shape] of a 2-D array; an array without rows is given 0 columns. *)
Definition shape (a : ndarray2) : nat * nat :=
  (length a, match a with [] => O | row :: _ => length row end).

(** The arrays the simulation works on: [n] rows of [d] entries. *)
Definition has_shape (n d : nat) (a : ndarray2) : Prop :=
  length a = n /\ Forall (fun row => length row = d) a.

(** [a[r, i]] *)
Definition get2 (a : ndarray2) (r i : nat) : option Q :=
  match a !! r with
  | Some row => row !! i
  | None => None
  end.

(** [a[:, i]] *)
Definition column (i : nat) (a : ndarray2) : ndarray1 :=
  map (fun row => default 0 (row !! i)) a.

(** [a[mask, i] = f(a[mask, i])] *)
Definition assign_masked (mask : list bool) (i : nat) (f : Q -> Q)
    (a : ndarray2) : ndarray2 :=
  zip_with (fun (b : bool) row => if b then alter f i row else row) mask a.

(** [a[:, i] = c] *)
Definition assign_column (i : nat) (c : ndarray1) (a : ndarray2) : ndarray2 :=
  zip_with (fun x row => <[i:=x]> row) c a.

(** [x % y] on floats: the remainder has the sign of the divisor. *)
Definition np_mod (x y : Q) : Q := x - y * inject_Z (Qfloor (x / y)).

(** [np.sum] of a 1-D and of a 2-D array *)
Definition np_sum (v : ndarray1) : Q := foldr Qplus 0 v.
Definition np_sum2 (a : ndarray2) : Q := np_sum (map np_sum a).

(** [np.mean(v)] and [np.mean(a, axis=0)] *)
Definition np_mean (v : ndarray1) : Q := np_sum v / inject_Z (Z.of_nat (length v)).
Definition np_mean0 (a : ndarray2) : ndarray1 :=
  map (fun c => np_mean (column c a)) (seq 0 (shape a).2).

(** Elementwise and broadcast arithmetic. *)
Definition add2 (a b : ndarray2) : ndarray2 := zip_with (zip_with Qplus) a b.
Definition neg2 (a : ndarray2) : ndarray2 := map (map Qopp) a.
Definition square2 (a : ndarray2) : ndarray2 := map (map (fun x => x ^ 2)) a.
(** [a * c] and [a / c] for a scalar [c] *)
Definition scale2 (a : ndarray2) (c : Q) : ndarray2 := map (map (fun x => x * c)) a.
Definition div_scalar2 (a : ndarray2) (c : Q) : ndarray2 := map (map (fun x => x / c)) a.
(** [m[:, np.newaxis] * a], [a * m[:, np.newaxis]] and [a / m[:, np.newaxis]] *)
Definition mul_rows (m : ndarray1) (a : ndarray2) : ndarray2 :=
  zip_with (fun mi row => map (fun x => mi * x) row) m a.
Definition rows_mul (a : ndarray2) (m : ndarray1) : ndarray2 :=
  zip_with (fun row mi => map (fun x => x * mi) row) a m.
Definition rows_div (a : ndarray2) (m : ndarray1) : ndarray2 :=
  zip_with (fun row mi => map (fun x => x / mi) row) a m.
(** [a - v] for a row vector [v] *)
Definition sub_row (a : ndarray2) (v : ndarray1) : ndarray2 :=
  map (fun row => zip_with Qminus row v) a.

(** [np.ones(n)] *)
Definition np_ones (n : Z) : result ndarray1 :=
  if (n <? 0)%Z then Raise (ValueError "negative dimensions are not allowed")
  else Ok (replicate (Z.to_nat n) 1).

(** What the model takes from numpy as given: [np.sqrt], and the samples
    that [np.random.rand] and [np.random.randn] hand out, indexed by the
    number of samples drawn before. *)
Record Numpy := {
  np_sqrt : Q -> Q;
  uniform : nat -> Q;
  normal : nat -> Q
}.

(** An (n, d) array of consecutive samples starting at cursor [g]. *)
Definition draw (src : nat -> Q) (n d g : nat) : ndarray2 :=
  map (fun r => map (fun c => src (g + r * d + c)%nat) (seq 0 d)) (seq 0 n).

(** ** constants.py *)

Definition AVOGADRO : Q := 6.02214086e23.
Definition BOLTZMANN : Q := 1.38064852e-23.
Definition HYDROGEN_RADIUS : Q := 120e-12.

(** ** boundary.py *)

Abbreviation Box := (list (Q * Q)) (only parsing).

(** The two subclasses of [BoundaryCondition]; each object keeps the box
    it was built with ([self.ndims] is its length). *)
Inductive BoundaryCondition :=
| ReflectiveBoundary (box : Box)
| PeriodicBoundary (box : Box).

(** [for i in range(self.ndims)] with [self.box[i]] at hand. *)
Fixpoint for_axes {St : Type} (body : nat -> Q * Q -> St -> St)
    (i : nat) (box : Box) (st : St) : St :=
  match box with
  | [] => st
  | b :: rest => for_axes body (S i) rest (body i b st)
  end.

(** One iteration of the loop of [ReflectiveBoundary.apply]. *)
Definition reflective_axis (i : nat) (b : Q * Q)
    (pv : ndarray2 * ndarray2) : ndarray2 * ndarray2 :=
  let '(pos, vels) := pv in
  let mask_lower := map (fun x => Qle_bool x b.1) (column i pos) in
  let vels := assign_masked mask_lower i Qabs vels in
  let pos := assign_masked mask_lower i (fun _ => b.1) pos in
  let mask_upper := map (fun x => Qle_bool b.2 x) (column i pos) in
  let vels := assign_masked mask_upper i (fun v => - Qabs v) vels in
  let pos := assign_masked mask_upper i (fun _ => b.2) pos in
  (pos, vels).

Definition ReflectiveBoundary_apply (box : Box) (pos vels : ndarray2)
    : ndarray2 * ndarray2 :=
  for_axes reflective_axis 0 box (pos, vels).

(** One iteration of the loop of [PeriodicBoundary.apply]. *)
Definition periodic_axis (i : nat) (b : Q * Q) (pos : ndarray2) : ndarray2 :=
  let box_length := b.2 - b.1 in
  assign_column i
    (map (fun x => b.1 + np_mod (x - b.1) box_length) (column i pos)) pos.

Definition PeriodicBoundary_apply (box : Box) (pos vels : ndarray2)
    : ndarray2 * ndarray2 :=
  (for_axes periodic_axis 0 box pos, vels).

(** [self.boundary.apply(pos, vels)] *)
Definition apply (bc : BoundaryCondition) (pos vels : ndarray2)
    : ndarray2 * ndarray2 :=
  match bc with
  | ReflectiveBoundary box => ReflectiveBoundary_apply box pos vels
  | PeriodicBoundary box => PeriodicBoundary_apply box pos vels
  end.

(** The dict of [create_boundary], in insertion order. *)
Definition boundary_types : list (string * (Box -> BoundaryCondition)) :=
  [("reflective", ReflectiveBoundary); ("periodic", PeriodicBoundary)].

Fixpoint dict_get {V : Type} (key : string) (d : list (string * V)) : option V :=
  match d with
  | [] => None
  | (k, v) :: d' => if String.eqb key k then Some v else dict_get key d'
  end.

(** [str(list_of_strings)], for keys without quotes or escapes *)
Fixpoint repr_items (keys : list string) : string :=
  match keys with
  | [] => ""
  | [k] => "'" +:+ k +:+ "'"
  | k :: rest => "'" +:+ k +:+ "', " +:+ repr_items rest
  end.
Definition repr_list (keys : list string) : string := "[" +:+ repr_items keys +:+ "]".

Definition create_boundary (boundary_type : string) (box : Box)
    : result BoundaryCondition :=
  match dict_get (lower boundary_type) boundary_types with
  | None =>
      Raise (ValueError ("Unknown boundary type: " +:+ boundary_type +:+ ". "
                         +:+ "Available types: " +:+ repr_list boundary_types.*1))
  | Some cls => Ok (cls box)
  end.

(** ** integrators.py *)

Definition euler_integrate (pos vels force : ndarray2) (mass : ndarray1)
    (dt : Q) : ndarray2 * ndarray2 :=
  let pos := add2 pos (scale2 vels dt) in
  let vels := add2 vels (rows_div (scale2 force dt) mass) in
  (pos, vels).

(** ** forces.py *)

Definition compute_langevin_force (np : Numpy) (mass : ndarray1)
    (vels : ndarray2) (temperature relaxation_time dt : Q) (g : nat)
    : ndarray2 * nat :=
  let '(natoms, ndims) := shape vels in
  let friction_force := div_scalar2 (neg2 (mul_rows mass vels)) relaxation_time in
  let sigma :=
    map (fun m => np_sqrt np (2.0 * m * temperature * BOLTZMANN
                              / (relaxation_time * dt))) mass in
  let random_force := rows_mul (draw (normal np) natoms ndims g) sigma in
  let total_force := add2 friction_force random_force in
  (total_force, (g + natoms * ndims)%nat).

(** ** utils/analysis.py *)

Definition compute_temperature (mass : ndarray1) (vels : ndarray2) : Q :=
  let '(natoms, ndims) := shape vels in
  let v_cm := np_mean0 vels in
  let v_rel := sub_row vels v_cm in
  let ke := 0.5 * np_sum2 (mul_rows mass (square2 v_rel)) in
  2.0 * ke / (inject_Z (Z.of_nat ndims) * inject_Z (Z.of_nat natoms) * BOLTZMANN).

Definition compute_kinetic_energy (mass : ndarray1) (vels : ndarray2) : Q :=
  0.5 * np_sum2 (mul_rows mass (square2 vels)).

(** The temperature in the words of the specification: the velocity of
    the centre of mass is the mass-weighted mean velocity. *)
Definition com_velocity_spec (mass : ndarray1) (vels : ndarray2) : ndarray1 :=
  map (fun c => np_sum (zip_with Qmult mass (column c vels)) / np_sum mass)
      (seq 0 (shape vels).2).

Definition temperature_spec (mass : ndarray1) (vels : ndarray2) : Q :=
  let '(N, D) := shape vels in
  let KE := 0.5 * np_sum2 (mul_rows mass
                    (square2 (sub_row vels (com_velocity_spec mass vels)))) in
  2 * KE / (inject_Z (Z.of_nat D) * inject_Z (Z.of_nat N) * BOLTZMANN).

(** ** io/lammps_writer.py *)

(** A block of the dump file.  The text layout written by [_write_header]
    and [_write_atoms] is not modelled: a block is the values it prints. *)
Record Frame := {
  frame_timestep : Z;
  frame_natoms : Z;
  frame_box : Box;
  frame_radius : ndarray1;
  frame_pos : ndarray2;
  frame_v : ndarray2
}.

(** The regular files the program can see, by path: each is the list of
    the blocks appended to it so far. *)
Abbreviation Files := (gmap string (list Frame)).

(** [LAMMPSWriter.write_frame], called with [radius], [pos] and [v].
    [_process_data] names the columns of a 2-D array after
    [self.axis = ('x', 'y', 'z')], so a fourth column raises [IndexError]
    before the file is opened; otherwise the block is appended to the file
    opened in mode ['a'], which creates it when it is missing. *)
Definition write_frame (filename : string) (timestep natoms : Z) (box : Box)
    (radius : ndarray1) (pos v : ndarray2) (fs : Files) : result Files :=
  if ((3 <? (shape pos).2) || (3 <? (shape v).2))%nat then Raise IndexError
  else
    let block := {| frame_timestep := timestep; frame_natoms := natoms;
                    frame_box := box; frame_radius := radius;
                    frame_pos := pos; frame_v := v |} in
    Ok (<[filename := default [] (fs !! filename) ++ [block]]> fs).

(** ** io/config_loader.py *)

(** The values a YAML document can give to a key, as far as the checks of
    [validate_config] tell them apart. *)
Inductive pyval :=
| PyNum (q : Q)
| PyBool (b : bool)
| PyStr (s : string)
| PySeq (l : list (list Q))
| PyNone.

(** [v <= 0] and [v < 0]: numbers and booleans compare with an integer,
    every other value raises [TypeError]. *)
Definition py_le0 (v : pyval) : result bool :=
  match v with
  | PyNum q => Ok (Qle_bool q 0)
  | PyBool b => Ok (negb b)
  | _ => Raise TypeError
  end.

Definition py_lt0 (v : pyval) : result bool :=
  match v with
  | PyNum q => Ok (negb (Qle_bool 0 q))
  | PyBool b => Ok false
  | _ => Raise TypeError
  end.

(** [config[key]] *)
Definition getitem (config : gmap string pyval) (key : string) : result pyval :=
  match config !! key with
  | Some v => Ok v
  | None => Raise KeyError
  end.

Definition required_keys : list string :=
  ["natoms"; "mass"; "temperature"; "dt"; "relaxation_time"; "nsteps"; "box"].

Fixpoint check_required (keys : list string) (config : gmap string pyval)
    : result unit :=
  match keys with
  | [] => Ok tt
  | key :: rest =>
      match config !! key with
      | None => Raise (ValueError ("Required parameter '" +:+ key
                                   +:+ "' missing from config"))
      | Some _ => check_required rest config
      end
  end.

Definition result_bind {A B : Type} (c : result A) (k : A -> result B) : result B :=
  match c with
  | Ok a => k a
  | Raise e => Raise e
  end.

Definition validate_config (config : gmap string pyval) : result unit :=
  result_bind (check_required required_keys config) (fun _ =>
  result_bind (getitem config "natoms") (fun natoms =>
  result_bind (py_le0 natoms) (fun bad =>
  if bad : bool then Raise (ValueError "natoms must be positive") else
  result_bind (getitem config "temperature") (fun temperature =>
  result_bind (py_lt0 temperature) (fun bad =>
  if bad : bool then Raise (ValueError "temperature cannot be negative") else
  result_bind (getitem config "dt") (fun dt =>
  result_bind (py_le0 dt) (fun bad =>
  if bad : bool then Raise (ValueError "dt must be positive") else
  Ok tt))))))).

(** ** simulation.py *)

(** A value of the trajectory dict: a Python list while the run appends
    to it, a numpy array once [run] has converted it. *)
Inductive pyseq :=
| PyList (l : list Q)
| NdArray (l : list Q).

Definition items (s : pyseq) : list Q :=
  match s with PyList l | NdArray l => l end.

(** [np.array(s)] *)
Definition np_array (s : pyseq) : pyseq := NdArray (items s).

Record LangevinSimulation := {
  natoms : Z;
  mass_per_particle : Q;
  mass : ndarray1;
  box : Box;
  ndims : nat;
  temperature : Q;
  dt : Q;
  relaxation_time : Q;
  radius : ndarray1;
  boundary : BoundaryCondition;
  pos : ndarray2;
  vels : ndarray2;
  trajectory : gmap string pyseq
}.

Definition set_state (p v : ndarray2) (self : LangevinSimulation)
    : LangevinSimulation :=
  {| natoms := natoms self; mass_per_particle := mass_per_particle self;
     mass := mass self; box := box self; ndims := ndims self;
     temperature := temperature self; dt := dt self;
     relaxation_time := relaxation_time self; radius := radius self;
     boundary := boundary self; pos := p; vels := v;
     trajectory := trajectory self |}.

Definition set_trajectory (t : gmap string pyseq) (self : LangevinSimulation)
    : LangevinSimulation :=
  {| natoms := natoms self; mass_per_particle := mass_per_particle self;
     mass := mass self; box := box self; ndims := ndims self;
     temperature := temperature self; dt := dt self;
     relaxation_time := relaxation_time self; radius := radius self;
     boundary := boundary self; pos := pos self; vels := vels self;
     trajectory := t |}.

(** What [print] writes in [run]; the formatted numbers are kept as values. *)
Inductive Line :=
| progress_line (step nsteps : Z) (current_temp time_ps : Q)
| complete_lines (avg_temp : Q)
| saved_line (output_file : string).

(** The state outside the simulation object: the number of random samples
    drawn so far, the files, and what was printed. *)
Record World := {
  cursor : nat;
  files : Files;
  stdout : list Line
}.

Definition set_cursor (g : nat) (w : World) : World :=
  {| cursor := g; files := files w; stdout := stdout w |}.
Definition set_files (fs : Files) (w : World) : World :=
  {| cursor := cursor w; files := fs; stdout := stdout w |}.
Definition print (l : Line) (w : World) : World :=
  {| cursor := cursor w; files := files w; stdout := stdout w ++ [l] |}.

(** [_initialize_system]: uniform positions scaled into the box axis by
    axis, normal velocities minus their mean over the particles. *)
Definition _initialize_system (np : Numpy) (natoms : Z) (box : Box) (g : nat)
    : ndarray2 * ndarray2 * nat :=
  let n := Z.to_nat natoms in
  let ndims := length box in
  let pos := draw (uniform np) n ndims g in
  let g := (g + n * ndims)%nat in
  let pos :=
    for_axes (fun i b pos =>
      assign_column i (map (fun u => b.1 + (b.2 - b.1) * u) (column i pos)) pos)
      0 box pos in
  let vels := draw (normal np) n ndims g in
  let g := (g + n * ndims)%nat in
  let vels := sub_row vels (np_mean0 vels) in
  (pos, vels, g).

(** [LangevinSimulation.__init__].  Nothing is checked here: the only
    calls that can raise are [np.ones] and [create_boundary]. *)
Definition LangevinSimulation_init (np : Numpy) (natoms : Z) (mass : Q)
    (box : Box) (temperature dt relaxation_time : Q)
    (boundary_type : string) (radius : Q) (w : World)
    : result LangevinSimulation * World :=
  let mass_per_particle := mass / AVOGADRO in
  match np_ones natoms with
  | Raise e => (Raise e, w)
  | Ok ones =>
      let mass_array := map (fun one => one * mass_per_particle) ones in
      let radius_array := map (fun one => one * radius) ones in
      match create_boundary boundary_type box with
      | Raise e => (Raise e, w)
      | Ok bc =>
          let '(p, v, g) := _initialize_system np natoms box (cursor w) in
          (Ok {| natoms := natoms; mass_per_particle := mass_per_particle;
                 mass := mass_array; box := box; ndims := length box;
                 temperature := temperature; dt := dt;
                 relaxation_time := relaxation_time; radius := radius_array;
                 boundary := bc; pos := p; vels := v;
                 trajectory := <["time" := PyList []]>
                               (<["temperature" := PyList []]>
                               (<["kinetic_energy" := PyList []]> ∅)) |},
           set_cursor g w)
      end
  end.

(** [LangevinSimulation.step] *)
Definition step (np : Numpy) (self : LangevinSimulation) (g : nat)
    : LangevinSimulation * nat :=
  let '(force, g) :=
    compute_langevin_force np (mass self) (vels self) (temperature self)
      (relaxation_time self) (dt self) g in
  let '(p, v) := euler_integrate (pos self) (vels self) force (mass self) (dt self) in
  let '(p, v) := apply (boundary self) p v in
  (set_state p v self, g).

(** Statements of [run]: they act on the simulation object and the world,
    and an exception leaves both as they are at that point. *)
Definition M (A : Type) : Type :=
  LangevinSimulation * World -> result A * (LangevinSimulation * World).

Definition ret {A : Type} (a : A) : M A := fun st => (Ok a, st).
Definition raise {A : Type} (e : exn) : M A := fun st => (Raise e, st).
Definition bind {A B : Type} (c : M A) (k : A -> M B) : M B :=
  fun st => match c st with
            | (Ok a, st') => k a st'
            | (Raise e, st') => (Raise e, st')
            end.
Definition lift {A : Type} (r : result A) : M A := fun st => (r, st).
Definition get_self : M LangevinSimulation := fun st => (Ok st.1, st).
Definition get_world : M World := fun st => (Ok st.2, st).
Definition put_self (self : LangevinSimulation) : M unit := fun st => (Ok tt, (self, st.2)).
Definition put_world (w : World) : M unit := fun st => (Ok tt, (st.1, w)).

Notation "x <- c1 ;; c2" := (bind c1 (fun x => c2))
  (at level 100, c1 at next level, right associativity).
Notation "c1 ;; c2" := (bind c1 (fun _ => c2))
  (at level 100, right associativity).

(** [for x in l: body] *)
Fixpoint for_each {A : Type} (l : list A) (body : A -> M unit) : M unit :=
  match l with
  | [] => ret tt
  | x :: l' => body x ;; for_each l' body
  end.

(** [self.step()] *)
Definition self_step (np : Numpy) : M unit :=
  self <- get_self ;; w <- get_world ;;
  let '(self', g) := step np self (cursor w) in
  put_self self' ;; put_world (set_cursor g w).

(** [self.trajectory[key].append(x)] *)
Definition trajectory_append (key : string) (x : Q) : M unit :=
  self <- get_self ;;
  match trajectory self !! key with
  | Some (PyList l) =>
      put_self (set_trajectory (<[key := PyList (l ++ [x])]> (trajectory self)) self)
  | Some (NdArray _) => raise AttributeError
  | None => raise KeyError
  end.

(** [writer.write_frame(timestep=step, natoms=self.natoms, box=self.box,
    radius=self.radius, pos=self.pos, v=self.vels)] *)
Definition self_write_frame (filename : string) (step_ : Z) : M unit :=
  self <- get_self ;; w <- get_world ;;
  fs <- lift (write_frame filename step_ (natoms self) (box self) (radius self)
                (pos self) (vels self) (files w)) ;;
  put_world (set_files fs w).

Definition py_print (l : Line) : M unit :=
  w <- get_world ;; put_world (print l w).

(** The truth value of [output_file]: [None] and the empty string are false. *)
Definition truthy (output_file : option string) : option string :=
  match output_file with
  | Some "" => None
  | other => other
  end.

(** The body of the main loop of [run]. *)
Definition run_body (np : Numpy) (nsteps : Z) (writer : option string)
    (dump_frequency : Z) (verbose : bool) (step_ : Z) : M unit :=
  self_step np ;;
  self <- get_self ;;
  let current_temp := compute_temperature (mass self) (vels self) in
  let current_time := inject_Z step_ * dt self in
  trajectory_append "time" current_time ;;
  trajectory_append "temperature" current_temp ;;
  match writer with
  | Some filename =>
      m <- lift (py_mod step_ dump_frequency) ;;
      if (m =? 0)%Z then self_write_frame filename step_ else ret tt
  | None => ret tt
  end ;;
  if verbose then
    m <- lift (py_mod step_ (nsteps / 10)) ;;
    if (m =? 0)%Z
    then py_print (progress_line step_ nsteps current_temp (current_time * 1e12))
    else ret tt
  else ret tt.

(** [LangevinSimulation.run] *)
Definition run (np : Numpy) (nsteps : Z) (output_file : option string)
    (dump_frequency : Z) (verbose : bool) : M (gmap string pyseq) :=
  writer <-
    match truthy output_file with
    | Some filename =>
        w <- get_world ;;
        match files w !! filename with
        | Some _ => put_world (set_files (delete filename (files w)) w)
        | None => ret tt
        end ;;
        ret (Some filename)
    | None => ret None
    end ;;
  for_each (py_range 1 (nsteps + 1))
    (run_body np nsteps writer dump_frequency verbose) ;;
  self <- get_self ;;
  put_self (set_trajectory (np_array <$> trajectory self) self) ;;
  (if verbose then
     self <- get_self ;;
     match trajectory self !! "temperature" with
     | Some temps =>
         py_print (complete_lines (np_mean (items temps))) ;;
         match truthy output_file with
         | Some filename => py_print (saved_line filename)
         | None => ret tt
         end
     | None => raise KeyError
     end
   else ret tt) ;;
  self <- get_self ;;
  ret (trajectory self).

(** [k] successive calls of [step]. *)
Fixpoint steps (np : Numpy) (k : nat) (self : LangevinSimulation) (g : nat)
    : LangevinSimulation * nat :=
  match k with
  | O => (self, g)
  | S k' => let '(self', g') := step np self g in steps np k' self' g'
  end.


(** ** Pointwise readings used in the statements *)

(** What one pass of the reflective loop does to one entry of column [i]:
    the lower check, then the upper check on the updated position. *)
Definition reflect1 (b : Q * Q) (xu : Q * Q) : Q * Q :=
  let '(x, u) := xu in
  let '(x1, u1) := if Qle_bool x b.1 then (b.1, Qabs u) else (x, u) in
  if Qle_bool b.2 x1 then (b.2, - Qabs u1) else (x1, u1).

(** Its position component does not depend on the velocity. *)
Definition clamp1 (b : Q * Q) (x : Q) : Q :=
  let x1 := if Qle_bool x b.1 then b.1 else x in
  if Qle_bool b.2 x1 then b.2 else x1.

(** What one pass of the periodic loop does to one entry of column [i]. *)
Definition wrap1 (b : Q * Q) (x : Q) : Q := b.1 + np_mod (x - b.1) (b.2 - b.1).

(** ** Reading the dump file *)

(** The timesteps of the blocks in the file at [path], in file order; a
    missing file has none. *)
Definition dumped (path : string) (st : LangevinSimulation * World) : list Z :=
  map frame_timestep (default [] (files st.2 !! path)).

Definition is_ok {A : Type} (r : result A) : bool :=
  match r with Ok _ => true | Raise _ => false end.

(** A statement that appends to the file at [path] blocks for the
    timesteps [ks], in this order: all of them when it returns, the first
    few when it raises. *)
Definition appends {A : Type} (path : string) (c : M A) (ks : list Z) : Prop :=
  forall st, exists done_,
    done_ `prefix_of` ks /\
    dumped path (c st).2 = dumped path st ++ done_ /\
    (is_ok (c st).1 = true -> done_ = ks).

(** ** utils/analysis.py: running average *)

(** [np.convolve(a, v, mode='valid')]: the longer sequence slides over the
    shorter one, reversed; numpy swaps the arguments when [v] is the longer
    and refuses an empty sequence. *)
Definition np_convolve_valid (a v : ndarray1) : result ndarray1 :=
  let '(a, v) := if (length a <? length v)%nat then (v, a) else (a, v) in
  match a, v with
  | [], _ => Raise (ValueError "a cannot be empty")
  | _, [] => Raise (ValueError "v cannot be empty")
  | _, _ =>
      Ok (map (fun k => np_sum (zip_with Qmult (take (length v) (drop k a))
                                              (reverse v)))
              (seq 0 (length a - length v + 1)))
  end.

Definition running_average (data : ndarray1) (window : Z) : result ndarray1 :=
  result_bind (np_ones window) (fun ones =>
  np_convolve_valid data (map (fun one => one / inject_Z window) ones)).

(** ** The shape invariant of the simulation *)

(** [self.box] as the boundary object holds it. *)
Definition boundary_box (bc : BoundaryCondition) : Box :=
  match bc with
  | ReflectiveBoundary b => b
  | PeriodicBoundary b => b
  end.

(** The arrays of the simulation agree: [n] particles in [d] dimensions. *)
Definition well_shaped (n d : nat) (self : LangevinSimulation) : Prop :=
  has_shape n d (pos self) /\ has_shape n d (vels self) /\
  length (mass self) = n /\ length (boundary_box (boundary self)) = d.

(** ** Properties of the trajectory dict that statements keep *)

(** A statement that keeps a property of [self.trajectory]. *)
Definition keeps_trajectory {A : Type} (T : gmap string pyseq -> Prop)
    (c : M A) : Prop :=
  forall st, T (trajectory st.1) -> T (trajectory (c st).2.1).

(** A property that survives [self.trajectory[key].append(x)]. *)
Definition append_stable (T : gmap string pyseq -> Prop) (key : string) : Prop :=
  forall t l x, t !! key = Some (PyList l) -> T t ->
                T (<[key := PyList (l ++ [x])]> t).

(** ** Sample data for the examples *)

(** A numpy for the examples: an integer square root, uniform samples all
    1/2, normal samples alternating between 1 and -1. *)
Definition np_example : Numpy :=
  {| np_sqrt := fun x => inject_Z (Z.sqrt (Qfloor x));
     uniform := fun _ => 1 # 2;
     normal := fun k => if Nat.even k then 1 else -1 |}.

Definition world_example : World :=
  {| cursor := 0; files := ∅; stdout := [] |}.

(** A configuration with every required key and a zero timestep. *)
Definition config_example : gmap string pyval :=
  <["natoms" := PyNum 100]> (<["mass" := PyNum 1.008e-3]>
  (<["temperature" := PyNum 300]> (<["dt" := PyNum 0]>
  (<["relaxation_time" := PyNum 1e-12]> (<["nsteps" := PyNum 1000]>
  (<["box" := PySeq [[0; 1]]]> ∅)))))).


(** ** The arithmetic in binary64 *)

(** The functions whose results depend on rounding, on infinities or on
    NaN, once more on IEEE 754 binary64 numbers ([float], round to nearest
    even), which is what a numpy [float64] and a Python [float] are.  The
    control flow is that of the definitions above; only the numbers and
    their operations change. *)
Module Float64.

Local Open Scope float_scope.

Abbreviation ndarray1 := (list float) (only parsing).
Abbreviation ndarray2 := (list (list float)) (only parsing).

Definition shape (a : ndarray2) : nat * nat :=
  (length a, match a with [] => O | row :: _ => length row end).

Definition has_shape (n d : nat) (a : ndarray2) : Prop :=
  length a = n /\ Forall (fun row => length row = d) a.

(** [a[r, i]] *)
Definition get2 (a : ndarray2) (r i : nat) : option float :=
  match a !! r with
  | Some row => row !! i
  | None => None
  end.

(** [a[:, i]] *)
Definition column (i : nat) (a : ndarray2) : ndarray1 :=
  map (fun row => default 0 (row !! i)) a.

(** [a[mask, i] = f(a[mask, i])] *)
Definition assign_masked (mask : list bool) (i : nat) (f : float -> float)
    (a : ndarray2) : ndarray2 :=
  zip_with (fun (b : bool) row => if b then alter f i row else row) mask a.

(** [a[:, i] = c] *)
Definition assign_column (i : nat) (c : ndarray1) (a : ndarray2) : ndarray2 :=
  zip_with (fun x row => <[i:=x]> row) c a.

Definition add2 (a b : ndarray2) : ndarray2 := zip_with (zip_with add) a b.
Definition neg2 (a : ndarray2) : ndarray2 := map (map opp) a.
(** [a ** 2], which numpy computes as [a * a] *)
Definition square2 (a : ndarray2) : ndarray2 := map (map (fun x => x * x)) a.
Definition scale2 (a : ndarray2) (c : float) : ndarray2 := map (map (fun x => x * c)) a.
Definition div_scalar2 (a : ndarray2) (c : float) : ndarray2 :=
  map (map (fun x => x / c)) a.
Definition mul_rows (m : ndarray1) (a : ndarray2) : ndarray2 :=
  zip_with (fun mi row => map (fun x => mi * x) row) m a.
Definition rows_mul (a : ndarray2) (m : ndarray1) : ndarray2 :=
  zip_with (fun row mi => map (fun x => x * mi) row) a m.
Definition rows_div (a : ndarray2) (m : ndarray1) : ndarray2 :=
  zip_with (fun row mi => map (fun x => x / mi) row) a m.
Definition sub_row (a : ndarray2) (v : ndarray1) : ndarray2 :=
  map (fun row => zip_with sub row v) a.

Definition np_ones (n : Z) : result ndarray1 :=
  if (n <? 0)%Z then Raise (ValueError "negative dimensions are not allowed")
  else Ok (replicate (Z.to_nat n) 1).

(** What is taken from numpy as given: the samples of [np.random.rand] and
    [np.random.randn], indexed by the number of samples drawn before, and
    the reductions [np.mean(a, axis=0)], [np.sum(a)] and [np.mean(v)],
    whose order of summation is numpy's own.  [np.sqrt] is the correctly
    rounded [sqrt]. *)
Record Numpy := {
  uniform : nat -> float;
  normal : nat -> float;
  np_mean0 : ndarray2 -> ndarray1;
  np_sum : ndarray2 -> float;
  np_mean : ndarray1 -> float
}.

Definition draw (src : nat -> float) (n d g : nat) : ndarray2 :=
  map (fun r => map (fun c => src (g + r * d + c)%nat) (seq 0 d)) (seq 0 n).

(** [float(k)], the conversion that [k * x] applies to a Python int: the
    nearest binary64, ties to even.  (Python refuses integers from 2^1024
    on with [OverflowError]; the counter of a loop is far below.) *)
Definition float_of_int (k : Z) : float :=
  SF2Prim (binary_normalize prec emax k 0 false).

(** The [fmod] of the C library: the remainder of [a / b] truncated
    towards zero, which is exact and has the sign of [a]. *)
Definition fmod (a b : float) : float :=
  match Prim2SF a, Prim2SF b with
  | S754_nan, _ | _, S754_nan => nan
  | S754_infinity _, _ => nan
  | _, S754_zero _ => nan
  | S754_zero _, _ => a
  | S754_finite _ _ _, S754_infinity _ => a
  | S754_finite s ma ea, S754_finite _ mb eb =>
      let e := Z.min ea eb in
      match ((Zpos ma * 2 ^ (ea - e)) mod (Zpos mb * 2 ^ (eb - e)))%Z with
      | Zpos m => SF2Prim (S754_finite s m e)
      | _ => if s then neg_zero else zero
      end
  end.

(** [a % b] on floats, as numpy's [npy_remainder] and Python's [float_rem]
    compute it: [fmod], moved by [b] when its sign differs from that of
    [b], and a zero with the sign of [b] when it is zero. *)
Definition np_mod (a b : float) : float :=
  let mod_ := fmod a b in
  if is_zero b then mod_
  else if is_zero mod_ then (if get_sign b then neg_zero else zero)
  else if xorb (b <? 0) (mod_ <? 0) then mod_ + b
  else mod_.

(** *** constants.py *)

Definition AVOGADRO : float := 6.02214086e23.
Definition BOLTZMANN : float := 1.38064852e-23.

(** *** boundary.py *)

Abbreviation Box := (list (float * float)) (only parsing).

Inductive BoundaryCondition :=
| ReflectiveBoundary (box : Box)
| PeriodicBoundary (box : Box).

Fixpoint for_axes {St : Type} (body : nat -> float * float -> St -> St)
    (i : nat) (box : Box) (st : St) : St :=
  match box with
  | [] => st
  | b :: rest => for_axes body (S i) rest (body i b st)
  end.

(** One iteration of the loop of [ReflectiveBoundary.apply]; [x >= hi] is
    [hi <= x], and both comparisons are false on NaN. *)
Definition reflective_axis (i : nat) (b : float * float)
    (pv : ndarray2 * ndarray2) : ndarray2 * ndarray2 :=
  let '(pos, vels) := pv in
  let mask_lower := map (fun x => x <=? b.1) (column i pos) in
  let vels := assign_masked mask_lower i abs vels in
  let pos := assign_masked mask_lower i (fun _ => b.1) pos in
  let mask_upper := map (fun x => b.2 <=? x) (column i pos) in
  let vels := assign_masked mask_upper i (fun v => - abs v) vels in
  let pos := assign_masked mask_upper i (fun _ => b.2) pos in
  (pos, vels).

Definition ReflectiveBoundary_apply (box : Box) (pos vels : ndarray2)
    : ndarray2 * ndarray2 :=
  for_axes reflective_axis 0 box (pos, vels).

(** One iteration of the loop of [PeriodicBoundary.apply]. *)
Definition periodic_axis (i : nat) (b : float * float) (pos : ndarray2) : ndarray2 :=
  let box_length := b.2 - b.1 in
  assign_column i
    (map (fun x => b.1 + np_mod (x - b.1) box_length) (column i pos)) pos.

Definition PeriodicBoundary_apply (box : Box) (pos vels : ndarray2)
    : ndarray2 * ndarray2 :=
  (for_axes periodic_axis 0 box pos, vels).

Definition apply (bc : BoundaryCondition) (pos vels : ndarray2)
    : ndarray2 * ndarray2 :=
  match bc with
  | ReflectiveBoundary box => ReflectiveBoundary_apply box pos vels
  | PeriodicBoundary box => PeriodicBoundary_apply box pos vels
  end.

Definition boundary_types : list (string * (Box -> BoundaryCondition)) :=
  [("reflective"%string, ReflectiveBoundary); ("periodic"%string, PeriodicBoundary)].

Definition create_boundary (boundary_type : string) (box : Box)
    : result BoundaryCondition :=
  match dict_get (lower boundary_type) boundary_types with
  | None =>
      Raise (ValueError ("Unknown boundary type: " +:+ boundary_type +:+ ". "
                         +:+ "Available types: " +:+ repr_list boundary_types.*1))
  | Some cls => Ok (cls box)
  end.

(** *** integrators.py *)

Definition euler_integrate (pos vels force : ndarray2) (mass : ndarray1)
    (dt : float) : ndarray2 * ndarray2 :=
  let pos := add2 pos (scale2 vels dt) in
  let vels := add2 vels (rows_div (scale2 force dt) mass) in
  (pos, vels).

(** *** forces.py *)

Definition compute_langevin_force (np : Numpy) (mass : ndarray1)
    (vels : ndarray2) (temperature relaxation_time dt : float) (g : nat)
    : ndarray2 * nat :=
  let '(natoms, ndims) := shape vels in
  let friction_force := div_scalar2 (neg2 (mul_rows mass vels)) relaxation_time in
  let sigma :=
    map (fun m => sqrt (2.0 * m * temperature * BOLTZMANN
                        / (relaxation_time * dt))) mass in
  let random_force := rows_mul (draw (normal np) natoms ndims g) sigma in
  let total_force := add2 friction_force random_force in
  (total_force, (g + natoms * ndims)%nat).

(** *** utils/analysis.py *)

Definition compute_temperature (np : Numpy) (mass : ndarray1)
    (vels : ndarray2) : float :=
  let '(natoms, ndims) := shape vels in
  let v_cm := np_mean0 np vels in
  let v_rel := sub_row vels v_cm in
  let ke := 0.5 * np_sum np (mul_rows mass (square2 v_rel)) in
  2.0 * ke / (float_of_int (Z.of_nat ndims * Z.of_nat natoms) * BOLTZMANN).

Definition compute_kinetic_energy (np : Numpy) (mass : ndarray1)
    (vels : ndarray2) : float :=
  0.5 * np_sum np (mul_rows mass (square2 vels)).

(** *** io/lammps_writer.py *)

Record Frame := {
  frame_timestep : Z;
  frame_natoms : Z;
  frame_box : Box;
  frame_radius : ndarray1;
  frame_pos : ndarray2;
  frame_v : ndarray2
}.

Abbreviation Files := (gmap string (list Frame)).

Definition write_frame (filename : string) (timestep natoms : Z) (box : Box)
    (radius : ndarray1) (pos v : ndarray2) (fs : Files) : result Files :=
  if ((3 <? (shape pos).2) || (3 <? (shape v).2))%nat then Raise IndexError
  else
    let block := {| frame_timestep := timestep; frame_natoms := natoms;
                    frame_box := box; frame_radius := radius;
                    frame_pos := pos; frame_v := v |} in
    Ok (<[filename := default [] (fs !! filename) ++ [block]]> fs).

(** *** simulation.py *)

Inductive pyseq :=
| PyList (l : list float)
| NdArray (l : list float).

Definition items (s : pyseq) : list float :=
  match s with PyList l | NdArray l => l end.

Definition np_array (s : pyseq) : pyseq := NdArray (items s).

Record LangevinSimulation := {
  natoms : Z;
  mass_per_particle : float;
  mass : ndarray1;
  box : Box;
  ndims : nat;
  temperature : float;
  dt : float;
  relaxation_time : float;
  radius : ndarray1;
  boundary : BoundaryCondition;
  pos : ndarray2;
  vels : ndarray2;
  trajectory : gmap string pyseq
}.

Definition set_state (p v : ndarray2) (self : LangevinSimulation)
    : LangevinSimulation :=
  {| natoms := natoms self; mass_per_particle := mass_per_particle self;
     mass := mass self; box := box self; ndims := ndims self;
     temperature := temperature self; dt := dt self;
     relaxation_time := relaxation_time self; radius := radius self;
     boundary := boundary self; pos := p; vels := v;
     trajectory := trajectory self |}.

Definition set_trajectory (t : gmap string pyseq) (self : LangevinSimulation)
    : LangevinSimulation :=
  {| natoms := natoms self; mass_per_particle := mass_per_particle self;
     mass := mass self; box := box self; ndims := ndims self;
     temperature := temperature self; dt := dt self;
     relaxation_time := relaxation_time self; radius := radius self;
     boundary := boundary self; pos := pos self; vels := vels self;
     trajectory := t |}.

Inductive Line :=
| progress_line (step nsteps : Z) (current_temp time_ps : float)
| complete_lines (avg_temp : float)
| saved_line (output_file : string).

Record World := {
  cursor : nat;
  files : Files;
  stdout : list Line
}.

Definition set_cursor (g : nat) (w : World) : World :=
  {| cursor := g; files := files w; stdout := stdout w |}.
Definition set_files (fs : Files) (w : World) : World :=
  {| cursor := cursor w; files := fs; stdout := stdout w |}.
Definition print (l : Line) (w : World) : World :=
  {| cursor := cursor w; files := files w; stdout := stdout w ++ [l] |}.

Definition _initialize_system (np : Numpy) (natoms : Z) (box : Box) (g : nat)
    : ndarray2 * ndarray2 * nat :=
  let n := Z.to_nat natoms in
  let ndims := length box in
  let pos := draw (uniform np) n ndims g in
  let g := (g + n * ndims)%nat in
  let pos :=
    for_axes (fun i b pos =>
      assign_column i (map (fun u => b.1 + (b.2 - b.1) * u) (column i pos)) pos)
      0 box pos in
  let vels := draw (normal np) n ndims g in
  let g := (g + n * ndims)%nat in
  let vels := sub_row vels (np_mean0 np vels) in
  (pos, vels, g).

(** [LangevinSimulation.__init__] *)
Definition LangevinSimulation_init (np : Numpy) (natoms : Z) (mass : float)
    (box : Box) (temperature dt relaxation_time : float)
    (boundary_type : string) (radius : float) (w : World)
    : result LangevinSimulation * World :=
  let mass_per_particle := mass / AVOGADRO in
  match np_ones natoms with
  | Raise e => (Raise e, w)
  | Ok ones =>
      let mass_array := map (fun one => one * mass_per_particle) ones in
      let radius_array := map (fun one => one * radius) ones in
      match create_boundary boundary_type box with
      | Raise e => (Raise e, w)
      | Ok bc =>
          let '(p, v, g) := _initialize_system np natoms box (cursor w) in
          (Ok {| natoms := natoms; mass_per_particle := mass_per_particle;
                 mass := mass_array; box := box; ndims := length box;
                 temperature := temperature; dt := dt;
                 relaxation_time := relaxation_time; radius := radius_array;
                 boundary := bc; pos := p; vels := v;
                 trajectory := <["time"%string := PyList []]>
                               (<["temperature"%string := PyList []]>
                               (<["kinetic_energy"%string := PyList []]> ∅)) |},
           set_cursor g w)
      end
  end.

(** [LangevinSimulation.step] *)
Definition step (np : Numpy) (self : LangevinSimulation) (g : nat)
    : LangevinSimulation * nat :=
  let '(force, g) :=
    compute_langevin_force np (mass self) (vels self) (temperature self)
      (relaxation_time self) (dt self) g in
  let '(p, v) := euler_integrate (pos self) (vels self) force (mass self) (dt self) in
  let '(p, v) := apply (boundary self) p v in
  (set_state p v self, g).

Fixpoint steps (np : Numpy) (k : nat) (self : LangevinSimulation) (g : nat)
    : LangevinSimulation * nat :=
  match k with
  | O => (self, g)
  | S k' => let '(self', g') := step np self g in steps np k' self' g'
  end.

(** [current_time = step * self.dt] in the loop of [run] *)
Definition current_time (step_ : Z) (dt : float) : float :=
  float_of_int step_ * dt.

(** Statements of [run], as in the first part. *)
Definition M (A : Type) : Type :=
  LangevinSimulation * World -> result A * (LangevinSimulation * World).

Definition ret {A : Type} (a : A) : M A := fun st => (Ok a, st).
Definition raise {A : Type} (e : exn) : M A := fun st => (Raise e, st).
Definition bind {A B : Type} (c : M A) (k : A -> M B) : M B :=
  fun st => match c st with
            | (Ok a, st') => k a st'
            | (Raise e, st') => (Raise e, st')
            end.
Definition lift {A : Type} (r : result A) : M A := fun st => (r, st).
Definition get_self : M LangevinSimulation := fun st => (Ok st.1, st).
Definition get_world : M World := fun st => (Ok st.2, st).
Definition put_self (self : LangevinSimulation) : M unit := fun st => (Ok tt, (self, st.2)).
Definition put_world (w : World) : M unit := fun st => (Ok tt, (st.1, w)).

Declare Scope f64_scope.
Local Notation "x <- c1 ;; c2" := (bind c1 (fun x => c2))
  (at level 100, c1 at next level, right associativity) : f64_scope.
Local Notation "c1 ;; c2" := (bind c1 (fun _ => c2))
  (at level 100, right associativity) : f64_scope.
Local Open Scope f64_scope.

Fixpoint for_each {A : Type} (l : list A) (body : A -> M unit) : M unit :=
  match l with
  | [] => ret tt
  | x :: l' => body x ;; for_each l' body
  end.

Definition self_step (np : Numpy) : M unit :=
  self <- get_self ;; w <- get_world ;;
  let '(self', g) := step np self (cursor w) in
  put_self self' ;; put_world (set_cursor g w).

Definition trajectory_append (key : string) (x : float) : M unit :=
  self <- get_self ;;
  match trajectory self !! key with
  | Some (PyList l) =>
      put_self (set_trajectory (<[key := PyList (l ++ [x])]> (trajectory self)) self)
  | Some (NdArray _) => raise AttributeError
  | None => raise KeyError
  end.

Definition self_write_frame (filename : string) (step_ : Z) : M unit :=
  self <- get_self ;; w <- get_world ;;
  fs <- lift (write_frame filename step_ (natoms self) (box self) (radius self)
                (pos self) (vels self) (files w)) ;;
  put_world (set_files fs w).

Definition py_print (l : Line) : M unit :=
  w <- get_world ;; put_world (print l w).

(** The body of the main loop of [run]. *)
Definition run_body (np : Numpy) (nsteps : Z) (writer : option string)
    (dump_frequency : Z) (verbose : bool) (step_ : Z) : M unit :=
  self_step np ;;
  self <- get_self ;;
  let current_temp := compute_temperature np (mass self) (vels self) in
  let current_time := current_time step_ (dt self) in
  trajectory_append "time" current_time ;;
  trajectory_append "temperature" current_temp ;;
  match writer with
  | Some filename =>
      m <- lift (py_mod step_ dump_frequency) ;;
      if (m =? 0)%Z then self_write_frame filename step_ else ret tt
  | None => ret tt
  end ;;
  if verbose then
    m <- lift (py_mod step_ (nsteps / 10)) ;;
    if (m =? 0)%Z
    then py_print (progress_line step_ nsteps current_temp (current_time * 1e12))
    else ret tt
  else ret tt.

(** [LangevinSimulation.run] *)
Definition run (np : Numpy) (nsteps : Z) (output_file : option string)
    (dump_frequency : Z) (verbose : bool) : M (gmap string pyseq) :=
  writer <-
    match truthy output_file with
    | Some filename =>
        w <- get_world ;;
        match files w !! filename with
        | Some _ => put_world (set_files (delete filename (files w)) w)
        | None => ret tt
        end ;;
        ret (Some filename)
    | None => ret None
    end ;;
  for_each (py_range 1 (nsteps + 1))
    (run_body np nsteps writer dump_frequency verbose) ;;
  self <- get_self ;;
  put_self (set_trajectory (np_array <$> trajectory self) self) ;;
  (if verbose then
     self <- get_self ;;
     match trajectory self !! "temperature"%string with
     | Some temps =>
         py_print (complete_lines (np_mean np (items temps))) ;;
         match truthy output_file with
         | Some filename => py_print (saved_line filename)
         | None => ret tt
         end
     | None => raise KeyError
     end
   else ret tt) ;;
  self <- get_self ;;
  ret (trajectory self).

(** What one pass of the reflective loop does to the position in one entry
    of column [i]: the lower check, then the upper check on the updated
    position. *)
Definition clamp1 (b : float * float) (x : float) : float :=
  let x1 := if x <=? b.1 then b.1 else x in
  if b.2 <=? x1 then b.2 else x1.

(** The same number, or two zeros that differ at most in sign. *)
Definition unchanged (u' u : float) : Prop :=
  u' = u \/ (is_zero u' = true /\ is_zero u = true).

(** A numpy for the examples: uniform samples all 0.5, normal samples
    alternating between 1 and -1, reductions that add row after row. *)
Definition np_example : Numpy :=
  {| uniform := fun _ => 0.5;
     normal := fun k => if Nat.even k then 1 else -1;
     np_mean0 := fun a =>
       map (fun c => foldl add 0 (column c a) / float_of_int (Z.of_nat (length a)))
           (seq 0 (shape a).2);
     np_sum := fun a => foldl add 0 (concat a);
     np_mean := fun v => foldl add 0 v / float_of_int (Z.of_nat (length v)) |}.

Definition world_example : World :=
  {| cursor := 0; files := ∅; stdout := [] |}.

End Float64.


(** * Properties *)

(** ** Arrays *)

Lemma get2_assign_masked mask i f a r j :
  get2 (assign_masked mask i f a) r j =
  match mask !! r with
  | Some b => if b && bool_decide (i = j) then f <$> get2 a r j else get2 a r j
  | None => None
  end.
Proof.
  unfold get2, assign_masked. rewrite lookup_zip_with.
  destruct (mask !! r) as [b|]; simpl; [|done].
  destruct (a !! r) as [row|]; simpl.
  - destruct b; simpl; [|done].
    case_bool_decide; subst.
    + rewrite list_lookup_alter. by case_decide.
    + by rewrite list_lookup_alter_ne.
  - by destruct (b && _).
Qed.

Lemma get2_assign_masked_None mask i f a r j :
  get2 a r j = None -> get2 (assign_masked mask i f a) r j = None.
Proof.
  intros H. rewrite get2_assign_masked, H.
  destruct (mask !! r) as [b|]; [|done]. by destruct (b && _).
Qed.

Lemma get2_assign_masked_ne mask i f a r j :
  i <> j ->
  get2 (assign_masked mask i f a) r j =
  match mask !! r with Some _ => get2 a r j | None => None end.
Proof.
  intros H. rewrite get2_assign_masked.
  destruct (mask !! r) as [b|]; [|done].
  by rewrite bool_decide_eq_false_2, andb_false_r.
Qed.

Lemma mask_lookup (test : Q -> bool) i (a : ndarray2) r :
  map test (column i a) !! r =
  (fun row => test (default 0 (row !! i))) <$> a !! r.
Proof.
  unfold column. rewrite !list_lookup_fmap. by destruct (a !! r).
Qed.

Lemma mask_lookup_entry (test : Q -> bool) i (a : ndarray2) r x :
  get2 a r i = Some x -> map test (column i a) !! r = Some (test x).
Proof.
  unfold get2. rewrite mask_lookup. destruct (a !! r); [|done].
  simpl. by intros ->.
Qed.

(** ** boundary.py: the reflective loop, entry by entry *)

Lemma reflect1_pos b x u : (reflect1 b (x, u)).1 = clamp1 b x.
Proof.
  unfold reflect1, clamp1. destruct (Qle_bool x b.1); simpl;
    by destruct (Qle_bool b.2 _).
Qed.

Lemma reflective_axis_pos_entry i b pos vels r :
  get2 (reflective_axis i b (pos, vels)).1 r i = clamp1 b <$> get2 pos r i.
Proof.
  unfold reflective_axis. cbn [fst].
  destruct (get2 pos r i) as [x|] eqn:Hx.
  - rewrite get2_assign_masked.
    erewrite mask_lookup_entry; last first.
    { rewrite get2_assign_masked. erewrite mask_lookup_entry by done.
      rewrite Hx, bool_decide_eq_true_2 by done. simpl.
      by instantiate (1 := if Qle_bool x b.1 then b.1 else x);
        destruct (Qle_bool x b.1). }
    rewrite get2_assign_masked. erewrite mask_lookup_entry by done.
    rewrite Hx, bool_decide_eq_true_2 by done. simpl. unfold clamp1.
    destruct (Qle_bool x b.1); simpl; by destruct (Qle_bool b.2 _).
  - simpl. by do 2 apply get2_assign_masked_None.
Qed.

Lemma reflective_axis_pos_other i j b pos vels r :
  i <> j -> get2 (reflective_axis i b (pos, vels)).1 r j = get2 pos r j.
Proof.
  intros Hij. unfold reflective_axis. cbn [fst].
  rewrite !get2_assign_masked_ne by done.
  rewrite !mask_lookup. unfold assign_masked at 1.
  rewrite lookup_zip_with, mask_lookup. unfold get2.
  by destruct (pos !! r).
Qed.

Lemma reflective_axis_vels_entry i b pos vels r x u :
  get2 pos r i = Some x -> get2 vels r i = Some u ->
  get2 (reflective_axis i b (pos, vels)).2 r i = Some (reflect1 b (x, u)).2.
Proof.
  intros Hx Hu. unfold reflective_axis. cbn [snd].
  rewrite get2_assign_masked.
  erewrite mask_lookup_entry; last first.
  { rewrite get2_assign_masked. erewrite mask_lookup_entry by done.
    rewrite Hx, bool_decide_eq_true_2 by done. simpl.
    by instantiate (1 := if Qle_bool x b.1 then b.1 else x);
      destruct (Qle_bool x b.1). }
  rewrite get2_assign_masked. erewrite mask_lookup_entry by done.
  rewrite Hu, bool_decide_eq_true_2 by done. simpl. unfold reflect1.
  destruct (Qle_bool x b.1); simpl; by destruct (Qle_bool b.2 _).
Qed.

Lemma reflective_axis_vels_other i j b pos vels r :
  i <> j -> is_Some (pos !! r) ->
  get2 (reflective_axis i b (pos, vels)).2 r j = get2 vels r j.
Proof.
  intros Hij [row Hrow]. unfold reflective_axis. cbn [snd].
  rewrite !get2_assign_masked_ne by done.
  rewrite !mask_lookup. unfold assign_masked at 1.
  rewrite lookup_zip_with, mask_lookup, Hrow. done.
Qed.

Lemma reflective_axis_rows i b pos vels r :
  is_Some (pos !! r) -> is_Some ((reflective_axis i b (pos, vels)).1 !! r).
Proof.
  intros [row Hrow]. unfold reflective_axis. cbn [fst].
  unfold assign_masked. rewrite !lookup_zip_with, !mask_lookup.
  rewrite lookup_zip_with, mask_lookup, Hrow. simpl. eauto.
Qed.


#[local] Arguments reflective_axis : simpl never.

Lemma get2_Some_row (a : ndarray2) r i x :
  get2 a r i = Some x -> is_Some (a !! r).
Proof. unfold get2. destruct (a !! r); [eauto | done]. Qed.

Lemma reflective_loop_pos_done box k pos vels r i :
  (i < k)%nat ->
  get2 (for_axes reflective_axis k box (pos, vels)).1 r i = get2 pos r i.
Proof.
  revert k pos vels. induction box as [|b0 rest IH]; intros k pos vels Hik; [done|].
  simpl. pose proof (reflective_axis_pos_other k i b0 pos vels r) as Hp.
  destruct (reflective_axis k b0 (pos, vels)) as [p1 v1].
  rewrite IH by lia. apply Hp. lia.
Qed.

Lemma reflective_loop_pos box k pos vels r i b :
  (k <= i)%nat -> box !! (i - k)%nat = Some b ->
  get2 (for_axes reflective_axis k box (pos, vels)).1 r i
  = clamp1 b <$> get2 pos r i.
Proof.
  revert k pos vels. induction box as [|b0 rest IH]; intros k pos vels Hki Hb; [done|].
  simpl. destruct (decide (i = k)) as [->|Hne].
  - rewrite Nat.sub_diag in Hb. cbn in Hb. injection Hb as ->.
    pose proof (reflective_axis_pos_entry k b pos vels r) as Hp.
    destruct (reflective_axis k b (pos, vels)) as [p1 v1].
    by rewrite reflective_loop_pos_done by lia.
  - replace (i - k)%nat with (S (i - S k)) in Hb by lia. simpl in Hb.
    pose proof (reflective_axis_pos_other k i b0 pos vels r) as Hp.
    destruct (reflective_axis k b0 (pos, vels)) as [p1 v1].
    rewrite (IH (S k)) by (done || lia). simpl in Hp. by rewrite Hp by lia.
Qed.

Lemma reflective_loop_vels_done box k pos vels r i :
  (i < k)%nat -> is_Some (pos !! r) ->
  get2 (for_axes reflective_axis k box (pos, vels)).2 r i = get2 vels r i.
Proof.
  revert k pos vels. induction box as [|b0 rest IH]; intros k pos vels Hik Hr; [done|].
  simpl. pose proof (reflective_axis_rows k b0 pos vels r Hr) as Hr1.
  pose proof (reflective_axis_vels_other k i b0 pos vels r) as Hv.
  destruct (reflective_axis k b0 (pos, vels)) as [p1 v1]. cbn [fst snd] in *.
  rewrite IH by (done || lia). apply Hv; [lia | done].
Qed.

Lemma reflective_loop_vels box k pos vels r i b x u :
  (k <= i)%nat -> box !! (i - k)%nat = Some b ->
  get2 pos r i = Some x -> get2 vels r i = Some u ->
  get2 (for_axes reflective_axis k box (pos, vels)).2 r i
  = Some (reflect1 b (x, u)).2.
Proof.
  revert k pos vels.
  induction box as [|b0 rest IH]; intros k pos vels Hki Hb Hx Hu; [done|].
  simpl. pose proof (get2_Some_row _ _ _ _ Hx) as Hr.
  pose proof (reflective_axis_rows k b0 pos vels r Hr) as Hr1.
  destruct (decide (i = k)) as [->|Hne].
  - rewrite Nat.sub_diag in Hb. cbn in Hb. injection Hb as ->.
    pose proof (reflective_axis_vels_entry k b pos vels r x u Hx Hu) as Hv.
    destruct (reflective_axis k b (pos, vels)) as [p1 v1]. cbn [fst snd] in *.
    rewrite reflective_loop_vels_done by (done || lia). done.
  - replace (i - k)%nat with (S (i - S k)) in Hb by lia. simpl in Hb.
    pose proof (reflective_axis_pos_other k i b0 pos vels r) as Hp.
    pose proof (reflective_axis_vels_other k i b0 pos vels r) as Hv.
    destruct (reflective_axis k b0 (pos, vels)) as [p1 v1]. cbn [fst snd] in *.
    apply (IH (S k)); [lia | done | |].
    + rewrite Hp by lia. done.
    + rewrite Hv by (done || lia). done.
Qed.

(** The reflective policy, entry by entry. *)
Lemma ReflectiveBoundary_apply_pos box pos vels r i b :
  box !! i = Some b ->
  get2 (ReflectiveBoundary_apply box pos vels).1 r i = clamp1 b <$> get2 pos r i.
Proof.
  intros Hb. apply reflective_loop_pos; [lia|]. by rewrite Nat.sub_0_r.
Qed.

Lemma ReflectiveBoundary_apply_vels box pos vels r i b x u :
  box !! i = Some b -> get2 pos r i = Some x -> get2 vels r i = Some u ->
  get2 (ReflectiveBoundary_apply box pos vels).2 r i = Some (reflect1 b (x, u)).2.
Proof.
  intros Hb. apply reflective_loop_vels; [lia|]. by rewrite Nat.sub_0_r.
Qed.






(** ** boundary.py: the factory *)

(** C9.  [create_boundary] succeeds exactly on the names that, lower-cased,
    are one of the two keys, and returns the boundary of that class built on
    the box; on every other name it raises a [ValueError] whose message
    names the rejected type and lists both keys, and returns no boundary. *)
Theorem create_boundary_selection boundary_type box :
  create_boundary boundary_type box =
  if String.eqb (lower boundary_type) "reflective"
  then Ok (ReflectiveBoundary box)
  else if String.eqb (lower boundary_type) "periodic"
  then Ok (PeriodicBoundary box)
  else Raise (ValueError ("Unknown boundary type: " +:+ boundary_type
                +:+ ". Available types: ['reflective', 'periodic']")).
Proof.
  unfold create_boundary. cbn [boundary_types dict_get].
  destruct (String.eqb (lower boundary_type) "reflective"); [done|].
  destruct (String.eqb (lower boundary_type) "periodic"); done.
Qed.

(** ** Elementwise arithmetic keeps the shape *)

Lemma has_shape_map2 n d (f : Q -> Q) a :
  has_shape n d a -> has_shape n d (map (map f) a).
Proof.
  intros [Hn Hd]. split; [by rewrite length_map|].
  apply Forall_map. eapply Forall_impl; [exact Hd|].
  intros row Hrow. simpl. by rewrite length_map.
Qed.

Lemma has_shape_add2 n d a b :
  has_shape n d a -> has_shape n d b -> has_shape n d (add2 a b).
Proof.
  intros [Ha Hda] [Hb Hdb]. unfold add2. split.
  - rewrite length_zip_with. lia.
  - apply Forall_forall. intros row Hrow.
    apply list_elem_of_lookup in Hrow as [r Hr].
    rewrite lookup_zip_with in Hr.
    destruct (a !! r) as [ra|] eqn:Ea; simpl in Hr; [|done].
    destruct (b !! r) as [rb|] eqn:Eb; simpl in Hr; [|done].
    injection Hr as <-. rewrite length_zip_with.
    rewrite Forall_forall in Hda, Hdb.
    rewrite (Hda ra), (Hdb rb); [lia | |];
      apply list_elem_of_lookup; eauto.
Qed.

Lemma has_shape_rows_div n d a (m : ndarray1) :
  has_shape n d a -> length m = n -> has_shape n d (rows_div a m).
Proof.
  intros [Ha Hda] Hm. unfold rows_div. split.
  - rewrite length_zip_with. lia.
  - apply Forall_forall. intros row Hrow.
    apply list_elem_of_lookup in Hrow as [r Hr].
    rewrite lookup_zip_with in Hr.
    destruct (a !! r) as [ra|] eqn:Ea; simpl in Hr; [|done].
    destruct (m !! r) as [mi|] eqn:Eb; simpl in Hr; [|done].
    injection Hr as <-. rewrite length_map.
    rewrite Forall_forall in Hda. apply Hda.
    apply list_elem_of_lookup; eauto.
Qed.

(** ** integrators.py *)

Lemma euler_integrate_shape n d p v force (mass : ndarray1) dt :
  has_shape n d v -> has_shape n d force -> length mass = n ->
  has_shape n d (euler_integrate p v force mass dt).2.
Proof.
  intros Hv Hf Hm. unfold euler_integrate. cbn [snd].
  apply has_shape_add2; [done|].
  apply has_shape_rows_div; [|done]. by apply has_shape_map2.
Qed.

(** ** utils/analysis.py *)

Lemma column_length i (a : ndarray2) : length (column i a) = length a.
Proof. unfold column. apply length_map. Qed.

(** C5 (code at the failing input).  [compute_temperature] subtracts
    [np.mean(vels, axis=0)], the unweighted mean: for masses 1 and 3 with
    velocities 0 and 4 on one axis it removes 2 where the centre of mass
    moves at 3, and its result differs from the temperature of the
    specification. *)
Theorem compute_temperature_unweighted_mean :
  np_mean0 [[0]; [4]] = [4 # 2] /\
  com_velocity_spec [1; 3] [[0]; [4]] = [12 # 4] /\
  ~ compute_temperature [1; 3] [[0]; [4]] == temperature_spec [1; 3] [[0]; [4]].
Proof.
  split; [reflexivity|]. split; [reflexivity|].
  intros H. vm_compute in H. discriminate H.
Qed.

(** ** simulation.py: [step] *)

Lemma step_unfold np self g :
  step np self g =
  (set_state
     (apply (boundary self)
        (euler_integrate (pos self) (vels self)
           (compute_langevin_force np (mass self) (vels self) (temperature self)
              (relaxation_time self) (dt self) g).1 (mass self) (dt self)).1
        (euler_integrate (pos self) (vels self)
           (compute_langevin_force np (mass self) (vels self) (temperature self)
              (relaxation_time self) (dt self) g).1 (mass self) (dt self)).2).1
     (apply (boundary self)
        (euler_integrate (pos self) (vels self)
           (compute_langevin_force np (mass self) (vels self) (temperature self)
              (relaxation_time self) (dt self) g).1 (mass self) (dt self)).1
        (euler_integrate (pos self) (vels self)
           (compute_langevin_force np (mass self) (vels self) (temperature self)
              (relaxation_time self) (dt self) g).1 (mass self) (dt self)).2).2
     self,
   (compute_langevin_force np (mass self) (vels self) (temperature self)
      (relaxation_time self) (dt self) g).2).
Proof.
  unfold step.
  destruct (compute_langevin_force _ _ _ _ _ _ _) as [force g'].
  cbn [fst snd]. destruct (euler_integrate _ _ _ _ _) as [p v].
  cbn [fst snd]. by destruct (apply _ _ _).
Qed.

(** [step] writes [self.pos] and [self.vels] and nothing else. *)
Lemma step_frame np self g :
  boundary (step np self g).1 = boundary self /\
  trajectory (step np self g).1 = trajectory self /\
  dt (step np self g).1 = dt self /\
  mass (step np self g).1 = mass self /\
  box (step np self g).1 = box self.
Proof. by rewrite step_unfold. Qed.

Lemma steps_last np k self g :
  steps np (S k) self g = step np (steps np k self g).1 (steps np k self g).2.
Proof.
  revert self g. induction k as [|k IH]; intros self g.
  - simpl. by destruct (step np self g).
  - change (steps np (S (S k)) self g)
      with (let '(s, g') := step np self g in steps np (S k) s g').
    change (steps np (S k) self g)
      with (let '(s, g') := step np self g in steps np k s g').
    destruct (step np self g) as [s g']. apply IH.
Qed.

Lemma init_fields np natoms_ mass_ box_ temperature_ dt_ relaxation_time_
    boundary_type radius_ w self w' :
  LangevinSimulation_init np natoms_ mass_ box_ temperature_ dt_
    relaxation_time_ boundary_type radius_ w = (Ok self, w') ->
  create_boundary boundary_type box_ = Ok (boundary self) /\
  box self = box_ /\ dt self = dt_ /\ temperature self = temperature_ /\
  mass_per_particle self = mass_ / AVOGADRO /\
  mass self
    = map (fun one => one * (mass_ / AVOGADRO)) (replicate (Z.to_nat natoms_) 1) /\
  (0 <= natoms_)%Z /\
  trajectory self = <["time" := PyList []]>
                      (<["temperature" := PyList []]>
                      (<["kinetic_energy" := PyList []]> ∅)) /\
  files w' = files w.
Proof.
  unfold LangevinSimulation_init, np_ones.
  destruct (natoms_ <? 0)%Z eqn:En; [done|].
  destruct (create_boundary boundary_type box_) as [bc|e]; [|done].
  destruct (_initialize_system _ _ _ _) as [[p v] g].
  intros [= <- <-]. cbn. repeat split; try done. lia.
Qed.

(** ** Python loops *)

Lemma for_each_cons {A : Type} (x : A) l (body : A -> M unit) st :
  for_each (x :: l) body st =
  match body x st with
  | (Ok _, st') => for_each l body st'
  | (Raise e, st') => (Raise e, st')
  end.
Proof. reflexivity. Qed.

Lemma py_range_cons a b :
  (a < b)%Z -> py_range a b = a :: py_range (a + 1) b.
Proof.
  intros Hab. unfold py_range.
  replace (Z.to_nat (b - a)) with (S (Z.to_nat (b - (a + 1)))) by lia.
  cbn [seq map]. f_equal; [f_equal; lia|].
  rewrite <- seq_shift, map_map. apply map_ext. intros k. lia.
Qed.

(** The first statement of [run]: it settles the writer and at most
    removes a file. *)
Lemma run_writer_block output_file (self : LangevinSimulation) (w : World) :
  exists w0,
    (match truthy output_file with
     | Some filename =>
         w <- get_world ;;
         match files w !! filename with
         | Some _ => put_world (set_files (delete filename (files w)) w)
         | None => ret tt
         end ;;
         ret (Some filename)
     | None => ret None
     end) (self, w) = (Ok (truthy output_file), (self, w0)).
Proof.
  destruct (truthy output_file) as [filename|]; [|by exists w].
  unfold bind, get_world, put_world, ret. cbn [fst snd].
  destruct (files w !! filename); eauto.
Qed.

(** ** simulation.py: [run] *)

(** The simulation object after the step and the two appends of the loop
    body at step [k]. *)
Lemma run_body_no_writer np nsteps df verbose k self w ts tm :
  trajectory self !! "time"%string = Some (PyList ts) ->
  trajectory self !! "temperature"%string = Some (PyList tm) ->
  let s1 := (step np self (cursor w)).1 in
  let w1 := set_cursor (step np self (cursor w)).2 w in
  let T := compute_temperature (mass s1) (vels s1) in
  let s2 :=
    set_trajectory
      (<["temperature"%string := PyList (tm ++ [T])]>
         (<["time"%string := PyList (ts ++ [inject_Z k * dt self])]>
            (trajectory self))) s1 in
  run_body np nsteps None df verbose k (self, w) =
    if verbose then
      if (nsteps / 10 =? 0)%Z then (Raise ZeroDivisionError, (s2, w1))
      else if (k `mod` (nsteps / 10) =? 0)%Z
      then (Ok tt, (s2, print (progress_line k nsteps T
                                 (inject_Z k * dt self * 1e12)) w1))
      else (Ok tt, (s2, w1))
    else (Ok tt, (s2, w1)).
Proof.
  intros Htime Htemp.
  destruct (step_frame np self (cursor w)) as (_ & Htr & Hdt & _).
  unfold run_body, self_step, trajectory_append, bind, get_self, get_world,
    put_self, put_world, ret, lift, py_print, py_mod.
  cbn [fst snd]. destruct (step np self (cursor w)) as [s1 g1].
  cbn [fst snd] in *. rewrite Htr, Hdt, Htime.
  cbn [fst snd trajectory set_trajectory].
  rewrite lookup_insert_ne, Htemp by done.
  cbn [fst snd trajectory set_trajectory].
  destruct verbose; [|reflexivity].
  destruct (nsteps / 10 =? 0)%Z; [reflexivity|].
  destruct (_ =? 0)%Z; reflexivity.
Qed.

Lemma py_range_length a b : length (py_range a b) = Z.to_nat (b - a).
Proof. unfold py_range. by rewrite length_map, length_seq. Qed.

Lemma py_range_lookup a b j :
  (j < Z.to_nat (b - a))%nat -> py_range a b !! j = Some (a + Z.of_nat j)%Z.
Proof.
  intros Hj. unfold py_range.
  rewrite list_lookup_fmap, lookup_seq_lt by done. done.
Qed.

(** The loop of [run] without a writer runs to its end when the progress
    line is off or [nsteps // 10] is not zero, and appends one time and
    one temperature per step. *)
Lemma run_loop_no_writer np nsteps df verbose :
  (verbose = true -> (nsteps / 10)%Z <> 0%Z) ->
  forall l self w ts tm,
    trajectory self !! "time"%string = Some (PyList ts) ->
    trajectory self !! "temperature"%string = Some (PyList tm) ->
    exists self' w' tm',
      for_each l (run_body np nsteps None df verbose) (self, w)
        = (Ok tt, (self', w')) /\
      trajectory self' !! "time"%string
        = Some (PyList (ts ++ map (fun k => inject_Z k * dt self) l)) /\
      trajectory self' !! "temperature"%string = Some (PyList (tm ++ tm')) /\
      length tm' = length l /\
      dt self' = dt self.
Proof.
  intros Hv l. induction l as [|k l IH]; intros self w ts tm Htime Htemp.
  - exists self, w, []. simpl. by rewrite !app_nil_r.
  - rewrite for_each_cons, (run_body_no_writer _ _ _ _ _ _ _ ts tm) by done.
    destruct (step_frame np self (cursor w)) as (_ & _ & Hdt & _).
    set (s1 := (step np self (cursor w)).1) in *.
    set (T := compute_temperature (mass s1) (vels s1)).
    set (s2 := set_trajectory _ s1).
    assert (trajectory s2 !! "time"%string
            = Some (PyList (ts ++ [inject_Z k * dt self]))) as Htime2.
    { subst s2. cbn [trajectory set_trajectory].
      by rewrite lookup_insert_ne, lookup_insert_eq. }
    assert (trajectory s2 !! "temperature"%string
            = Some (PyList (tm ++ [T]))) as Htemp2.
    { subst s2. cbn [trajectory set_trajectory]. by rewrite lookup_insert_eq. }
    assert (dt s2 = dt self) as Hdt2 by done.
    assert (forall w2, exists self' w' tm',
      for_each l (run_body np nsteps None df verbose) (s2, w2)
        = (Ok tt, (self', w')) /\
      trajectory self' !! "time"%string
        = Some (PyList (ts ++ map (fun k => inject_Z k * dt self) (k :: l))) /\
      trajectory self' !! "temperature"%string
        = Some (PyList (tm ++ T :: tm')) /\
      length tm' = length l /\ dt self' = dt self) as Hrest.
    { intros w2.
      destruct (IH s2 w2 _ _ Htime2 Htemp2) as (s' & w' & tm' & -> & Ht & HT & Hlen & Hd).
      exists s', w', tm'. rewrite Ht, HT, Hd, Hdt2, <- !app_assoc. done. }
    destruct verbose.
    + destruct (nsteps / 10 =? 0)%Z eqn:E.
      { apply Z.eqb_eq in E. by destruct Hv. }
      destruct (k `mod` (nsteps / 10) =? 0)%Z; cbv beta iota.
      * destruct (Hrest (print (progress_line k nsteps T
                                  (inject_Z k * dt self * 1e12))
                           (set_cursor (step np self (cursor w)).2 w)))
          as (s' & w' & tm' & -> & ? & ? & ? & ?).
        exists s', w', (T :: tm'). simpl. repeat split; try done; lia.
      * destruct (Hrest (set_cursor (step np self (cursor w)).2 w))
          as (s' & w' & tm' & -> & ? & ? & ? & ?).
        exists s', w', (T :: tm'). simpl. repeat split; try done; lia.
    + cbv beta iota.
      destruct (Hrest (set_cursor (step np self (cursor w)).2 w))
        as (s' & w' & tm' & -> & ? & ? & ? & ?).
      exists s', w', (T :: tm'). simpl. repeat split; try done; lia.
Qed.

Lemma run_no_writer np nsteps df verbose self w ts tm :
  (verbose = true -> (nsteps / 10)%Z <> 0%Z) ->
  trajectory self !! "time"%string = Some (PyList ts) ->
  trajectory self !! "temperature"%string = Some (PyList tm) ->
  exists tr st' tm',
    run np nsteps None df verbose (self, w) = (Ok tr, st') /\
    tr = trajectory st'.1 /\
    tr !! "time"%string
      = Some (NdArray (ts ++ map (fun k => inject_Z k * dt self)
                                 (py_range 1 (nsteps + 1)))) /\
    tr !! "temperature"%string = Some (NdArray (tm ++ tm')) /\
    length tm' = length (py_range 1 (nsteps + 1)).
Proof.
  intros Hv Htime Htemp.
  destruct (run_loop_no_writer np nsteps df verbose Hv (py_range 1 (nsteps + 1))
              self w ts tm Htime Htemp)
    as (s' & w' & tm' & Hloop & Ht & HT & Hlen & Hdt).
  unfold run, truthy.
  unfold bind at 1. unfold ret at 1. cbv beta iota.
  unfold bind at 1. rewrite Hloop. cbv beta iota.
  unfold bind, get_self, put_self, ret, raise, py_print, get_world, put_world.
  cbn [fst snd trajectory set_trajectory].
  assert ((np_array <$> trajectory s') !! "temperature"%string
          = Some (NdArray (tm ++ tm'))) as HT'.
  { by rewrite lookup_fmap, HT. }
  assert ((np_array <$> trajectory s') !! "time"%string
          = Some (NdArray (ts ++ map (fun k => inject_Z k * dt self)
                                     (py_range 1 (nsteps + 1))))) as Ht'.
  { by rewrite lookup_fmap, Ht. }
  destruct verbose; cbn [fst snd trajectory set_trajectory].
  - rewrite HT'. unfold bind. cbn [fst snd trajectory set_trajectory].
    eexists _, _, tm'. split; [reflexivity|]. done.
  - eexists _, _, tm'. split; [reflexivity|]. done.
Qed.

Lemma init_trajectory_fresh np natoms_ mass_ box_ temperature_ dt_
    relaxation_time_ boundary_type radius_ w self w' :
  LangevinSimulation_init np natoms_ mass_ box_ temperature_ dt_
    relaxation_time_ boundary_type radius_ w = (Ok self, w') ->
  trajectory self !! "time"%string = Some (PyList []) /\
  trajectory self !! "temperature"%string = Some (PyList []).
Proof.
  intros H. destruct (init_fields _ _ _ _ _ _ _ _ _ _ _ _ H)
    as (_ & _ & _ & _ & _ & _ & _ & -> & _).
  split.
  - by rewrite lookup_insert_eq.
  - by rewrite lookup_insert_ne, lookup_insert_eq.
Qed.

Lemma init_succeeds np natoms_ mass_ box_ temperature_ dt_ relaxation_time_
    boundary_type radius_ w bc :
  (0 <= natoms_)%Z ->
  create_boundary boundary_type box_ = Ok bc ->
  exists self w',
    LangevinSimulation_init np natoms_ mass_ box_ temperature_ dt_
      relaxation_time_ boundary_type radius_ w = (Ok self, w').
Proof.
  intros Hn Hbc. unfold LangevinSimulation_init, np_ones.
  destruct (natoms_ <? 0)%Z eqn:E; [lia|].
  rewrite Hbc. destruct (_initialize_system _ _ _ _) as [[p v] g]. eauto.
Qed.

(** With the progress line on and [nsteps // 10 = 0], the first pass of
    the loop raises [ZeroDivisionError]. *)
Lemma run_small_nsteps np nsteps df self w ts tm :
  trajectory self !! "time"%string = Some (PyList ts) ->
  trajectory self !! "temperature"%string = Some (PyList tm) ->
  (1 <= nsteps < 10)%Z ->
  exists st', run np nsteps None df true (self, w) = (Raise ZeroDivisionError, st').
Proof.
  intros Htime Htemp Hn.
  unfold run, truthy. unfold bind at 1. unfold ret at 1. cbv beta iota.
  unfold bind at 1. rewrite py_range_cons, for_each_cons by lia.
  rewrite (run_body_no_writer _ _ _ _ _ _ _ ts tm) by done.
  rewrite Z.div_small by lia. cbn [Z.eqb]. cbv beta iota. eauto.
Qed.

(** C8 (code at the failing inputs).  On a simulation as constructed,
    [run(nsteps, verbose=True)] with 1 <= nsteps < 10 and no output file
    raises [ZeroDivisionError]: [step % (nsteps // 10)] divides by zero in
    the first pass of the loop. *)
Theorem run_progress_divides_by_zero np natoms_ mass_ box_ temperature_ dt_
    relaxation_time_ boundary_type radius_ w self w1 nsteps df :
  LangevinSimulation_init np natoms_ mass_ box_ temperature_ dt_
    relaxation_time_ boundary_type radius_ w = (Ok self, w1) ->
  (1 <= nsteps < 10)%Z ->
  exists st', run np nsteps None df true (self, w1) = (Raise ZeroDivisionError, st').
Proof.
  intros Hinit Hn.
  destruct (init_trajectory_fresh _ _ _ _ _ _ _ _ _ _ _ _ Hinit) as [Htime Htemp].
  by apply (run_small_nsteps np nsteps df self w1 [] []).
Qed.

Lemma run_progress_divides_by_zero_witness :
  exists self w1,
    LangevinSimulation_init np_example 2 1 [(0, 1)] 300 1 1 "reflective" 1
      world_example = (Ok self, w1) /\
    exists st',
      run np_example 5 None 100 true (self, w1) = (Raise ZeroDivisionError, st').
Proof.
  eexists. eexists. split; [vm_compute; reflexivity|].
  eapply (run_progress_divides_by_zero np_example 2 1 [(0, 1)] 300 1 1
            "reflective" 1 world_example _ _ 5 100).
  - vm_compute. reflexivity.
  - lia.
Defined.

(** ** simulation.py: [run] and the dump file *)

Section DumpFile.
Context (path : string).

Lemma appends_silent {A : Type} (c : M A) :
  (forall st, files (c st).2.2 = files st.2) -> appends path c [].
Proof.
  intros H st. exists []. unfold dumped. rewrite H, app_nil_r. done.
Qed.

Lemma appends_bind {A B : Type} (c : M A) (k : A -> M B) ks1 ks2 :
  appends path c ks1 -> (forall a, appends path (k a) ks2) ->
  appends path (bind c k) (ks1 ++ ks2).
Proof.
  intros Hc Hk st. unfold bind.
  destruct (Hc st) as (d1 & Hp1 & Hd1 & Hok1).
  destruct (c st) as [[a|e] st1]; cbn [fst snd is_ok] in *.
  - rewrite (Hok1 eq_refl) in Hd1.
    destruct (Hk a st1) as (d2 & Hp2 & Hd2 & Hok2).
    exists (ks1 ++ d2). split; [by apply prefix_app|].
    split; [by rewrite Hd2, Hd1, app_assoc|].
    intros Hok. by rewrite (Hok2 Hok).
  - exists d1. split; [by apply prefix_app_r|]. done.
Qed.

Lemma appends_bind_l {A B : Type} (c : M A) (k : A -> M B) ks :
  appends path c [] -> (forall a, appends path (k a) ks) ->
  appends path (bind c k) ks.
Proof. intros Hc Hk. by apply (appends_bind c k [] ks). Qed.

Lemma appends_bind_r {A B : Type} (c : M A) (k : A -> M B) ks :
  appends path c ks -> (forall a, appends path (k a) []) ->
  appends path (bind c k) ks.
Proof.
  intros Hc Hk. rewrite <- (app_nil_r ks). by apply appends_bind.
Qed.

Lemma appends_self_step np : appends path (self_step np) [].
Proof.
  apply appends_silent. intros [self w].
  unfold self_step, bind, get_self, get_world, put_self, put_world.
  cbn [fst snd]. by destruct (step np self (cursor w)).
Qed.

Lemma appends_trajectory_append key x :
  appends path (trajectory_append key x) [].
Proof.
  apply appends_silent. intros [self w].
  unfold trajectory_append, bind, get_self, put_self, raise. cbn [fst snd].
  by destruct (trajectory self !! key) as [[l|l]|].
Qed.

Lemma appends_py_print l : appends path (py_print l) [].
Proof. apply appends_silent. by intros [self w]. Qed.

Lemma appends_ret {A : Type} (a : A) : appends path (ret a) [].
Proof. by apply appends_silent. Qed.

Lemma appends_raise {A : Type} e : appends path (@raise A e) [].
Proof. by apply appends_silent. Qed.

Lemma appends_lift {A : Type} (r : result A) : appends path (lift r) [].
Proof. by apply appends_silent. Qed.

Lemma appends_get_self : appends path get_self [].
Proof. by apply appends_silent. Qed.

Lemma appends_put_self s : appends path (put_self s) [].
Proof. by apply appends_silent. Qed.

Lemma appends_write_frame k : appends path (self_write_frame path k) [k].
Proof.
  intros [self w].
  unfold self_write_frame, bind, get_self, get_world, put_world, lift,
    write_frame, dumped.
  cbn [fst snd]. destruct (_ || _)%bool; cbn [fst snd is_ok].
  - exists []. split; [apply prefix_nil|]. by rewrite app_nil_r.
  - exists [k]. split; [done|]. split; [|done].
    cbn [files set_files]. rewrite lookup_insert_eq. cbn.
    by rewrite map_app.
Qed.

(** The "write trajectory frame" statement of the loop body. *)
Lemma appends_dump k df :
  appends path
    (m <- lift (py_mod k df) ;;
     if (m =? 0)%Z then self_write_frame path k else ret tt)
    (if decide ((k `mod` df)%Z = 0%Z) then [k] else []).
Proof.
  intros st. unfold bind, lift, py_mod.
  destruct (df =? 0)%Z; cbn [fst snd is_ok].
  - exists []. split; [apply prefix_nil|]. by rewrite app_nil_r.
  - destruct (Z.eqb_spec (k `mod` df) 0) as [E|E].
    + rewrite decide_True by done. apply appends_write_frame.
    + rewrite decide_False by done. apply appends_ret.
Qed.

Lemma appends_run_body np nsteps df verbose k :
  appends path (run_body np nsteps (Some path) df verbose k)
    (if decide ((k `mod` df)%Z = 0%Z) then [k] else []).
Proof.
  unfold run_body.
  apply appends_bind_l; [apply appends_self_step | intros _].
  apply appends_bind_l; [apply appends_get_self | intros self].
  apply appends_bind_l; [apply appends_trajectory_append | intros _].
  apply appends_bind_l; [apply appends_trajectory_append | intros _].
  apply appends_bind_r; [apply appends_dump | intros _].
  destruct verbose; [|apply appends_ret].
  apply appends_bind_l; [apply appends_lift | intros m].
  destruct (m =? 0)%Z; [apply appends_py_print | apply appends_ret].
Qed.

Lemma appends_for_each (l : list Z) (body : Z -> M unit) df :
  (forall k, appends path (body k)
               (if decide ((k `mod` df)%Z = 0%Z) then [k] else [])) ->
  appends path (for_each l body) (filter (fun k => (k `mod` df)%Z = 0%Z) l).
Proof.
  intros Hbody. induction l as [|k l IH]; [apply appends_ret|].
  cbn [for_each]. rewrite filter_cons.
  destruct (decide ((k `mod` df)%Z = 0%Z)) as [E|E].
  - apply (appends_bind (body k) _ [k]); [|done].
    specialize (Hbody k). by rewrite decide_True in Hbody.
  - apply appends_bind_l; [|done].
    specialize (Hbody k). by rewrite decide_False in Hbody.
Qed.
End DumpFile.

Lemma truthy_nonempty path : path <> ""%string -> truthy (Some path) = Some path.
Proof. by destruct path. Qed.

(** With an output file, [run] is its loop and epilogue started in the
    world from which the file has been removed. *)
Lemma run_removes_file np nsteps path df verbose self w :
  path <> ""%string ->
  run np nsteps (Some path) df verbose (self, w) =
  (for_each (py_range 1 (nsteps + 1))
     (run_body np nsteps (Some path) df verbose) ;;
   self <- get_self ;;
   put_self (set_trajectory (np_array <$> trajectory self) self) ;;
   (if verbose then
      self <- get_self ;;
      match trajectory self !! "temperature"%string with
      | Some temps =>
          py_print (complete_lines (np_mean (items temps))) ;;
          py_print (saved_line path)
      | None => raise KeyError
      end
    else ret tt) ;;
   self <- get_self ;;
   ret (trajectory self))
    (self, set_files (delete path (files w)) w).
Proof.
  intros Hpath. unfold run. rewrite truthy_nonempty by done.
  unfold bind at 1. unfold bind at 1. unfold get_world at 1. cbn [fst snd].
  destruct (files w !! path) as [old|] eqn:E.
  - unfold bind at 1. unfold put_world at 1, ret at 1. cbn [fst snd]. done.
  - unfold bind at 1. unfold ret at 1 2. cbn [fst snd].
    rewrite delete_id by done. by destruct w.
Qed.

(** C10.  When [run] is given an output file that exists, it behaves as if
    the file had not been there: the old contents play no part.  After
    the call the file holds blocks of this call only: one for each step
    that is a multiple of the dump frequency, in step order, all of them
    when [run] returns and the first few when it raises. *)
Theorem run_replaces_dump_file np nsteps path df verbose self w old :
  path <> ""%string ->
  files w !! path = Some old ->
  run np nsteps (Some path) df verbose (self, w)
    = run np nsteps (Some path) df verbose
        (self, set_files (delete path (files w)) w) /\
  exists done_,
    done_ `prefix_of`
      filter (fun k => (k `mod` df)%Z = 0%Z) (py_range 1 (nsteps + 1)) /\
    dumped path (run np nsteps (Some path) df verbose (self, w)).2 = done_ /\
    (is_ok (run np nsteps (Some path) df verbose (self, w)).1 = true ->
     done_ = filter (fun k => (k `mod` df)%Z = 0%Z) (py_range 1 (nsteps + 1))).
Proof.
  intros Hpath Hold. split.
  - rewrite !run_removes_file by done. cbn [files set_files].
    by rewrite delete_delete_eq.
  - rewrite run_removes_file by done.
    set (rest := (for_each _ _ ;; _)).
    assert (appends path rest
              (filter (fun k => (k `mod` df)%Z = 0%Z) (py_range 1 (nsteps + 1))))
      as Hrest.
    { subst rest. apply appends_bind_r.
      - apply appends_for_each. intros k. apply appends_run_body.
      - intros _.
        apply appends_bind_l; [apply appends_get_self | intros s].
        apply appends_bind_l; [apply appends_put_self | intros _].
        apply appends_bind_l.
        + destruct verbose; [|apply appends_ret].
          apply appends_bind_l; [apply appends_get_self | intros s'].
          destruct (trajectory s' !! "temperature"%string);
            [|apply appends_raise].
          apply appends_bind_l; [apply appends_py_print | intros _].
          apply appends_py_print.
        + intros _.
          apply appends_bind_l; [apply appends_get_self | intros s'].
          apply appends_ret. }
    destruct (Hrest (self, set_files (delete path (files w)) w))
      as (done_ & Hpre & Hd & Hok).
    exists done_. split; [done|]. split; [|done].
    rewrite Hd. unfold dumped. cbn [snd files set_files].
    by rewrite lookup_delete_eq.
Qed.

Lemma run_replaces_dump_file_witness :
  exists self w1,
    LangevinSimulation_init np_example 1 1 [(0, 1)] 300 1 1 "reflective" 1
      world_example = (Ok self, w1) /\
    let w := set_files (<["out.dump"%string := []]> (files w1)) w1 in
    run np_example 3 (Some "out.dump"%string) 2 false (self, w)
      = run np_example 3 (Some "out.dump"%string) 2 false
          (self, set_files (delete "out.dump"%string (files w)) w) /\
    exists done_,
      done_ `prefix_of`
        filter (fun k => (k `mod` 2)%Z = 0%Z) (py_range 1 (3 + 1)) /\
      dumped "out.dump"
        (run np_example 3 (Some "out.dump"%string) 2 false (self, w)).2 = done_ /\
      (is_ok (run np_example 3 (Some "out.dump"%string) 2 false (self, w)).1 = true ->
       done_ = filter (fun k => (k `mod` 2)%Z = 0%Z) (py_range 1 (3 + 1))).
Proof.
  eexists. eexists. split; [vm_compute; reflexivity|].
  apply (run_replaces_dump_file np_example 3 "out.dump" 2 false _ _ []).
  - discriminate.
  - reflexivity.
Defined.

(** ** io/config_loader.py and the constructor *)

Lemma check_required_ok keys (config : gmap string pyval) :
  (forall key, key ∈ keys -> is_Some (config !! key)) ->
  check_required keys config = Ok tt.
Proof.
  induction keys as [|key keys IH]; intros H; [done|].
  cbn [check_required]. destruct (H key) as [v ->]; [by left|].
  apply IH. intros k Hk. apply H. by right.
Qed.

Lemma validate_config_checks (config : gmap string pyval) n t d :
  (forall key, key ∈ required_keys -> is_Some (config !! key)) ->
  config !! "natoms"%string = Some (PyNum n) ->
  config !! "temperature"%string = Some (PyNum t) ->
  config !! "dt"%string = Some (PyNum d) ->
  validate_config config =
    if Qle_bool n 0 then Raise (ValueError "natoms must be positive")
    else if negb (Qle_bool 0 t)
    then Raise (ValueError "temperature cannot be negative")
    else if Qle_bool d 0 then Raise (ValueError "dt must be positive")
    else Ok tt.
Proof.
  intros Hreq Hn Ht Hd. unfold validate_config, getitem.
  rewrite check_required_ok, Hn, Ht, Hd by done. cbn [result_bind py_le0 py_lt0].
  destruct (Qle_bool n 0); [done|].
  destruct (negb (Qle_bool 0 t)); [done|].
  by destruct (Qle_bool d 0).
Qed.

(** C7 (as amended).  The constructor checks none of natoms > 0, dt > 0,
    temperature >= 0 and min < max: for every natoms >= 0 and every
    recognised boundary type it builds the simulation, whatever dt, the
    temperature and the box are, with the per-particle mass equal to the
    molar mass divided by Avogadro's number for each of the natoms
    particles.  The checks on natoms, temperature and dt are those of
    [validate_config], which raises [ValueError] on a configuration that
    has every required key and natoms <= 0, temperature < 0 or dt <= 0,
    and accepts it otherwise; it does not look at the box. *)
Theorem construction_checks np natoms_ mass_ box_ temperature_ dt_
    relaxation_time_ boundary_type radius_ w bc
    (config : gmap string pyval) n t d :
  (0 <= natoms_)%Z ->
  create_boundary boundary_type box_ = Ok bc ->
  (forall key, key ∈ required_keys -> is_Some (config !! key)) ->
  config !! "natoms"%string = Some (PyNum n) ->
  config !! "temperature"%string = Some (PyNum t) ->
  config !! "dt"%string = Some (PyNum d) ->
  (exists self w',
     LangevinSimulation_init np natoms_ mass_ box_ temperature_ dt_
       relaxation_time_ boundary_type radius_ w = (Ok self, w') /\
     natoms self = natoms_ /\ box self = box_ /\
     temperature self = temperature_ /\ dt self = dt_ /\
     boundary self = bc /\
     mass_per_particle self = mass_ / AVOGADRO /\
     length (mass self) = Z.to_nat natoms_ /\
     Forall (fun m => m == mass_ / AVOGADRO) (mass self)) /\
  validate_config config =
    (if Qle_bool n 0 then Raise (ValueError "natoms must be positive")
     else if negb (Qle_bool 0 t)
     then Raise (ValueError "temperature cannot be negative")
     else if Qle_bool d 0 then Raise (ValueError "dt must be positive")
     else Ok tt).
Proof.
  intros Hn Hbc Hreq Hcn Hct Hcd. split; [|by apply validate_config_checks].
  destruct (init_succeeds np natoms_ mass_ box_ temperature_ dt_
              relaxation_time_ boundary_type radius_ w bc Hn Hbc)
    as (self & w' & Hinit).
  exists self, w'. split; [done|].
  destruct (init_fields _ _ _ _ _ _ _ _ _ _ _ _ Hinit)
    as (Hb & Hbox & Hdt & Htemp & Hmpp & Hmass & _).
  rewrite Hbc in Hb. injection Hb as Hb.
  repeat split; try done.
  - revert Hinit. unfold LangevinSimulation_init, np_ones.
    destruct (natoms_ <? 0)%Z; [done|].
    destruct (create_boundary boundary_type box_); [|done].
    destruct (_initialize_system _ _ _ _) as [[p v] g]. by intros [= <- _].
  - by rewrite Hmass, length_map, length_replicate.
  - rewrite Hmass. apply Forall_map, Forall_replicate. cbn. ring.
Qed.

Lemma construction_checks_witness :
  (exists self w',
     LangevinSimulation_init np_example 2 1.008e-3 [(1, 0)] (-5) 0 1e-12
       "periodic" 1e-10 world_example = (Ok self, w') /\
     natoms self = 2%Z /\ box self = [(1, 0)] /\
     temperature self = -5 /\ dt self = 0 /\
     boundary self = PeriodicBoundary [(1, 0)] /\
     mass_per_particle self = 1.008e-3 / AVOGADRO /\
     length (mass self) = Z.to_nat 2 /\
     Forall (fun m => m == 1.008e-3 / AVOGADRO) (mass self)) /\
  validate_config config_example =
    (if Qle_bool 100 0 then Raise (ValueError "natoms must be positive")
     else if negb (Qle_bool 0 300)
     then Raise (ValueError "temperature cannot be negative")
     else if Qle_bool 0 0 then Raise (ValueError "dt must be positive")
     else Ok tt).
Proof.
  apply (construction_checks np_example 2 1.008e-3 [(1, 0)] (-5) 0 1e-12
           "periodic" 1e-10 world_example (PeriodicBoundary [(1, 0)])
           config_example 100 300 0).
  - lia.
  - reflexivity.
  - intros key Hkey. unfold required_keys in Hkey.
    repeat (apply elem_of_cons in Hkey as [->|Hkey]; [vm_compute; eauto|]).
    by apply elem_of_nil in Hkey.
  - reflexivity.
  - reflexivity.
  - reflexivity.
Defined.

(** C7 as stated fails: with dt = -1, a temperature of -5 and a box axis
    with min > max the constructor returns a simulation with its particle
    state built. *)
Lemma construction_accepts_invalid_input :
  exists self w',
    LangevinSimulation_init np_example 1 1 [(1, 0)] (-5) (-1) 1 "reflective" 1
      world_example = (Ok self, w') /\
    dt self = -1 /\ temperature self = -5 /\ box self = [(1, 0)] /\
    length (pos self) = 1%nat /\ length (vels self) = 1%nat.
Proof.
  eexists. eexists. split; [vm_compute; reflexivity|].
  repeat split.
Qed.

(** * Properties in binary64 *)

Section Binary64.
Import Float64.
Local Open Scope float_scope.

(** ** Comparisons, NaN and zeros *)

Lemma SFcompare_antisym x y :
  SFcompare y x = option_map CompOpp (SFcompare x y).
Proof.
  destruct x as [[]|[]| |[] mx ex], y as [[]|[]| |[] my ey]; cbn; try done.
  all: rewrite (Z.compare_antisym ex ey); destruct (ex ?= ey)%Z; cbn; try done.
  all: pose proof (Pos.compare_antisym mx my) as H; unfold Pos.compare in H.
  all: by rewrite H, ?CompOpp_involutive.
Qed.

Lemma SFcompare_refl x : x <> S754_nan -> SFcompare x x = Some Eq.
Proof.
  intros Hx. pose proof (SFcompare_antisym x x) as H.
  destruct (SFcompare x x) as [[]|] eqn:E; cbn in H; try done.
  by destruct x as [| | |[] ? ?].
Qed.

Lemma SFcompare_None x y :
  SFcompare x y = None -> x = S754_nan \/ y = S754_nan.
Proof.
  destruct x as [sx|sx| |sx mx ex], y as [sy|sy| |sy my ey]; cbn; auto; done.
Qed.

Lemma is_nan_false x : is_nan x = false <-> Prim2SF x <> S754_nan.
Proof.
  unfold is_nan. rewrite FloatAxioms.eqb_spec. unfold SFeqb. split.
  - intros H E. rewrite E in H. done.
  - intros H. by rewrite SFcompare_refl.
Qed.

Lemma leb_true_not_nan x y :
  (x <=? y) = true -> is_nan x = false /\ is_nan y = false.
Proof.
  rewrite FloatAxioms.leb_spec, !is_nan_false. unfold SFleb. intros H.
  split; intros E; rewrite E in H; [done|].
  by destruct (Prim2SF x).
Qed.

Lemma leb_refl x : is_nan x = false -> (x <=? x) = true.
Proof.
  rewrite is_nan_false, FloatAxioms.leb_spec. unfold SFleb. intros H.
  by rewrite SFcompare_refl.
Qed.

Lemma leb_total x y :
  is_nan x = false -> is_nan y = false -> (x <=? y) = false -> (y <=? x) = true.
Proof.
  rewrite !is_nan_false, !FloatAxioms.leb_spec. unfold SFleb. intros Hx Hy.
  rewrite (SFcompare_antisym (Prim2SF x) (Prim2SF y)).
  destruct (SFcompare (Prim2SF x) (Prim2SF y)) as [[]|] eqn:E; cbn; try done.
  by destruct (SFcompare_None _ _ E).
Qed.

Lemma is_zero_true u : is_zero u = true <-> exists s, Prim2SF u = S754_zero s.
Proof.
  unfold is_zero. rewrite FloatAxioms.eqb_spec.
  change (Prim2SF zero) with (S754_zero false). unfold SFeqb. split.
  - destruct (Prim2SF u) as [s|[]| |[] ? ?]; cbn; try done. eauto.
  - by intros [s ->].
Qed.

Lemma is_finite_true u :
  is_finite u = true ->
  (exists s, Prim2SF u = S754_zero s) \/ (exists s m e, Prim2SF u = S754_finite s m e).
Proof.
  unfold is_finite, is_infinity, is_nan.
  rewrite !FloatAxioms.eqb_spec, FloatAxioms.abs_spec.
  change (Prim2SF infinity) with (S754_infinity false). unfold SFeqb.
  destruct (Prim2SF u) as [s|s| |s m e]; cbn; try done; eauto 6.
  by destruct s.
Qed.

(** A zero force gives a zero velocity increment. *)
Lemma zero_increment f dt_ m :
  is_zero f = true -> is_finite dt_ = true ->
  is_nan m = false -> is_zero m = false ->
  is_zero (f * dt_ / m) = true.
Proof.
  intros Hf Hdt Hm Hm0.
  apply is_zero_true in Hf as [s Hf].
  apply is_zero_true. rewrite FloatAxioms.div_spec, FloatAxioms.mul_spec, Hf.
  apply is_nan_false in Hm.
  assert (forall s', Prim2SF m <> S754_zero s') as Hnz.
  { intros s' E. assert (is_zero m = true) by (apply is_zero_true; eauto).
    congruence. }
  destruct (is_finite_true _ Hdt) as [[s' ->]|(s' & m' & e' & ->)]; cbn;
    destruct (Prim2SF m) as [sm|sm| |sm mm em] eqn:E; cbn; try done; eauto;
    by destruct (Hnz sm).
Qed.

Lemma add_zero_unchanged u z : is_zero z = true -> unchanged (u + z) u.
Proof.
  intros Hz. apply is_zero_true in Hz as [s Hz]. unfold unchanged.
  destruct (Prim2SF u) as [su|su| |su mu eu] eqn:E.
  - right. split; apply is_zero_true; [|eauto].
    rewrite FloatAxioms.add_spec, E, Hz. cbn. destruct su, s; eauto.
  - left. apply Prim2SF_inj. by rewrite FloatAxioms.add_spec, E, Hz.
  - left. apply Prim2SF_inj. by rewrite FloatAxioms.add_spec, E, Hz.
  - left. apply Prim2SF_inj. by rewrite FloatAxioms.add_spec, E, Hz.
Qed.

Lemma unchanged_square u' u : unchanged u' u -> u' * u' = u * u.
Proof.
  intros [->|[H' H]]; [done|].
  apply is_zero_true in H' as [s' H'], H as [s H].
  apply Prim2SF_inj. rewrite !FloatAxioms.mul_spec, H', H. cbn. by destruct s', s.
Qed.


(** ** Arrays *)

Lemma f64_get2_assign_masked mask i f a r j :
  get2 (assign_masked mask i f a) r j =
  match mask !! r with
  | Some b => if b && bool_decide (i = j) then f <$> get2 a r j else get2 a r j
  | None => None
  end.
Proof.
  unfold get2, assign_masked. rewrite lookup_zip_with.
  destruct (mask !! r) as [b|]; simpl; [|done].
  destruct (a !! r) as [row|]; simpl.
  - destruct b; simpl; [|done].
    case_bool_decide; subst.
    + rewrite list_lookup_alter. by case_decide.
    + by rewrite list_lookup_alter_ne.
  - by destruct (b && _).
Qed.

Lemma f64_get2_assign_masked_ne mask i f a r j :
  i <> j ->
  get2 (assign_masked mask i f a) r j =
  match mask !! r with Some _ => get2 a r j | None => None end.
Proof.
  intros H. rewrite f64_get2_assign_masked.
  destruct (mask !! r) as [b|]; [|done].
  by rewrite bool_decide_eq_false_2, andb_false_r.
Qed.

Lemma f64_get2_assign_masked_None mask i f a r j :
  get2 a r j = None -> get2 (assign_masked mask i f a) r j = None.
Proof.
  intros H. rewrite f64_get2_assign_masked, H.
  destruct (mask !! r) as [b|]; [|done]. by destruct (b && _).
Qed.

Lemma f64_mask_lookup (test : float -> bool) i (a : ndarray2) r :
  map test (column i a) !! r =
  (fun row => test (default 0 (row !! i))) <$> a !! r.
Proof.
  unfold column. rewrite !list_lookup_fmap. by destruct (a !! r).
Qed.

Lemma f64_mask_lookup_entry (test : float -> bool) i (a : ndarray2) r x :
  get2 a r i = Some x -> map test (column i a) !! r = Some (test x).
Proof.
  unfold get2. rewrite f64_mask_lookup. destruct (a !! r); [|done].
  simpl. by intros ->.
Qed.

Lemma f64_get2_assign_column i (f : float -> float) (a : ndarray2) r j :
  get2 (assign_column i (map f (column i a)) a) r j =
  if bool_decide (i = j) then f <$> get2 a r j else get2 a r j.
Proof.
  unfold get2, assign_column, column.
  rewrite lookup_zip_with, !list_lookup_fmap.
  destruct (a !! r) as [row|]; simpl; [|by case_bool_decide].
  case_bool_decide; subst.
  - destruct (row !! j) as [x|] eqn:E; simpl.
    + apply list_lookup_insert_eq. by eapply lookup_lt_Some.
    + apply lookup_ge_None. rewrite length_insert. by apply lookup_ge_None.
  - by apply list_lookup_insert_ne.
Qed.

Lemma f64_get2_add2 a b r i :
  get2 (add2 a b) r i =
  match get2 a r i, get2 b r i with
  | Some x, Some y => Some (x + y)
  | _, _ => None
  end.
Proof.
  unfold get2, add2. rewrite lookup_zip_with.
  destruct (a !! r) as [ra|]; simpl; [|done].
  destruct (b !! r) as [rb|]; simpl; [|by destruct (ra !! i)].
  rewrite lookup_zip_with.
  destruct (ra !! i); simpl; [|done]. by destruct (rb !! i).
Qed.

Lemma f64_get2_map2 (f : float -> float) (a : ndarray2) r i :
  get2 (map (map f) a) r i = f <$> get2 a r i.
Proof.
  unfold get2. rewrite list_lookup_fmap.
  destruct (a !! r) as [row|]; simpl; [|done]. by rewrite list_lookup_fmap.
Qed.

Lemma f64_get2_rows_div a (m : ndarray1) r i :
  get2 (rows_div a m) r i =
  match m !! r with
  | Some mi => (fun x => x / mi) <$> get2 a r i
  | None => None
  end.
Proof.
  unfold get2, rows_div. rewrite lookup_zip_with.
  destruct (a !! r) as [row|]; simpl; [|by destruct (m !! r)].
  destruct (m !! r); simpl; [|done]. by rewrite list_lookup_fmap.
Qed.

Lemma f64_has_shape_get2 n d (a : ndarray2) r i :
  has_shape n d a -> (r < n)%nat -> (i < d)%nat -> is_Some (get2 a r i).
Proof.
  intros [Hn Hd] Hr Hi. unfold get2.
  destruct (a !! r) as [row|] eqn:E.
  - apply lookup_lt_is_Some.
    rewrite Forall_forall in Hd. rewrite (Hd row); [done|].
    apply list_elem_of_lookup. eauto.
  - apply lookup_ge_None in E. lia.
Qed.

Lemma f64_get2_bounds n d (a : ndarray2) r i x :
  has_shape n d a -> get2 a r i = Some x -> (r < n)%nat /\ (i < d)%nat.
Proof.
  intros [Hn Hd] H. unfold get2 in H.
  destruct (a !! r) as [row|] eqn:E; [|done].
  split.
  - rewrite <- Hn. by eapply lookup_lt_Some.
  - rewrite Forall_forall in Hd. rewrite <- (Hd row).
    + by eapply lookup_lt_Some.
    + apply list_elem_of_lookup. eauto.
Qed.

Lemma f64_has_shape_map2 n d (f : float -> float) a :
  has_shape n d a -> has_shape n d (map (map f) a).
Proof.
  intros [Hn Hd]. split; [by rewrite length_map|].
  apply Forall_map. eapply Forall_impl; [exact Hd|].
  intros row Hrow. simpl. by rewrite length_map.
Qed.

Lemma f64_has_shape_add2 n d a b :
  has_shape n d a -> has_shape n d b -> has_shape n d (add2 a b).
Proof.
  intros [Ha Hda] [Hb Hdb]. unfold add2. split.
  - rewrite length_zip_with. lia.
  - apply Forall_forall. intros row Hrow.
    apply list_elem_of_lookup in Hrow as [r Hr].
    rewrite lookup_zip_with in Hr.
    destruct (a !! r) as [ra|] eqn:Ea; simpl in Hr; [|done].
    destruct (b !! r) as [rb|] eqn:Eb; simpl in Hr; [|done].
    injection Hr as <-. rewrite length_zip_with.
    rewrite Forall_forall in Hda, Hdb.
    rewrite (Hda ra), (Hdb rb); [lia | |];
      apply list_elem_of_lookup; eauto.
Qed.

Lemma f64_has_shape_rows_div n d a (m : ndarray1) :
  has_shape n d a -> length m = n -> has_shape n d (rows_div a m).
Proof.
  intros [Ha Hda] Hm. unfold rows_div. split.
  - rewrite length_zip_with. lia.
  - apply Forall_forall. intros row Hrow.
    apply list_elem_of_lookup in Hrow as [r Hr].
    rewrite lookup_zip_with in Hr.
    destruct (a !! r) as [ra|] eqn:Ea; simpl in Hr; [|done].
    destruct (m !! r) as [mi|] eqn:Eb; simpl in Hr; [|done].
    injection Hr as <-. rewrite length_map.
    rewrite Forall_forall in Hda. apply Hda.
    apply list_elem_of_lookup; eauto.
Qed.

(** Two arrays of one shape are related entry by entry when their entries
    at the same place are. *)
Lemma f64_Forall2_get2 (R : float -> float -> Prop) n d (a b : ndarray2) :
  has_shape n d a -> has_shape n d b ->
  (forall r i x y, get2 a r i = Some x -> get2 b r i = Some y -> R x y) ->
  Forall2 (Forall2 R) a b.
Proof.
  intros [Ha Hda] [Hb Hdb] H.
  apply Forall2_same_length_lookup. split; [lia|].
  intros r ra rb Hra Hrb.
  rewrite Forall_forall in Hda, Hdb.
  assert (length ra = d) as Hla
    by (apply Hda, list_elem_of_lookup; eauto).
  assert (length rb = d) as Hlb
    by (apply Hdb, list_elem_of_lookup; eauto).
  apply Forall2_same_length_lookup. split; [lia|].
  intros i x y Hx Hy. apply (H r i); unfold get2.
  - by rewrite Hra.
  - by rewrite Hrb.
Qed.

(** ** boundary.py: the reflective loop on positions *)

Lemma f64_reflective_axis_pos_entry i b pos vels r :
  get2 (reflective_axis i b (pos, vels)).1 r i = clamp1 b <$> get2 pos r i.
Proof.
  unfold reflective_axis. cbn [fst].
  destruct (get2 pos r i) as [x|] eqn:Hx.
  - rewrite f64_get2_assign_masked.
    erewrite f64_mask_lookup_entry; last first.
    { rewrite f64_get2_assign_masked. erewrite f64_mask_lookup_entry by done.
      rewrite Hx, bool_decide_eq_true_2 by done. simpl.
      by instantiate (1 := if x <=? b.1 then b.1 else x);
        destruct (x <=? b.1). }
    rewrite f64_get2_assign_masked. erewrite f64_mask_lookup_entry by done.
    rewrite Hx, bool_decide_eq_true_2 by done. simpl. unfold clamp1.
    destruct (x <=? b.1); simpl; by destruct (b.2 <=? _).
  - simpl. by do 2 apply f64_get2_assign_masked_None.
Qed.

Lemma f64_reflective_axis_pos_other i j b pos vels r :
  i <> j -> get2 (reflective_axis i b (pos, vels)).1 r j = get2 pos r j.
Proof.
  intros Hij. unfold reflective_axis. cbn [fst].
  rewrite !f64_get2_assign_masked_ne by done.
  rewrite !f64_mask_lookup. unfold assign_masked at 1.
  rewrite lookup_zip_with, f64_mask_lookup. unfold get2.
  by destruct (pos !! r).
Qed.

#[local] Arguments reflective_axis : simpl never.

Lemma f64_reflective_loop_pos_done box k pos vels r i :
  (i < k)%nat ->
  get2 (for_axes reflective_axis k box (pos, vels)).1 r i = get2 pos r i.
Proof.
  revert k pos vels. induction box as [|b0 rest IH]; intros k pos vels Hik; [done|].
  simpl. pose proof (f64_reflective_axis_pos_other k i b0 pos vels r) as Hp.
  destruct (reflective_axis k b0 (pos, vels)) as [p1 v1].
  rewrite IH by lia. apply Hp. lia.
Qed.

Lemma f64_reflective_loop_pos box k pos vels r i b :
  (k <= i)%nat -> box !! (i - k)%nat = Some b ->
  get2 (for_axes reflective_axis k box (pos, vels)).1 r i
  = clamp1 b <$> get2 pos r i.
Proof.
  revert k pos vels. induction box as [|b0 rest IH]; intros k pos vels Hki Hb; [done|].
  simpl. destruct (decide (i = k)) as [->|Hne].
  - rewrite Nat.sub_diag in Hb. cbn in Hb. injection Hb as ->.
    pose proof (f64_reflective_axis_pos_entry k b pos vels r) as Hp.
    destruct (reflective_axis k b (pos, vels)) as [p1 v1].
    by rewrite f64_reflective_loop_pos_done by lia.
  - replace (i - k)%nat with (S (i - S k)) in Hb by lia. simpl in Hb.
    pose proof (f64_reflective_axis_pos_other k i b0 pos vels r) as Hp.
    destruct (reflective_axis k b0 (pos, vels)) as [p1 v1].
    rewrite (IH (S k)) by (done || lia). simpl in Hp. by rewrite Hp by lia.
Qed.

(** A clamped position is in the box or it is NaN, and it is NaN only
    when it was NaN before, since both comparisons are false on NaN. *)
Lemma clamp1_in_box_or_nan lo hi x :
  (lo <=? hi) = true ->
  (is_nan x = true /\ clamp1 (lo, hi) x = x) \/
  ((lo <=? clamp1 (lo, hi) x) = true /\ (clamp1 (lo, hi) x <=? hi) = true).
Proof.
  intros Hbox. destruct (leb_true_not_nan _ _ Hbox) as [Hlo Hhi].
  unfold clamp1. cbn [fst snd].
  destruct (x <=? lo) eqn:E1.
  - right. destruct (hi <=? lo) eqn:E2.
    + split; [done | by apply leb_refl].
    + split; [by apply leb_refl | done].
  - destruct (hi <=? x) eqn:E2.
    + right. split; [done | by apply leb_refl].
    + destruct (is_nan x) eqn:En; [by left|]. right.
      split; by apply leb_total.
Qed.

(** ** boundary.py: the periodic loop *)

Lemma f64_periodic_loop_done box k pos r i :
  (i < k)%nat -> get2 (for_axes periodic_axis k box pos) r i = get2 pos r i.
Proof.
  revert k pos. induction box as [|b0 rest IH]; intros k pos Hik; [done|].
  cbn [for_axes]. rewrite IH by lia. unfold periodic_axis.
  rewrite f64_get2_assign_column, bool_decide_eq_false_2 by lia. done.
Qed.

Lemma f64_periodic_loop box k pos r i b :
  (k <= i)%nat -> box !! (i - k)%nat = Some b ->
  get2 (for_axes periodic_axis k box pos) r i
  = (fun x => b.1 + np_mod (x - b.1) (b.2 - b.1)) <$> get2 pos r i.
Proof.
  revert k pos. induction box as [|b0 rest IH]; intros k pos Hki Hb; [done|].
  cbn [for_axes]. destruct (decide (i = k)) as [->|Hne].
  - rewrite Nat.sub_diag in Hb. cbn in Hb. injection Hb as ->.
    rewrite f64_periodic_loop_done by lia. unfold periodic_axis.
    rewrite f64_get2_assign_column, bool_decide_eq_true_2 by done. done.
  - replace (i - k)%nat with (S (i - S k)) in Hb by lia. simpl in Hb.
    rewrite (IH (S k)) by (done || lia). unfold periodic_axis.
    rewrite f64_get2_assign_column, bool_decide_eq_false_2 by lia. done.
Qed.

(** [np_mod] on a few numbers, as numpy and Python print them: the result
    has the sign of the divisor, a zero divisor gives NaN, and the sum of
    a tiny negative remainder and the divisor rounds to the divisor. *)
Lemma np_mod_examples :
  np_mod 11.5 10 = 1.5 /\ np_mod (-0.5) 10 = 9.5 /\ np_mod 5 (-3) = -1 /\
  np_mod (-6) 3 = 0 /\ np_mod 0.3 0.1 = 0.09999999999999998 /\
  np_mod (-1e-17) 1 = 1 /\ is_nan (np_mod 1 0) = true.
Proof. by vm_compute. Qed.




(** ** integrators.py *)

Lemma f64_euler_integrate_shape n d p v force (mass : ndarray1) dt_ :
  has_shape n d v -> has_shape n d force -> length mass = n ->
  has_shape n d (euler_integrate p v force mass dt_).2.
Proof.
  intros Hv Hf Hm. unfold euler_integrate. cbn [snd].
  apply f64_has_shape_add2; [done|].
  apply f64_has_shape_rows_div; [|done]. by apply f64_has_shape_map2.
Qed.

Lemma f64_euler_integrate_entry p v force (mass : ndarray1) dt_ r i x u f m :
  get2 p r i = Some x -> get2 v r i = Some u ->
  get2 force r i = Some f -> mass !! r = Some m ->
  get2 (euler_integrate p v force mass dt_).1 r i = Some (x + u * dt_) /\
  get2 (euler_integrate p v force mass dt_).2 r i = Some (u + f * dt_ / m).
Proof.
  intros Hx Hu Hf Hm. unfold euler_integrate, scale2. cbn [fst snd]. split.
  - by rewrite f64_get2_add2, f64_get2_map2, Hx, Hu.
  - by rewrite f64_get2_add2, f64_get2_rows_div, f64_get2_map2, Hu, Hf, Hm.
Qed.

Lemma unchanged_squares (mass : ndarray1) (a b : ndarray2) :
  Forall2 (Forall2 unchanged) a b ->
  mul_rows mass (square2 a) = mul_rows mass (square2 b).
Proof.
  intros H. revert mass.
  induction H as [|ra rb a b Hrow _ IH]; intros mass; [done|].
  destruct mass as [|m mass]; [done|].
  unfold mul_rows, square2 in *. cbn [map zip_with]. f_equal; [|apply IH].
  f_equal. induction Hrow as [|x y ra rb Hxy _ IHr]; [done|].
  cbn [map]. by rewrite (unchanged_square x y Hxy), IHr.
Qed.

(** C4 (as amended).  [euler_integrate] leaves in each position entry the
    old position plus the old velocity times dt, and in each velocity
    entry the old velocity plus force times dt divided by the mass, in
    this order of operations and each rounded to binary64.  When the force
    is zero everywhere, dt is finite and the masses are neither zero nor
    NaN, every velocity is unchanged (a zero may change its sign) and the
    kinetic energy is the same number. *)
Theorem euler_integrate_update np n d p v force (mass : ndarray1) dt_ :
  has_shape n d v -> has_shape n d force -> length mass = n ->
  (forall r i x u f m,
      get2 p r i = Some x -> get2 v r i = Some u ->
      get2 force r i = Some f -> mass !! r = Some m ->
      get2 (euler_integrate p v force mass dt_).1 r i = Some (x + u * dt_) /\
      get2 (euler_integrate p v force mass dt_).2 r i = Some (u + f * dt_ / m)) /\
  (is_finite dt_ = true ->
   Forall (fun m => is_nan m = false /\ is_zero m = false) mass ->
   Forall (Forall (fun f => is_zero f = true)) force ->
      Forall2 (Forall2 unchanged) (euler_integrate p v force mass dt_).2 v /\
      compute_kinetic_energy np mass (euler_integrate p v force mass dt_).2
        = compute_kinetic_energy np mass v).
Proof.
  intros Hv Hf Hm. split.
  - intros r i x u f m. apply f64_euler_integrate_entry.
  - intros Hdt Hmass Hzero.
    assert (Forall2 (Forall2 unchanged)
              (euler_integrate p v force mass dt_).2 v) as H.
    { apply (f64_Forall2_get2 unchanged n d);
        [by apply f64_euler_integrate_shape | done |].
      intros r i u' u Hu' Hu.
      destruct (f64_get2_bounds n d v r i u Hv Hu) as [Hr Hi].
      destruct (f64_has_shape_get2 n d force r i Hf Hr Hi) as [f Hfo].
      destruct (lookup_lt_is_Some_2 mass r) as [m Hmr]; [lia|].
      unfold euler_integrate, scale2 in Hu'. cbn [snd] in Hu'.
      rewrite f64_get2_add2, f64_get2_rows_div, f64_get2_map2, Hu, Hfo, Hmr
        in Hu'.
      cbn in Hu'. injection Hu' as <-.
      apply add_zero_unchanged.
      rewrite Forall_forall in Hmass.
      destruct (Hmass m) as [Hm1 Hm2]; [apply list_elem_of_lookup; eauto|].
      apply zero_increment; try done.
      unfold get2 in Hfo. destruct (force !! r) as [row|] eqn:E; [|done].
      rewrite Forall_forall in Hzero.
      assert (Forall (fun f => is_zero f = true) row) as Hrow
        by (apply Hzero, list_elem_of_lookup; eauto).
      rewrite Forall_forall in Hrow. apply Hrow, list_elem_of_lookup. eauto. }
    split; [done|]. unfold compute_kinetic_energy.
    by rewrite (unchanged_squares mass _ _ H).
Qed.

Lemma euler_integrate_update_witness :
  (forall r i x u f m,
      get2 [[0.5; 0.5; 0.5]] r i = Some x -> get2 [[0.1; -0; 7]] r i = Some u ->
      get2 [[0; -0; 0]] r i = Some f -> [2.5] !! r = Some m ->
      get2 (euler_integrate [[0.5; 0.5; 0.5]] [[0.1; -0; 7]] [[0; -0; 0]]
              [2.5] 0.1).1 r i = Some (x + u * 0.1) /\
      get2 (euler_integrate [[0.5; 0.5; 0.5]] [[0.1; -0; 7]] [[0; -0; 0]]
              [2.5] 0.1).2 r i = Some (u + f * 0.1 / m)) /\
  (is_finite 0.1 = true ->
   Forall (fun m => is_nan m = false /\ is_zero m = false) [2.5] ->
   Forall (Forall (fun f => is_zero f = true)) [[0; -0; 0]] ->
      Forall2 (Forall2 unchanged)
        (euler_integrate [[0.5; 0.5; 0.5]] [[0.1; -0; 7]] [[0; -0; 0]]
           [2.5] 0.1).2 [[0.1; -0; 7]] /\
      compute_kinetic_energy np_example [2.5]
        (euler_integrate [[0.5; 0.5; 0.5]] [[0.1; -0; 7]] [[0; -0; 0]]
           [2.5] 0.1).2
        = compute_kinetic_energy np_example [2.5] [[0.1; -0; 7]]).
Proof.
  apply (euler_integrate_update np_example 1 3 [[0.5; 0.5; 0.5]]
           [[0.1; -0; 7]] [[0; -0; 0]] [2.5] 0.1).
  - split; [reflexivity | by repeat constructor].
  - split; [reflexivity | by repeat constructor].
  - reflexivity.
Defined.

(** C4 as stated fails in binary64: the code divides force * dt by the
    mass, and (3 * 0.1) / 3 = 0.10000000000000002 is not (3 / 3) * 0.1
    = 0.1. *)
Lemma euler_integrate_rounds :
  exists u',
    get2 (euler_integrate [[0]] [[0]] [[3]] [3] 0.1).2 0 0 = Some u' /\
    (u' =? 0 + (3 / 3) * 0.1) = false.
Proof. eexists. split; [reflexivity | by vm_compute]. Qed.

(** ** simulation.py: [step] *)

Lemma f64_step_pos np self g :
  pos (step np self g).1 =
  (apply (boundary self)
     (euler_integrate (pos self) (vels self)
        (compute_langevin_force np (mass self) (vels self) (temperature self)
           (relaxation_time self) (dt self) g).1 (mass self) (dt self)).1
     (euler_integrate (pos self) (vels self)
        (compute_langevin_force np (mass self) (vels self) (temperature self)
           (relaxation_time self) (dt self) g).1 (mass self) (dt self)).2).1 /\
  boundary (step np self g).1 = boundary self.
Proof.
  unfold step.
  destruct (compute_langevin_force _ _ _ _ _ _ _) as [force g'].
  cbn [fst snd]. destruct (euler_integrate _ _ _ _ _) as [p v].
  cbn [fst snd]. by destruct (apply _ _ _).
Qed.

Lemma f64_steps_last np k self g :
  steps np (S k) self g = step np (steps np k self g).1 (steps np k self g).2.
Proof.
  revert self g. induction k as [|k IH]; intros self g.
  - simpl. by destruct (step np self g).
  - change (steps np (S (S k)) self g)
      with (let '(s, g') := step np self g in steps np (S k) s g').
    change (steps np (S k) self g)
      with (let '(s, g') := step np self g in steps np k s g').
    destruct (step np self g) as [s g']. apply IH.
Qed.

Lemma f64_steps_boundary np k self g :
  boundary (steps np k self g).1 = boundary self.
Proof.
  induction k as [|k IH]; [done|].
  rewrite f64_steps_last.
  destruct (f64_step_pos np (steps np k self g).1 (steps np k self g).2)
    as [_ ->]. done.
Qed.

Lemma f64_step_frame np self g :
  trajectory (step np self g).1 = trajectory self /\
  dt (step np self g).1 = dt self.
Proof.
  unfold step.
  destruct (compute_langevin_force _ _ _ _ _ _ _) as [force g'].
  destruct (euler_integrate _ _ _ _ _) as [p v].
  by destruct (apply _ _ _).
Qed.

Lemma f64_init_fields np natoms_ mass_ box_ temperature_ dt_
    relaxation_time_ boundary_type radius_ w self w' :
  LangevinSimulation_init np natoms_ mass_ box_ temperature_ dt_
    relaxation_time_ boundary_type radius_ w = (Ok self, w') ->
  create_boundary boundary_type box_ = Ok (boundary self) /\
  dt self = dt_ /\
  trajectory self = <["time"%string := PyList []]>
                      (<["temperature"%string := PyList []]>
                      (<["kinetic_energy"%string := PyList []]> ∅)).
Proof.
  unfold LangevinSimulation_init, np_ones.
  destruct (natoms_ <? 0)%Z eqn:En; [done|].
  destruct (create_boundary boundary_type box_) as [bc|e]; [|done].
  destruct (_initialize_system _ _ _ _) as [[p v] g0].
  by intros [= <- <-].
Qed.

(** C1 (as amended).  A simulation constructed with a boundary type that
    reads 'reflective' has, after every call of [step], each position
    component of a box axis with min <= max inside [min, max] of that
    axis, unless the component is NaN, which no comparison moves. *)
Theorem reflective_positions_in_box_or_nan np natoms_ mass_ box_
    temperature_ dt_ relaxation_time_ boundary_type radius_ w self w'
    k g r i lo hi x :
  LangevinSimulation_init np natoms_ mass_ box_ temperature_ dt_
    relaxation_time_ boundary_type radius_ w = (Ok self, w') ->
  lower boundary_type = "reflective"%string ->
  box_ !! i = Some (lo, hi) ->
  (lo <=? hi) = true ->
  get2 (pos (steps np (S k) self g).1) r i = Some x ->
  is_nan x = true \/ ((lo <=? x) = true /\ (x <=? hi) = true).
Proof.
  intros Hinit Hname Hb Hbox Hx.
  destruct (f64_init_fields _ _ _ _ _ _ _ _ _ _ _ _ Hinit) as (Hbc & _).
  unfold create_boundary in Hbc. rewrite Hname in Hbc. cbn in Hbc.
  injection Hbc as Hbc.
  rewrite f64_steps_last in Hx.
  destruct (f64_step_pos np (steps np k self g).1 (steps np k self g).2)
    as [Hpos _].
  rewrite Hpos, f64_steps_boundary, <- Hbc in Hx. cbn [apply] in Hx.
  unfold ReflectiveBoundary_apply in Hx.
  rewrite (f64_reflective_loop_pos box_ 0 _ _ r i (lo, hi)) in Hx;
    [|lia | by rewrite Nat.sub_0_r].
  destruct (get2 _ r i) as [y|]; [|done]. injection Hx as <-.
  destruct (clamp1_in_box_or_nan lo hi y Hbox) as [[Hn ->]|H]; auto.
Qed.

Lemma reflective_positions_in_box_or_nan_witness :
  exists self w' x,
    LangevinSimulation_init np_example 2 1.008e-3 [(0, 1e-8)] 300 1e-15 1e-12
      "Reflective" 1e-10 world_example = (Ok self, w') /\
    get2 (pos (steps np_example 3 self (cursor w')).1) 1 0 = Some x /\
    (is_nan x = true \/ ((0 <=? x) = true /\ (x <=? 1e-8) = true)).
Proof.
  eexists. eexists. eexists. split; [vm_compute; reflexivity|].
  split; [vm_compute; reflexivity|].
  eapply (reflective_positions_in_box_or_nan np_example 2 1.008e-3
            [(0, 1e-8)] 300 1e-15 1e-12 "Reflective" 1e-10 world_example
            _ _ 2 4%nat 1 0).
  - vm_compute. reflexivity.
  - reflexivity.
  - reflexivity.
  - reflexivity.
  - vm_compute. reflexivity.
Defined.

(** C1 as stated fails in two ways, for the constructor checks nothing.
    On the axis (1, 0) the lower check moves the particle to 1 and the
    upper check moves it on to 0, outside the empty interval.  With a
    temperature of -300 the square root in [compute_langevin_force] is
    NaN: the velocities are NaN after the first step and the positions
    after the second, and a NaN is inside no box. *)
Lemma reflective_positions_leave_box :
  (exists self w',
     LangevinSimulation_init np_example 1 1.008e-3 [(1, 0)] 300 1e-15 1e-12
       "reflective" 1e-10 world_example = (Ok self, w') /\
     get2 (pos (step np_example self (cursor w')).1) 0 0 = Some 0 /\
     (1 <=? 0) = false) /\
  (exists self w' x,
     LangevinSimulation_init np_example 1 1.008e-3 [(0, 1e-8)] (-300) 1e-15
       1e-12 "reflective" 1e-10 world_example = (Ok self, w') /\
     get2 (pos (steps np_example 2 self (cursor w')).1) 0 0 = Some x /\
     is_nan x = true /\ (0 <=? x) = false /\ (x <=? 1e-8) = false).
Proof.
  split.
  - eexists. eexists. split; [vm_compute; reflexivity|]. by vm_compute.
  - eexists. eexists. eexists. split; [vm_compute; reflexivity|].
    split; [vm_compute; reflexivity|]. by vm_compute.
Qed.

(** ** simulation.py: [run] *)

Lemma f64_for_each_cons {A : Type} (x : A) l (body : A -> M unit) st :
  for_each (x :: l) body st =
  match body x st with
  | (Ok _, st') => for_each l body st'
  | (Raise e, st') => (Raise e, st')
  end.
Proof. reflexivity. Qed.

Lemma f64_run_body_no_writer np nsteps df verbose k self w ts tm :
  trajectory self !! "time"%string = Some (PyList ts) ->
  trajectory self !! "temperature"%string = Some (PyList tm) ->
  let s1 := (step np self (cursor w)).1 in
  let w1 := set_cursor (step np self (cursor w)).2 w in
  let T := compute_temperature np (mass s1) (vels s1) in
  let s2 :=
    set_trajectory
      (<["temperature"%string := PyList (tm ++ [T])]>
         (<["time"%string := PyList (ts ++ [current_time k (dt self)])]>
            (trajectory self))) s1 in
  run_body np nsteps None df verbose k (self, w) =
    if verbose then
      if (nsteps / 10 =? 0)%Z then (Raise ZeroDivisionError, (s2, w1))
      else if (k `mod` (nsteps / 10) =? 0)%Z
      then (Ok tt, (s2, print (progress_line k nsteps T
                                 (current_time k (dt self) * 1e12)) w1))
      else (Ok tt, (s2, w1))
    else (Ok tt, (s2, w1)).
Proof.
  intros Htime Htemp.
  destruct (f64_step_frame np self (cursor w)) as (Htr & Hdt).
  unfold run_body, self_step, trajectory_append, bind, get_self, get_world,
    put_self, put_world, ret, lift, py_print, py_mod.
  cbn [fst snd]. destruct (step np self (cursor w)) as [s1 g1].
  cbn [fst snd] in *. rewrite Htr, Hdt, Htime.
  cbn [fst snd trajectory set_trajectory].
  rewrite lookup_insert_ne, Htemp by done.
  cbn [fst snd trajectory set_trajectory].
  destruct verbose; [|reflexivity].
  destruct (nsteps / 10 =? 0)%Z; [reflexivity|].
  destruct (_ =? 0)%Z; reflexivity.
Qed.

(** The loop of [run] without a writer runs to its end when the progress
    line is off or [nsteps // 10] is not zero, and appends one time and
    one temperature per step. *)
Lemma f64_run_loop_no_writer np nsteps df verbose :
  (verbose = true -> (nsteps / 10)%Z <> 0%Z) ->
  forall l self w ts tm,
    trajectory self !! "time"%string = Some (PyList ts) ->
    trajectory self !! "temperature"%string = Some (PyList tm) ->
    exists self' w' tm',
      for_each l (run_body np nsteps None df verbose) (self, w)
        = (Ok tt, (self', w')) /\
      trajectory self' !! "time"%string
        = Some (PyList (ts ++ map (fun k => current_time k (dt self)) l)) /\
      trajectory self' !! "temperature"%string = Some (PyList (tm ++ tm')) /\
      length tm' = length l /\
      dt self' = dt self.
Proof.
  intros Hv l. induction l as [|k l IH]; intros self w ts tm Htime Htemp.
  - exists self, w, []. simpl. by rewrite !app_nil_r.
  - rewrite f64_for_each_cons, (f64_run_body_no_writer _ _ _ _ _ _ _ ts tm)
      by done.
    destruct (f64_step_frame np self (cursor w)) as (_ & Hdt).
    set (s1 := (step np self (cursor w)).1) in *.
    set (T := compute_temperature np (mass s1) (vels s1)).
    set (s2 := set_trajectory _ s1).
    assert (trajectory s2 !! "time"%string
            = Some (PyList (ts ++ [current_time k (dt self)]))) as Htime2.
    { subst s2. cbn [trajectory set_trajectory].
      by rewrite lookup_insert_ne, lookup_insert_eq. }
    assert (trajectory s2 !! "temperature"%string
            = Some (PyList (tm ++ [T]))) as Htemp2.
    { subst s2. cbn [trajectory set_trajectory]. by rewrite lookup_insert_eq. }
    assert (dt s2 = dt self) as Hdt2 by done.
    assert (forall w2, exists self' w' tm',
      for_each l (run_body np nsteps None df verbose) (s2, w2)
        = (Ok tt, (self', w')) /\
      trajectory self' !! "time"%string
        = Some (PyList (ts ++ map (fun k => current_time k (dt self)) (k :: l))) /\
      trajectory self' !! "temperature"%string
        = Some (PyList (tm ++ T :: tm')) /\
      length tm' = length l /\ dt self' = dt self) as Hrest.
    { intros w2.
      destruct (IH s2 w2 _ _ Htime2 Htemp2) as (s' & w' & tm' & -> & Ht & HT & Hlen & Hd).
      exists s', w', tm'. rewrite Ht, HT, Hd, Hdt2, <- !app_assoc. done. }
    destruct verbose.
    + destruct (nsteps / 10 =? 0)%Z eqn:E.
      { apply Z.eqb_eq in E. by destruct Hv. }
      destruct (k `mod` (nsteps / 10) =? 0)%Z; cbv beta iota.
      * destruct (Hrest (print (progress_line k nsteps T
                                  (current_time k (dt self) * 1e12))
                           (set_cursor (step np self (cursor w)).2 w)))
          as (s' & w' & tm' & -> & ? & ? & ? & ?).
        exists s', w', (T :: tm'). simpl. repeat split; try done; lia.
      * destruct (Hrest (set_cursor (step np self (cursor w)).2 w))
          as (s' & w' & tm' & -> & ? & ? & ? & ?).
        exists s', w', (T :: tm'). simpl. repeat split; try done; lia.
    + cbv beta iota.
      destruct (Hrest (set_cursor (step np self (cursor w)).2 w))
        as (s' & w' & tm' & -> & ? & ? & ? & ?).
      exists s', w', (T :: tm'). simpl. repeat split; try done; lia.
Qed.

Lemma f64_run_no_writer np nsteps df verbose self w ts tm :
  (verbose = true -> (nsteps / 10)%Z <> 0%Z) ->
  trajectory self !! "time"%string = Some (PyList ts) ->
  trajectory self !! "temperature"%string = Some (PyList tm) ->
  exists tr st' tm',
    run np nsteps None df verbose (self, w) = (Ok tr, st') /\
    tr !! "time"%string
      = Some (NdArray (ts ++ map (fun k => current_time k (dt self))
                                 (py_range 1 (nsteps + 1)))) /\
    tr !! "temperature"%string = Some (NdArray (tm ++ tm')) /\
    length tm' = length (py_range 1 (nsteps + 1)).
Proof.
  intros Hv Htime Htemp.
  destruct (f64_run_loop_no_writer np nsteps df verbose Hv
              (py_range 1 (nsteps + 1)) self w ts tm Htime Htemp)
    as (s' & w' & tm' & Hloop & Ht & HT & Hlen & Hdt).
  unfold run, truthy.
  unfold bind at 1. unfold ret at 1. cbv beta iota.
  unfold bind at 1. rewrite Hloop. cbv beta iota.
  unfold bind, get_self, put_self, ret, raise, py_print, get_world, put_world.
  cbn [fst snd trajectory set_trajectory].
  assert ((np_array <$> trajectory s') !! "temperature"%string
          = Some (NdArray (tm ++ tm'))) as HT'.
  { by rewrite lookup_fmap, HT. }
  assert ((np_array <$> trajectory s') !! "time"%string
          = Some (NdArray (ts ++ map (fun k => current_time k (dt self))
                                     (py_range 1 (nsteps + 1))))) as Ht'.
  { by rewrite lookup_fmap, Ht. }
  destruct verbose; cbn [fst snd trajectory set_trajectory].
  - rewrite HT'. unfold bind. cbn [fst snd trajectory set_trajectory].
    eexists _, _, tm'. split; [reflexivity|]. done.
  - eexists _, _, tm'. split; [reflexivity|]. done.
Qed.

Lemma f64_init_fresh np natoms_ mass_ box_ temperature_ dt_
    relaxation_time_ boundary_type radius_ w self w' :
  LangevinSimulation_init np natoms_ mass_ box_ temperature_ dt_
    relaxation_time_ boundary_type radius_ w = (Ok self, w') ->
  dt self = dt_ /\
  trajectory self !! "time"%string = Some (PyList []) /\
  trajectory self !! "temperature"%string = Some (PyList []).
Proof.
  intros H.
  destruct (f64_init_fields _ _ _ _ _ _ _ _ _ _ _ _ H) as (_ & Hdt & ->).
  split; [done|]. split.
  - by rewrite lookup_insert_eq.
  - by rewrite lookup_insert_ne, lookup_insert_eq.
Qed.

Lemma f64_init_succeeds np natoms_ mass_ box_ temperature_ dt_
    relaxation_time_ boundary_type radius_ w bc :
  (0 <= natoms_)%Z ->
  create_boundary boundary_type box_ = Ok bc ->
  exists self w',
    LangevinSimulation_init np natoms_ mass_ box_ temperature_ dt_
      relaxation_time_ boundary_type radius_ w = (Ok self, w').
Proof.
  intros Hn Hbc. unfold LangevinSimulation_init, np_ones.
  destruct (natoms_ <? 0)%Z eqn:E; [lia|].
  rewrite Hbc. destruct (_initialize_system _ _ _ _) as [[p v] g]. eauto.
Qed.

(** With the progress line on and [nsteps // 10 = 0], the first pass of
    the loop raises [ZeroDivisionError]. *)
Lemma f64_run_small_nsteps np nsteps df self w ts tm :
  trajectory self !! "time"%string = Some (PyList ts) ->
  trajectory self !! "temperature"%string = Some (PyList tm) ->
  (1 <= nsteps < 10)%Z ->
  exists st', run np nsteps None df true (self, w) = (Raise ZeroDivisionError, st').
Proof.
  intros Htime Htemp Hn.
  unfold run, truthy. unfold bind at 1. unfold ret at 1. cbv beta iota.
  unfold bind at 1. rewrite py_range_cons, f64_for_each_cons by lia.
  rewrite (f64_run_body_no_writer _ _ _ _ _ _ _ ts tm) by done.
  rewrite Z.div_small by lia. cbn [Z.eqb]. cbv beta iota. eauto.
Qed.

(** C6 (as amended).  On a simulation as constructed, [run(nsteps)] with no
    output file, with nsteps >= 1 and, when the progress line is on,
    nsteps >= 10, returns the trajectory; its time and temperature
    sequences have nsteps entries each, one appended per step, and the
    time of step k is the binary64 product of k and dt.  Nothing is stated
    on the spacing of the times: see the counterexample. *)
Theorem run_trajectory_times np natoms_ mass_ box_ temperature_ dt_
    relaxation_time_ boundary_type radius_ w self w1 nsteps df verbose :
  LangevinSimulation_init np natoms_ mass_ box_ temperature_ dt_
    relaxation_time_ boundary_type radius_ w = (Ok self, w1) ->
  (1 <= nsteps)%Z ->
  (verbose = true -> (10 <= nsteps)%Z) ->
  exists tr st' times temps,
    run np nsteps None df verbose (self, w1) = (Ok tr, st') /\
    tr !! "time"%string = Some (NdArray times) /\
    tr !! "temperature"%string = Some (NdArray temps) /\
    length times = Z.to_nat nsteps /\
    length temps = Z.to_nat nsteps /\
    (forall j, (j < Z.to_nat nsteps)%nat ->
       times !! j = Some (current_time (Z.of_nat j + 1) dt_)).
Proof.
  intros Hinit Hn Hv.
  destruct (f64_init_fresh _ _ _ _ _ _ _ _ _ _ _ _ Hinit) as (Hdt & Htime & Htemp).
  destruct (f64_run_no_writer np nsteps df verbose self w1 [] [])
    as (tr & st' & tm' & Hrun & Ht & HT & Hlen); try done.
  { intros Hverb. specialize (Hv Hverb).
    assert (1 <= nsteps / 10)%Z by (apply Z.div_le_lower_bound; lia). lia. }
  rewrite py_range_length in Hlen. rewrite Hdt in Ht. cbn [app] in Ht, HT.
  set (times := map (fun k => current_time k dt_) (py_range 1 (nsteps + 1))) in *.
  exists tr, st', times, tm'.
  split; [done|]. split; [done|]. split; [done|].
  split. { subst times. rewrite length_map, py_range_length. lia. }
  split; [lia|].
  intros j Hj. subst times.
  rewrite list_lookup_fmap, py_range_lookup by lia. cbn.
  by rewrite Z.add_comm.
Qed.

Lemma run_trajectory_times_witness :
  exists self w1,
    LangevinSimulation_init np_example 2 1.008e-3 [(0, 1e-8)] 300 1e-15 1e-12
      "reflective" 1e-10 world_example = (Ok self, w1) /\
    exists tr st' times temps,
      run np_example 10 None 100 true (self, w1) = (Ok tr, st') /\
      tr !! "time"%string = Some (NdArray times) /\
      tr !! "temperature"%string = Some (NdArray temps) /\
      length times = Z.to_nat 10 /\
      length temps = Z.to_nat 10 /\
      (forall j, (j < Z.to_nat 10)%nat ->
         times !! j = Some (current_time (Z.of_nat j + 1) 1e-15)).
Proof.
  eexists. eexists. split; [vm_compute; reflexivity|].
  eapply (run_trajectory_times np_example 2 1.008e-3 [(0, 1e-8)] 300 1e-15
            1e-12 "reflective" 1e-10 world_example _ _ 10 100 true).
  - vm_compute. reflexivity.
  - lia.
  - intros _. lia.
Defined.

(** C6 as stated fails in three ways.  [run(5)], with the progress line on
    by default, raises [ZeroDivisionError] instead of returning five
    samples.  With dt = 0, which the constructor accepts, [run(3)] returns
    three times that are all 0, so they do not increase.  And the times
    are binary64 products, which are not spaced by dt: with dt = 0.1 the
    third time minus the second is not 0.1 (it is 0.10000000000000003),
    and with dt = 1e308 the second and the third time are both
    infinite. *)
Lemma run_trajectory_times_fail :
  (exists self w1 st',
     LangevinSimulation_init np_example 1 1.008e-3 [(0, 1e-8)] 300 1e-15 1e-12
       "reflective" 1e-10 world_example = (Ok self, w1) /\
     run np_example 5 None 100 true (self, w1) = (Raise ZeroDivisionError, st')) /\
  (exists self w1 tr st',
     LangevinSimulation_init np_example 1 1.008e-3 [(0, 1e-8)] 300 0 1e-12
       "reflective" 1e-10 world_example = (Ok self, w1) /\
     run np_example 3 None 100 false (self, w1) = (Ok tr, st') /\
     tr !! "time"%string = Some (NdArray [0; 0; 0]) /\
     (0 <? 0) = false) /\
  (exists self w1 tr st' t1 t2 t3,
     LangevinSimulation_init np_example 1 1.008e-3 [(0, 1e-8)] 300 0.1 1e-12
       "reflective" 1e-10 world_example = (Ok self, w1) /\
     run np_example 3 None 100 false (self, w1) = (Ok tr, st') /\
     tr !! "time"%string = Some (NdArray [t1; t2; t3]) /\
     (t3 - t2 =? 0.1) = false) /\
  (exists self w1 tr st' t1,
     LangevinSimulation_init np_example 1 1.008e-3 [(0, 1e-8)] 300 1e308 1e-12
       "reflective" 1e-10 world_example = (Ok self, w1) /\
     run np_example 3 None 100 false (self, w1) = (Ok tr, st') /\
     tr !! "time"%string = Some (NdArray [t1; infinity; infinity]) /\
     (0 <? 1e308) = true /\ (infinity <? infinity) = false).
Proof.
  assert (forall dt_, exists self w1,
            LangevinSimulation_init np_example 1 1.008e-3 [(0, 1e-8)] 300 dt_
              1e-12 "reflective" 1e-10 world_example = (Ok self, w1))
    as Hinit by (intros dt_; by apply f64_init_succeeds
                   with (bc := ReflectiveBoundary [(0, 1e-8)])).
  assert (forall dt_ self w1,
            LangevinSimulation_init np_example 1 1.008e-3 [(0, 1e-8)] 300 dt_
              1e-12 "reflective" 1e-10 world_example = (Ok self, w1) ->
            exists tr st',
              run np_example 3 None 100 false (self, w1) = (Ok tr, st') /\
              tr !! "time"%string
                = Some (NdArray [current_time 1 dt_; current_time 2 dt_;
                                 current_time 3 dt_])) as Hrun.
  { intros dt_ self w1 H.
    destruct (f64_init_fresh _ _ _ _ _ _ _ _ _ _ _ _ H) as (Hdt & Ht & HT).
    destruct (f64_run_no_writer np_example 3 100 false self w1 [] [])
      as (tr & st' & tm' & Hr & Htime & _); try done.
    rewrite Hdt in Htime. by exists tr, st'. }
  split; [|split; [|split]].
  - destruct (Hinit 1e-15) as (self & w1 & H).
    destruct (f64_init_fresh _ _ _ _ _ _ _ _ _ _ _ _ H) as (_ & Ht & HT).
    destruct (f64_run_small_nsteps np_example 5 100 self w1 [] [] Ht HT)
      as [st' Hr]; [lia|].
    by exists self, w1, st'.
  - destruct (Hinit 0) as (self & w1 & H).
    destruct (Hrun _ _ _ H) as (tr & st' & Hr & Htime).
    exists self, w1, tr, st'. split; [done|]. split; [done|].
    split; [exact Htime | reflexivity].
  - destruct (Hinit 0.1) as (self & w1 & H).
    destruct (Hrun _ _ _ H) as (tr & st' & Hr & Htime).
    exists self, w1, tr, st'. do 3 eexists. split; [done|]. split; [done|].
    split; [exact Htime | reflexivity].
  - destruct (Hinit 1e308) as (self & w1 & H).
    destruct (Hrun _ _ _ H) as (tr & st' & Hr & Htime).
    exists self, w1, tr, st'. eexists. split; [done|]. split; [done|].
    split; [exact Htime | by split].
Qed.

End Binary64.

(** * Further properties of the code *)

(** ** boundary.py: more on the two policies *)

Lemma Qle_bool_false x y : Qle_bool x y = false -> y < x.
Proof.
  intros E. apply Qnot_le_lt. rewrite <- Qle_bool_iff. congruence.
Qed.

Lemma reflect1_interior b x u :
  b.1 < x -> x < b.2 -> reflect1 b (x, u) = (x, u).
Proof.
  intros Hlo Hhi. unfold reflect1.
  destruct (Qle_bool x b.1) eqn:E1; [apply Qle_bool_iff in E1; lra|].
  destruct (Qle_bool b.2 x) eqn:E2; [apply Qle_bool_iff in E2; lra|]. done.
Qed.

(** X1.  A particle strictly inside the bounds of an axis keeps its
    position and its velocity on that axis under the reflective policy. *)
Theorem reflective_interior_untouched box pos vels r i lo hi x u :
  box !! i = Some (lo, hi) ->
  get2 pos r i = Some x ->
  get2 vels r i = Some u ->
  lo < x -> x < hi ->
  get2 (ReflectiveBoundary_apply box pos vels).1 r i = Some x /\
  get2 (ReflectiveBoundary_apply box pos vels).2 r i = Some u.
Proof.
  intros Hb Hx Hu Hlo Hhi. split.
  - rewrite (ReflectiveBoundary_apply_pos _ _ _ _ _ _ Hb), Hx.
    change (clamp1 (lo, hi) <$> Some x) with (Some (clamp1 (lo, hi) x)).
    by rewrite <- (reflect1_pos (lo, hi) x u), reflect1_interior.
  - rewrite (ReflectiveBoundary_apply_vels _ _ _ _ _ _ _ _ Hb Hx Hu).
    by rewrite reflect1_interior.
Qed.

Lemma reflective_interior_untouched_witness :
  get2 (ReflectiveBoundary_apply [(0, 10); (0, 10)] [[5; 12]] [[-3; 4]]).1 0 0
    = Some 5 /\
  get2 (ReflectiveBoundary_apply [(0, 10); (0, 10)] [[5; 12]] [[-3; 4]]).2 0 0
    = Some (-3).
Proof.
  apply (reflective_interior_untouched [(0, 10); (0, 10)] [[5; 12]] [[-3; 4]]
           0 0 0 10 5 (-3)); reflexivity.
Defined.

Lemma reflect1_speed b x u : Qabs (reflect1 b (x, u)).2 == Qabs u.
Proof.
  unfold reflect1.
  destruct (Qle_bool x b.1); destruct (Qle_bool b.2 _); cbn [snd];
    rewrite ?Qabs_opp, ?(Qabs_pos (Qabs u)) by apply Qabs_nonneg; reflexivity.
Qed.

(** X2.  The reflective policy changes at most the sign of a velocity
    component, never its magnitude, whatever the box is. *)
Theorem reflective_keeps_speed box pos vels r i b x u :
  box !! i = Some b ->
  get2 pos r i = Some x ->
  get2 vels r i = Some u ->
  exists u', get2 (ReflectiveBoundary_apply box pos vels).2 r i = Some u' /\
             Qabs u' == Qabs u.
Proof.
  intros Hb Hx Hu. exists (reflect1 b (x, u)).2. split.
  - by apply ReflectiveBoundary_apply_vels.
  - apply reflect1_speed.
Qed.

Lemma reflective_keeps_speed_witness :
  exists u',
    get2 (ReflectiveBoundary_apply [(0, 10)] [[12]] [[3]]).2 0 0 = Some u' /\
    Qabs u' == Qabs 3.
Proof.
  apply (reflective_keeps_speed [(0, 10)] [[12]] [[3]] 0 0 (0, 10) 12 3);
    reflexivity.
Defined.

Ltac qle_cases :=
  repeat match goal with
  | |- context [Qle_bool ?a ?b] =>
      let E := fresh "E" in
      destruct (Qle_bool a b) eqn:E;
      [apply Qle_bool_iff in E | apply Qle_bool_false in E];
      cbv beta iota zeta; cbn [fst snd] in *
  end.

Lemma reflect1_idempotent b x u :
  (reflect1 b (reflect1 b (x, u))).1 = (reflect1 b (x, u)).1 /\
  (reflect1 b (reflect1 b (x, u))).2 == (reflect1 b (x, u)).2.
Proof.
  assert (forall w, Qabs (Qabs w) == Qabs w) as Habs
    by (intros w; apply Qabs_pos, Qabs_nonneg).
  assert (forall w, Qabs (- Qabs w) == Qabs w) as Hneg
    by (intros w; by rewrite Qabs_opp).
  destruct b as [lo hi]. unfold reflect1. cbn [fst snd]. qle_cases.
  all: try lra.
  all: split; [reflexivity | rewrite ?Hneg, ?Habs; reflexivity].
Qed.

(** X3.  Applying the reflective policy a second time changes nothing: each
    position is the same and each velocity component is equal in value. *)
Theorem reflective_apply_idempotent box pos vels r i b x u :
  box !! i = Some b ->
  get2 pos r i = Some x ->
  get2 vels r i = Some u ->
  let once := ReflectiveBoundary_apply box pos vels in
  let twice := ReflectiveBoundary_apply box once.1 once.2 in
  get2 twice.1 r i = get2 once.1 r i /\
  exists u1 u2, get2 once.2 r i = Some u1 /\ get2 twice.2 r i = Some u2 /\
                u2 == u1.
Proof.
  intros Hb Hx Hu once twice.
  assert (get2 once.1 r i = Some (reflect1 b (x, u)).1) as H1.
  { subst once. rewrite (ReflectiveBoundary_apply_pos _ _ _ _ _ _ Hb), Hx.
    by rewrite reflect1_pos. }
  assert (get2 once.2 r i = Some (reflect1 b (x, u)).2) as H2.
  { subst once. by apply ReflectiveBoundary_apply_vels. }
  destruct (reflect1_idempotent b x u) as [Hp Hv].
  destruct (reflect1 b (x, u)) as [x1 u1] eqn:E. cbn [fst snd] in *.
  split.
  - subst twice.
    rewrite (ReflectiveBoundary_apply_pos _ _ _ _ _ _ Hb), H1.
    change (clamp1 b <$> Some x1) with (Some (clamp1 b x1)).
    by rewrite <- (reflect1_pos b x1 u1), Hp.
  - exists u1, (reflect1 b (x1, u1)).2. split; [done|]. split; [|done].
    subst twice. by apply ReflectiveBoundary_apply_vels.
Qed.

Lemma reflective_apply_idempotent_witness :
  get2 (ReflectiveBoundary_apply [(0, 10)]
          (ReflectiveBoundary_apply [(0, 10)] [[12]] [[3]]).1
          (ReflectiveBoundary_apply [(0, 10)] [[12]] [[3]]).2).1 0 0
    = get2 (ReflectiveBoundary_apply [(0, 10)] [[12]] [[3]]).1 0 0 /\
  exists u1 u2,
    get2 (ReflectiveBoundary_apply [(0, 10)] [[12]] [[3]]).2 0 0 = Some u1 /\
    get2 (ReflectiveBoundary_apply [(0, 10)]
            (ReflectiveBoundary_apply [(0, 10)] [[12]] [[3]]).1
            (ReflectiveBoundary_apply [(0, 10)] [[12]] [[3]]).2).2 0 0
      = Some u2 /\
    u2 == u1.
Proof.
  apply (reflective_apply_idempotent [(0, 10)] [[12]] [[3]] 0 0 (0, 10) 12 3);
    reflexivity.
Defined.

(** ** Shapes *)

Lemma has_shape_zip_rows {A : Type} n d (f : A -> list Q -> list Q)
    (l : list A) (a : ndarray2) :
  (forall x row, length (f x row) = length row) ->
  length l = n -> has_shape n d a -> has_shape n d (zip_with f l a).
Proof.
  intros Hf Hl [Hn Hd]. split; [rewrite length_zip_with; lia|].
  apply Forall_forall. intros row Hrow.
  apply list_elem_of_lookup in Hrow as [r Hr].
  rewrite lookup_zip_with in Hr.
  destruct (l !! r) as [x|]; simpl in Hr; [|done].
  destruct (a !! r) as [row0|] eqn:E; simpl in Hr; [|done].
  injection Hr as <-. rewrite Hf.
  rewrite Forall_forall in Hd. apply Hd, list_elem_of_lookup. eauto.
Qed.

Lemma has_shape_zip_rows_r {A : Type} n d (f : list Q -> A -> list Q)
    (a : ndarray2) (l : list A) :
  (forall row x, length (f row x) = length row) ->
  length l = n -> has_shape n d a -> has_shape n d (zip_with f a l).
Proof.
  intros Hf Hl [Hn Hd]. split; [rewrite length_zip_with; lia|].
  apply Forall_forall. intros row Hrow.
  apply list_elem_of_lookup in Hrow as [r Hr].
  rewrite lookup_zip_with in Hr.
  destruct (a !! r) as [row0|] eqn:E; simpl in Hr; [|done].
  destruct (l !! r) as [x|]; simpl in Hr; [|done].
  injection Hr as <-. rewrite Hf.
  rewrite Forall_forall in Hd. apply Hd, list_elem_of_lookup. eauto.
Qed.

Lemma has_shape_assign_masked n d mask i f a :
  length mask = n -> has_shape n d a -> has_shape n d (assign_masked mask i f a).
Proof.
  intros Hm Ha. apply has_shape_zip_rows; [|done..].
  intros [] row; [apply length_alter | done].
Qed.

Lemma has_shape_assign_column n d i (c : ndarray1) a :
  length c = n -> has_shape n d a -> has_shape n d (assign_column i c a).
Proof.
  intros Hc Ha. apply has_shape_zip_rows; [|done..].
  intros x row. apply length_insert.
Qed.

Lemma has_shape_for_axes_column n d (f : Q * Q -> Q -> Q) box k a :
  has_shape n d a ->
  has_shape n d
    (for_axes (fun i b p => assign_column i (map (f b) (column i p)) p) k box a).
Proof.
  revert k a. induction box as [|b box IH]; intros k a Ha; [done|].
  cbn [for_axes]. apply IH. apply has_shape_assign_column; [|done].
  rewrite length_map, column_length. apply Ha.
Qed.

Lemma reflective_axis_shape n d i b p v :
  has_shape n d p -> has_shape n d v ->
  has_shape n d (reflective_axis i b (p, v)).1 /\
  has_shape n d (reflective_axis i b (p, v)).2.
Proof.
  intros Hp Hv. unfold reflective_axis. cbn [fst snd].
  assert (has_shape n d (assign_masked (map (fun x => Qle_bool x b.1) (column i p))
                           i (fun _ => b.1) p)) as Hp1.
  { apply has_shape_assign_masked; [|done].
    rewrite length_map, column_length. apply Hp. }
  split; apply has_shape_assign_masked;
    rewrite ?length_map, ?column_length; try apply Hp1; try done.
  apply has_shape_assign_masked; [|done].
  rewrite length_map, column_length. apply Hp.
Qed.

Lemma apply_shape n d bc p v :
  has_shape n d p -> has_shape n d v ->
  has_shape n d (apply bc p v).1 /\ has_shape n d (apply bc p v).2.
Proof.
  intros Hp Hv. destruct bc as [box|box]; cbn [apply].
  - unfold ReflectiveBoundary_apply. generalize 0%nat as k.
    revert p v Hp Hv. induction box as [|b box IH]; intros p v Hp Hv k; [done|].
    cbn [for_axes].
    destruct (reflective_axis_shape n d k b p v Hp Hv) as [Hp1 Hv1].
    destruct (reflective_axis k b (p, v)) as [p1 v1]. by apply IH.
  - unfold PeriodicBoundary_apply. cbn [fst snd]. split; [|done].
    by apply (has_shape_for_axes_column n d wrap1).
Qed.

Lemma has_shape_draw src n d g : has_shape n d (draw src n d g).
Proof.
  unfold draw. split; [by rewrite length_map, length_seq|].
  apply Forall_map, Forall_forall. intros r _. cbn.
  by rewrite length_map, length_seq.
Qed.

Lemma shape_of_has_shape n d (a : ndarray2) :
  has_shape n d a -> (0 < n)%nat -> shape a = (n, d).
Proof.
  intros [Hn Hd] Hpos. unfold shape. destruct a as [|row a]; [simpl in Hn; lia|].
  f_equal; [done|]. by apply Forall_cons in Hd as [-> _].
Qed.

Lemma compute_langevin_force_shape_cursor np (mass : ndarray1) v
    temperature_ relaxation_time_ dt_ g n d :
  has_shape n d v -> length mass = n ->
  has_shape n d
    (compute_langevin_force np mass v temperature_ relaxation_time_ dt_ g).1 /\
  (compute_langevin_force np mass v temperature_ relaxation_time_ dt_ g).2
    = (g + n * d)%nat.
Proof.
  intros Hv Hm. unfold compute_langevin_force.
  destruct (shape v) as [natoms ndims] eqn:Eshape. cbn [fst snd].
  assert (natoms = n) as -> by (unfold shape in Eshape; destruct Hv; congruence).
  destruct (Nat.eq_dec n 0%nat) as [->|Hpos].
  - destruct v; [|destruct Hv; done]. destruct mass; [|done].
    split; [|lia]. by split.
  - rewrite (shape_of_has_shape n d v Hv) in Eshape by lia.
    injection Eshape as <-. split; [|done].
    apply has_shape_add2.
    + unfold div_scalar2, neg2. do 2 apply has_shape_map2.
      apply has_shape_zip_rows; [|done..]. intros x row. apply length_map.
    + apply has_shape_zip_rows_r; [| by rewrite length_map |].
      * intros row x. apply length_map.
      * apply has_shape_draw.
Qed.

Lemma step_well_shaped np self g n d :
  well_shaped n d self ->
  well_shaped n d (step np self g).1 /\ (step np self g).2 = (g + n * d)%nat.
Proof.
  intros (Hp & Hv & Hm & Hb). rewrite step_unfold. cbn [fst snd].
  destruct (compute_langevin_force_shape_cursor np (mass self) (vels self)
              (temperature self) (relaxation_time self) (dt self) g n d Hv Hm)
    as [Hf Hg].
  split; [|done].
  set (force := (compute_langevin_force _ _ _ _ _ _ _).1) in *.
  assert (has_shape n d (euler_integrate (pos self) (vels self) force
                           (mass self) (dt self)).1) as Hp1.
  { unfold euler_integrate. cbn [fst]. apply has_shape_add2; [done|].
    by apply has_shape_map2. }
  pose proof (euler_integrate_shape n d (pos self) (vels self) force
                (mass self) (dt self) Hv Hf Hm) as Hv1.
  destruct (apply_shape n d (boundary self) _ _ Hp1 Hv1) as [Hp2 Hv2].
  unfold well_shaped. cbn [pos vels mass boundary set_state]. auto.
Qed.

Lemma steps_well_shaped np k self g n d :
  well_shaped n d self ->
  well_shaped n d (steps np k self g).1 /\
  (steps np k self g).2 = (g + k * (n * d))%nat.
Proof.
  intros Hw. induction k as [|k [IHw IHg]].
  - cbn. split; [done | lia].
  - rewrite steps_last.
    destruct (step_well_shaped np (steps np k self g).1 (steps np k self g).2
                n d IHw) as [Hw' Hg'].
    split; [done|]. rewrite Hg', IHg. lia.
Qed.

Lemma has_shape_sub_row n d a (v : ndarray1) :
  has_shape n d a -> length v = d -> has_shape n d (sub_row a v).
Proof.
  intros [Hn Hd] Hv. unfold sub_row. split; [by rewrite length_map|].
  apply Forall_map. eapply Forall_impl; [exact Hd|].
  intros row Hrow. cbn in *. rewrite length_zip_with. lia.
Qed.

Lemma has_shape_center n d a :
  has_shape n d a -> has_shape n d (sub_row a (np_mean0 a)).
Proof.
  intros Ha. destruct (Nat.eq_dec n 0%nat) as [->|Hn].
  - destruct a; [by split | destruct Ha; done].
  - apply has_shape_sub_row; [done|]. unfold np_mean0.
    rewrite (shape_of_has_shape n d a Ha) by lia.
    by rewrite length_map, length_seq.
Qed.

Lemma create_boundary_box boundary_type box_ bc :
  create_boundary boundary_type box_ = Ok bc -> boundary_box bc = box_.
Proof.
  unfold create_boundary. cbn [boundary_types dict_get].
  destruct (String.eqb _ "reflective"); [by intros [= <-]|].
  destruct (String.eqb _ "periodic"); [by intros [= <-]|]. done.
Qed.

Lemma init_state np natoms_ mass_ box_ temperature_ dt_ relaxation_time_
    boundary_type radius_ w self w' :
  LangevinSimulation_init np natoms_ mass_ box_ temperature_ dt_
    relaxation_time_ boundary_type radius_ w = (Ok self, w') ->
  let n := Z.to_nat natoms_ in
  let d := length box_ in
  pos self =
    for_axes (fun i b p =>
      assign_column i (map (fun u => b.1 + (b.2 - b.1) * u) (column i p)) p)
      0 box_ (draw (uniform np) n d (cursor w)) /\
  vels self =
    sub_row (draw (normal np) n d (cursor w + n * d))
      (np_mean0 (draw (normal np) n d (cursor w + n * d))) /\
  length (radius self) = n /\
  cursor w' = (cursor w + n * d + n * d)%nat.
Proof.
  unfold LangevinSimulation_init, np_ones, _initialize_system.
  destruct (natoms_ <? 0)%Z; [done|].
  destruct (create_boundary boundary_type box_); [|done].
  intros [= <- <-]. cbn. by rewrite length_map, length_replicate.
Qed.

Lemma init_well_shaped np natoms_ mass_ box_ temperature_ dt_ relaxation_time_
    boundary_type radius_ w self w' :
  LangevinSimulation_init np natoms_ mass_ box_ temperature_ dt_
    relaxation_time_ boundary_type radius_ w = (Ok self, w') ->
  well_shaped (Z.to_nat natoms_) (length box_) self.
Proof.
  intros Hinit.
  destruct (init_state _ _ _ _ _ _ _ _ _ _ _ _ Hinit) as (Hp & Hv & _).
  destruct (init_fields _ _ _ _ _ _ _ _ _ _ _ _ Hinit)
    as (Hbc & _ & _ & _ & _ & Hm & _).
  split; [|split; [|split]].
  - rewrite Hp.
    apply (has_shape_for_axes_column _ _ (fun b u => b.1 + (b.2 - b.1) * u)),
      has_shape_draw.
  - rewrite Hv. apply has_shape_center, has_shape_draw.
  - by rewrite Hm, length_map, length_replicate.
  - by rewrite (create_boundary_box _ _ _ Hbc).
Qed.

(** X7.  A constructed simulation has natoms x ndims positions and
    velocities, natoms masses and radii and an ndims-axis box, and every
    number of steps keeps it so; construction draws 2 * natoms * ndims
    random samples and each step natoms * ndims more. *)
Theorem constructed_simulation_stays_well_shaped np natoms_ mass_ box_
    temperature_ dt_ relaxation_time_ boundary_type radius_ w self w' k :
  LangevinSimulation_init np natoms_ mass_ box_ temperature_ dt_
    relaxation_time_ boundary_type radius_ w = (Ok self, w') ->
  let n := Z.to_nat natoms_ in
  let d := length box_ in
  well_shaped n d (steps np k self (cursor w')).1 /\
  length (radius (steps np k self (cursor w')).1) = n /\
  (steps np k self (cursor w')).2 = (cursor w + (2 + k) * (n * d))%nat.
Proof.
  intros Hinit n d.
  destruct (init_state _ _ _ _ _ _ _ _ _ _ _ _ Hinit) as (_ & _ & Hr & Hg).
  destruct (steps_well_shaped np k self (cursor w') n d
              (init_well_shaped _ _ _ _ _ _ _ _ _ _ _ _ Hinit)) as [Hw Hc].
  split; [done|]. split.
  - clear Hw Hc. induction k as [|k IH]; [done|].
    rewrite steps_last, step_unfold. done.
  - rewrite Hc, Hg. subst n d. lia.
Qed.

Lemma constructed_simulation_stays_well_shaped_witness :
  exists self w',
    LangevinSimulation_init np_example 2 1 [(0, 1); (0, 2)] 300 1 1
      "periodic" 1 world_example = (Ok self, w') /\
    well_shaped (Z.to_nat 2) 2 (steps np_example 3 self (cursor w')).1 /\
    length (radius (steps np_example 3 self (cursor w')).1) = Z.to_nat 2 /\
    (steps np_example 3 self (cursor w')).2
      = (cursor world_example + (2 + 3) * (Z.to_nat 2 * 2))%nat.
Proof.
  eexists. eexists. split; [vm_compute; reflexivity|].
  eapply (constructed_simulation_stays_well_shaped np_example 2 1
            [(0, 1); (0, 2)] 300 1 1 "periodic" 1 world_example _ _ 3).
  vm_compute. reflexivity.
Defined.

(** ** utils/analysis.py: more on the observables *)

Lemma np_sum_nonneg (l : ndarray1) : Forall (fun x => 0 <= x) l -> 0 <= np_sum l.
Proof.
  induction 1 as [|x l Hx _ IH]; cbn; [lra|].
  fold (np_sum l). lra.
Qed.

Lemma weighted_squares_nonneg (mass : ndarray1) (a : ndarray2) :
  Forall (fun m => 0 <= m) mass -> 0 <= np_sum2 (mul_rows mass (square2 a)).
Proof.
  intros Hm. unfold np_sum2. apply np_sum_nonneg.
  apply Forall_map, Forall_forall. intros row Hrow.
  apply list_elem_of_lookup in Hrow as [r Hr].
  unfold mul_rows in Hr. rewrite lookup_zip_with in Hr.
  destruct (mass !! r) as [m|] eqn:Em; simpl in Hr; [|done].
  destruct (square2 a !! r) as [sq|] eqn:Es; simpl in Hr; [|done].
  injection Hr as <-. cbn.
  assert (0 <= m) as Hm0.
  { rewrite Forall_forall in Hm. apply Hm, list_elem_of_lookup. eauto. }
  apply np_sum_nonneg, Forall_map.
  unfold square2 in Es. rewrite list_lookup_fmap in Es.
  destruct (a !! r) as [row|]; simpl in Es; [|done]. injection Es as <-.
  apply Forall_map, Forall_forall. intros x _. cbn.
  assert (0 <= x ^ 2) by (change (x ^ 2) with (x * x); nra). nra.
Qed.

(** X10.  With non-negative masses the kinetic energy and the temperature
    of a non-empty velocity array are never negative. *)
Theorem temperature_is_nonnegative n d (mass : ndarray1) (vels : ndarray2) :
  has_shape n d vels -> (0 < n)%nat -> (0 < d)%nat ->
  Forall (fun m => 0 <= m) mass ->
  0 <= compute_kinetic_energy mass vels /\ 0 <= compute_temperature mass vels.
Proof.
  intros Hv Hn Hd Hm. split.
  - unfold compute_kinetic_energy.
    pose proof (weighted_squares_nonneg mass vels Hm). lra.
  - unfold compute_temperature.
    rewrite (shape_of_has_shape n d vels Hv Hn).
    pose proof (weighted_squares_nonneg mass
                  (sub_row vels (np_mean0 vels)) Hm) as Hke.
    apply Qle_shift_div_l.
    + assert (0 < inject_Z (Z.of_nat d)) by (unfold Qlt, inject_Z; simpl; lia).
      assert (0 < inject_Z (Z.of_nat n)) by (unfold Qlt, inject_Z; simpl; lia).
      assert (0 < BOLTZMANN) by reflexivity. 
      apply Qmult_lt_0_compat; [apply Qmult_lt_0_compat|]; done.
    + lra.
Qed.

Lemma temperature_is_nonnegative_witness :
  0 <= compute_kinetic_energy [1; 3] [[0; -2]; [4; 1]] /\
  0 <= compute_temperature [1; 3] [[0; -2]; [4; 1]].
Proof.
  apply (temperature_is_nonnegative 2 2 [1; 3] [[0; -2]; [4; 1]]).
  - split; [reflexivity | by repeat constructor].
  - lia.
  - lia.
  - repeat constructor; discriminate.
Defined.

(** ** io/config_loader.py: more on [validate_config] *)

Lemma check_required_app before key after (config : gmap string pyval) :
  (forall k, k ∈ before -> is_Some (config !! k)) ->
  config !! key = None ->
  check_required (before ++ key :: after) config
  = Raise (ValueError ("Required parameter '" +:+ key +:+ "' missing from config")).
Proof.
  induction before as [|k0 before IH]; intros Hpre Hkey.
  - cbn. by rewrite Hkey.
  - cbn. destruct (Hpre k0) as [v ->]; [by left|].
    apply IH; [|done]. intros k Hk. apply Hpre. by right.
Qed.

(** X13.  [validate_config] reports the first required key that is
    missing, in the order natoms, mass, temperature, dt, relaxation_time,
    nsteps, box, with a [ValueError] that names it. *)
Theorem validate_config_missing_key (config : gmap string pyval)
    before key after :
  required_keys = before ++ key :: after ->
  (forall k, k ∈ before -> is_Some (config !! k)) ->
  config !! key = None ->
  validate_config config
  = Raise (ValueError ("Required parameter '" +:+ key +:+ "' missing from config")).
Proof.
  intros Hkeys Hpre Hkey. unfold validate_config.
  by rewrite Hkeys, (check_required_app before key after config Hpre Hkey).
Qed.

Lemma validate_config_missing_key_witness :
  validate_config (delete "dt"%string config_example)
  = Raise (ValueError ("Required parameter '" +:+ "dt" +:+ "' missing from config")).
Proof.
  apply (validate_config_missing_key (delete "dt"%string config_example)
           ["natoms"; "mass"; "temperature"]%string "dt"%string
           ["relaxation_time"; "nsteps"; "box"]%string).
  - reflexivity.
  - intros k Hk.
    repeat (apply elem_of_cons in Hk as [->|Hk]; [vm_compute; eauto|]).
    by apply elem_of_nil in Hk.
  - reflexivity.
Defined.

Lemma check_required_insert keys (config : gmap string pyval) key v :
  is_Some (config !! key) ->
  check_required keys (<[key := v]> config) = check_required keys config.
Proof.
  intros [v0 Hv0]. induction keys as [|k keys IH]; [done|].
  cbn [check_required]. destruct (decide (key = k)) as [->|Hne].
  - by rewrite lookup_insert_eq, Hv0.
  - rewrite lookup_insert_ne by done. by destruct (config !! k).
Qed.

(** X14.  [validate_config] looks only at whether mass, relaxation_time,
    nsteps and box are present, never at their values: replacing the value
    of one of these keys does not change its verdict. *)
Theorem validate_config_ignores_values (config : gmap string pyval) key v :
  key ∈ ["mass"; "relaxation_time"; "nsteps"; "box"]%string ->
  is_Some (config !! key) ->
  validate_config (<[key := v]> config) = validate_config config.
Proof.
  intros Hkey Hsome. unfold validate_config, getitem.
  rewrite check_required_insert by done.
  repeat (apply elem_of_cons in Hkey as [->|Hkey];
          [by rewrite !lookup_insert_ne by done|]).
  by apply elem_of_nil in Hkey.
Qed.

Lemma validate_config_ignores_values_witness :
  validate_config (<["relaxation_time"%string := PyNum (-1)]> config_example)
  = validate_config config_example.
Proof.
  apply (validate_config_ignores_values config_example "relaxation_time"
           (PyNum (-1))).
  - by repeat constructor.
  - vm_compute. eauto.
Defined.

(** X15.  A required value that is not a number makes [validate_config]
    fail with [TypeError], not [ValueError]: here a dt that YAML read as a
    string, a list or null, with natoms and temperature valid. *)
Theorem validate_config_type_error (config : gmap string pyval) n t v :
  (forall key, key ∈ required_keys -> is_Some (config !! key)) ->
  config !! "natoms"%string = Some (PyNum n) ->
  config !! "temperature"%string = Some (PyNum t) ->
  config !! "dt"%string = Some v ->
  0 < n -> 0 <= t ->
  (exists s, v = PyStr s) \/ (exists l, v = PySeq l) \/ v = PyNone ->
  validate_config config = Raise TypeError.
Proof.
  intros Hreq Hn Ht Hd Hn0 Ht0 Hv. unfold validate_config, getitem.
  rewrite check_required_ok, Hn, Ht, Hd by done.
  cbn [result_bind py_le0 py_lt0].
  assert (Qle_bool n 0 = false) as ->.
  { destruct (Qle_bool n 0) eqn:E; [apply Qle_bool_iff in E; lra | done]. }
  assert (Qle_bool 0 t = true) as -> by by apply Qle_bool_iff.
  cbn. by destruct Hv as [[s ->]|[[l ->]| ->]].
Qed.

Lemma validate_config_type_error_witness :
  validate_config (<["dt"%string := PyStr "1e-15"]> config_example)
  = Raise TypeError.
Proof.
  apply (validate_config_type_error
           (<["dt"%string := PyStr "1e-15"]> config_example) 100 300
           (PyStr "1e-15")).
  - intros key Hkey. unfold required_keys in Hkey.
    repeat (apply elem_of_cons in Hkey as [->|Hkey]; [vm_compute; eauto|]).
    by apply elem_of_nil in Hkey.
  - reflexivity.
  - reflexivity.
  - reflexivity.
  - reflexivity.
  - discriminate.
  - left. eauto.
Defined.

(** ** simulation.py: more on [run] *)

Section Trajectory.
Context (T : gmap string pyseq -> Prop).

Lemma keeps_same {A : Type} (c : M A) :
  (forall st, trajectory (c st).2.1 = trajectory st.1) -> keeps_trajectory T c.
Proof. intros H st HT. by rewrite H. Qed.

Lemma keeps_bind {A B : Type} (c : M A) (k : A -> M B) :
  keeps_trajectory T c -> (forall a, keeps_trajectory T (k a)) ->
  keeps_trajectory T (bind c k).
Proof.
  intros Hc Hk st HT. unfold bind. specialize (Hc st HT).
  destruct (c st) as [[a|e] st1]; cbn [fst snd] in *; [|done].
  by apply Hk.
Qed.

Lemma keeps_self_step np : keeps_trajectory T (self_step np).
Proof.
  apply keeps_same. intros [self w].
  destruct (step_frame np self (cursor w)) as (_ & Htr & _).
  unfold self_step, bind, get_self, get_world, put_self, put_world.
  cbn [fst snd]. by destruct (step np self (cursor w)).
Qed.

Lemma keeps_trajectory_append key x :
  append_stable T key -> keeps_trajectory T (trajectory_append key x).
Proof.
  intros Hst [self w] HT.
  unfold trajectory_append, bind, get_self, put_self, raise. cbn [fst snd] in *.
  destruct (trajectory self !! key) as [[l|l]|] eqn:E; cbn [fst snd]; [|done..].
  by apply Hst.
Qed.

Lemma keeps_write_frame path k : keeps_trajectory T (self_write_frame path k).
Proof.
  apply keeps_same. intros [self w].
  unfold self_write_frame, bind, get_self, get_world, put_world, lift.
  cbn [fst snd]. by destruct (write_frame _ _ _ _ _ _ _ _).
Qed.

Lemma keeps_run_body np nsteps writer df verbose k :
  append_stable T "time" -> append_stable T "temperature" ->
  keeps_trajectory T (run_body np nsteps writer df verbose k).
Proof.
  intros H1 H2. unfold run_body.
  apply keeps_bind; [apply keeps_self_step | intros _].
  apply keeps_bind; [by apply keeps_same | intros s].
  apply keeps_bind; [by apply keeps_trajectory_append | intros _].
  apply keeps_bind; [by apply keeps_trajectory_append | intros _].
  apply keeps_bind.
  - destruct writer as [filename|]; [|by apply keeps_same].
    apply keeps_bind; [by apply keeps_same | intros m].
    destruct (m =? 0)%Z; [apply keeps_write_frame | by apply keeps_same].
  - intros _. destruct verbose; [|by apply keeps_same].
    apply keeps_bind; [by apply keeps_same | intros m].
    destruct (m =? 0)%Z; by apply keeps_same.
Qed.

Lemma keeps_for_each {A : Type} (l : list A) (body : A -> M unit) :
  (forall x, keeps_trajectory T (body x)) -> keeps_trajectory T (for_each l body).
Proof.
  intros Hbody. induction l as [|x l IH]; [by apply keeps_same|].
  cbn [for_each]. by apply keeps_bind.
Qed.

(** A call of [run] that returns hands back the trajectory it has kept
    through the loop, with every list turned into an array. *)
Lemma run_returns np nsteps output_file df verbose self w tr st' :
  append_stable T "time" -> append_stable T "temperature" ->
  T (trajectory self) ->
  run np nsteps output_file df verbose (self, w) = (Ok tr, st') ->
  exists t1, T t1 /\ tr = np_array <$> t1 /\ trajectory st'.1 = tr.
Proof.
  intros H1 H2 HT. unfold run. unfold bind at 1.
  destruct (run_writer_block output_file self w) as [w0 ->].
  unfold bind at 1.
  pose proof (keeps_for_each (py_range 1 (nsteps + 1))
                (run_body np nsteps (truthy output_file) df verbose)
                (fun k => keeps_run_body np nsteps _ df verbose k H1 H2)
                (self, w0) HT) as HT1.
  destruct (for_each _ _ (self, w0)) as [[[]|e] [s1 w1]]; [|done].
  cbn [fst snd] in HT1.
  unfold bind, get_self, put_self, ret, raise, py_print, get_world, put_world.
  cbn [fst snd trajectory set_trajectory].
  destruct verbose.
  - destruct (_ !! "temperature"%string);
      cbn [fst snd trajectory set_trajectory]; [|done].
    destruct (truthy output_file); cbn [fst snd trajectory set_trajectory];
      intros [= <- <-]; eauto.
  - intros [= <- <-]. eauto.
Qed.
End Trajectory.

(** X16.  [run] never records a kinetic energy: the trajectory it returns
    for a constructed simulation holds an empty 'kinetic_energy' array,
    whatever the number of steps. *)
Theorem run_never_records_kinetic_energy np natoms_ mass_ box_ temperature_
    dt_ relaxation_time_ boundary_type radius_ w self w1
    nsteps output_file df verbose w2 tr st' :
  LangevinSimulation_init np natoms_ mass_ box_ temperature_ dt_
    relaxation_time_ boundary_type radius_ w = (Ok self, w1) ->
  run np nsteps output_file df verbose (self, w2) = (Ok tr, st') ->
  tr !! "kinetic_energy"%string = Some (NdArray []).
Proof.
  intros Hinit Hrun.
  destruct (init_fields _ _ _ _ _ _ _ _ _ _ _ _ Hinit)
    as (_ & _ & _ & _ & _ & _ & _ & Htr & _).
  destruct (run_returns (fun t => t !! "kinetic_energy"%string = Some (PyList []))
              np nsteps output_file df verbose self w2 tr st')
    as (t1 & Ht1 & -> & _); try done.
  - intros t l x _ Ht. by rewrite lookup_insert_ne.
  - intros t l x _ Ht. by rewrite lookup_insert_ne.
  - rewrite Htr. do 2 rewrite lookup_insert_ne by done.
    by rewrite lookup_insert_eq.
  - by rewrite lookup_fmap, Ht1.
Qed.

Lemma run_never_records_kinetic_energy_witness :
  exists self w1 tr st',
    LangevinSimulation_init np_example 1 1 [(0, 1)] 300 1 1 "reflective" 1
      world_example = (Ok self, w1) /\
    run np_example 2 None 100 false (self, w1) = (Ok tr, st') /\
    tr !! "kinetic_energy"%string = Some (NdArray []).
Proof.
  destruct (init_succeeds np_example 1 1 [(0, 1)] 300 1 1 "reflective" 1
              world_example (ReflectiveBoundary [(0, 1)]))
    as (self & w1 & Hinit); [lia | reflexivity |].
  destruct (init_trajectory_fresh _ _ _ _ _ _ _ _ _ _ _ _ Hinit) as [Ht HT].
  destruct (run_no_writer np_example 2 100 false self w1 [] [])
    as (tr & st' & tm' & Hrun & _); try done.
  exists self, w1, tr, st'. split; [done|]. split; [done|].
  exact (run_never_records_kinetic_energy np_example 1 1 [(0, 1)] 300 1 1
           "reflective" 1 world_example self w1 2 None 100 false w1 tr st'
           Hinit Hrun).
Defined.

Lemma run_body_on_arrays np nsteps writer df verbose k self w l :
  trajectory self !! "time"%string = Some (NdArray l) ->
  exists st, run_body np nsteps writer df verbose k (self, w)
             = (Raise AttributeError, st).
Proof.
  intros Htime.
  destruct (step_frame np self (cursor w)) as (_ & Htr & _).
  unfold run_body, self_step, trajectory_append, bind, get_self, get_world,
    put_self, put_world, raise.
  cbn [fst snd]. destruct (step np self (cursor w)) as [s1 g1].
  cbn [fst snd] in *. rewrite Htr, Htime. eauto.
Qed.

(** X17.  A simulation can be run once: after a call of [run] that
    returned, the trajectory lists are arrays, and every further call with
    at least one step raises [AttributeError] at its first append. *)
Theorem run_twice_raises np natoms_ mass_ box_ temperature_ dt_
    relaxation_time_ boundary_type radius_ w self w1
    nsteps output_file df verbose w2 tr self' w'
    nsteps2 output_file2 df2 verbose2 w3 :
  LangevinSimulation_init np natoms_ mass_ box_ temperature_ dt_
    relaxation_time_ boundary_type radius_ w = (Ok self, w1) ->
  run np nsteps output_file df verbose (self, w2) = (Ok tr, (self', w')) ->
  (1 <= nsteps2)%Z ->
  exists st'',
    run np nsteps2 output_file2 df2 verbose2 (self', w3)
    = (Raise AttributeError, st'').
Proof.
  intros Hinit Hrun Hn.
  destruct (init_trajectory_fresh _ _ _ _ _ _ _ _ _ _ _ _ Hinit) as [Htime _].
  destruct (run_returns (fun t => is_Some (t !! "time"%string))
              np nsteps output_file df verbose self w2 tr (self', w'))
    as (t1 & [v Hv] & -> & Htr'); try done.
  - intros t l x Hl _. destruct (decide ("time"%string = "time"%string));
      by rewrite lookup_insert_eq.
  - intros t l x _ Ht. by rewrite lookup_insert_ne.
  - cbn [fst] in Htr'.
    assert (trajectory self' !! "time"%string = Some (NdArray (items v))) as Harr.
    { by rewrite Htr', lookup_fmap, Hv. }
    unfold run. unfold bind at 1.
    destruct (run_writer_block output_file2 self' w3) as [w0 ->].
    unfold bind at 1. rewrite py_range_cons, for_each_cons by lia.
    destruct (run_body_on_arrays np nsteps2 (truthy output_file2) df2 verbose2
                1 self' w0 (items v) Harr) as [st ->].
    eauto.
Qed.

Lemma run_twice_raises_witness :
  exists self w1 tr self' w',
    LangevinSimulation_init np_example 1 1 [(0, 1)] 300 1 1 "reflective" 1
      world_example = (Ok self, w1) /\
    run np_example 2 None 100 false (self, w1) = (Ok tr, (self', w')) /\
    exists st'',
      run np_example 1 None 100 false (self', w') = (Raise AttributeError, st'').
Proof.
  destruct (init_succeeds np_example 1 1 [(0, 1)] 300 1 1 "reflective" 1
              world_example (ReflectiveBoundary [(0, 1)]))
    as (self & w1 & Hinit); [lia | reflexivity |].
  destruct (init_trajectory_fresh _ _ _ _ _ _ _ _ _ _ _ _ Hinit) as [Ht HT].
  destruct (run_no_writer np_example 2 100 false self w1 [] [])
    as (tr & [self' w'] & tm' & Hrun & _); try done.
  exists self, w1, tr, self', w'. split; [done|]. split; [done|].
  apply (run_twice_raises np_example 1 1 [(0, 1)] 300 1 1 "reflective" 1
           world_example self w1 2 None 100 false w1 tr self' w'
           1 None 100 false w' Hinit Hrun).
  lia.
Defined.

Lemma py_range_empty a b : (b <= a)%Z -> py_range a b = [].
Proof.
  intros H. unfold py_range. by replace (Z.to_nat (b - a)) with 0%nat by lia.
Qed.

(** X18.  [run] with nsteps <= 0 makes no step: on a constructed
    simulation it returns empty time and temperature arrays, leaves the
    particles and the random generator as they were, and still removes the
    output file when one is named, so that no file is left at that path. *)
Theorem run_without_steps np natoms_ mass_ box_ temperature_ dt_
    relaxation_time_ boundary_type radius_ w self w1
    nsteps output_file df verbose w2 :
  LangevinSimulation_init np natoms_ mass_ box_ temperature_ dt_
    relaxation_time_ boundary_type radius_ w = (Ok self, w1) ->
  (nsteps <= 0)%Z ->
  exists tr st',
    run np nsteps output_file df verbose (self, w2) = (Ok tr, st') /\
    tr !! "time"%string = Some (NdArray []) /\
    tr !! "temperature"%string = Some (NdArray []) /\
    pos st'.1 = pos self /\ vels st'.1 = vels self /\
    cursor st'.2 = cursor w2 /\
    (forall path, truthy output_file = Some path -> files st'.2 !! path = None).
Proof.
  intros Hinit Hn.
  destruct (init_trajectory_fresh _ _ _ _ _ _ _ _ _ _ _ _ Hinit) as [Ht HT].
  assert ((np_array <$> trajectory self) !! "time"%string = Some (NdArray []))
    as Ht' by (by rewrite lookup_fmap, Ht).
  assert ((np_array <$> trajectory self) !! "temperature"%string
          = Some (NdArray [])) as HT' by (by rewrite lookup_fmap, HT).
  unfold run. rewrite py_range_empty by lia.
  unfold bind, get_self, get_world, put_self, put_world, ret, raise, py_print.
  cbn [for_each]. unfold ret.
  destruct (truthy output_file) as [path|] eqn:Etruthy; cbn [fst snd].
  - destruct (files w2 !! path) eqn:Efile;
      cbn [fst snd trajectory set_trajectory];
      destruct verbose; cbn [fst snd trajectory set_trajectory];
      rewrite ?HT'; cbn [fst snd trajectory set_trajectory];
      eexists _, _; (split; [reflexivity|]);
      cbn [fst snd pos vels set_trajectory cursor files set_files print];
      repeat split; try done;
      intros p [= <-]; by rewrite ?lookup_delete_eq.
  - destruct verbose; cbn [fst snd trajectory set_trajectory];
      rewrite ?HT'; cbn [fst snd trajectory set_trajectory];
      eexists _, _; (split; [reflexivity|]);
      cbn [fst snd pos vels set_trajectory cursor files set_files print];
      repeat split; try done.
Qed.

Lemma run_without_steps_witness :
  exists self w1,
    LangevinSimulation_init np_example 2 1 [(0, 1)] 300 1 1 "reflective" 1
      world_example = (Ok self, w1) /\
    exists tr st',
      run np_example 0 (Some "out.dump"%string) 100 true
        (self, set_files (<["out.dump"%string := []]> (files w1)) w1)
        = (Ok tr, st') /\
      tr !! "time"%string = Some (NdArray []) /\
      tr !! "temperature"%string = Some (NdArray []) /\
      pos st'.1 = pos self /\ vels st'.1 = vels self /\
      cursor st'.2
        = cursor (set_files (<["out.dump"%string := []]> (files w1)) w1) /\
      (forall path, truthy (Some "out.dump"%string) = Some path ->
                    files st'.2 !! path = None).
Proof.
  eexists. eexists. split; [vm_compute; reflexivity|].
  eapply (run_without_steps np_example 2 1 [(0, 1)] 300 1 1 "reflective" 1
            world_example _ _ 0 (Some "out.dump"%string) 100 true).
  - vm_compute. reflexivity.
  - lia.
Defined.

Lemma run_body_dump_zero np nsteps path verbose k self w ts tm :
  trajectory self !! "time"%string = Some (PyList ts) ->
  trajectory self !! "temperature"%string = Some (PyList tm) ->
  exists st,
    run_body np nsteps (Some path) 0 verbose k (self, w)
      = (Raise ZeroDivisionError, st) /\
    files st.2 = files w.
Proof.
  intros Htime Htemp.
  destruct (step_frame np self (cursor w)) as (_ & Htr & _).
  unfold run_body, self_step, trajectory_append, bind, get_self, get_world,
    put_self, put_world, ret, lift, py_mod.
  cbn [fst snd]. destruct (step np self (cursor w)) as [s1 g1].
  cbn [fst snd] in *. rewrite Htr, Htime.
  cbn [fst snd trajectory set_trajectory].
  rewrite lookup_insert_ne, Htemp by done.
  cbn [fst snd trajectory set_trajectory Z.eqb]. eauto.
Qed.

(** X19.  With an output file and a dump frequency of 0, [run] on a
    constructed simulation raises [ZeroDivisionError] in its first step,
    having already removed the file: nothing is left at that path. *)
Theorem run_dump_frequency_zero np natoms_ mass_ box_ temperature_ dt_
    relaxation_time_ boundary_type radius_ w self w1
    nsteps path verbose w2 :
  LangevinSimulation_init np natoms_ mass_ box_ temperature_ dt_
    relaxation_time_ boundary_type radius_ w = (Ok self, w1) ->
  path <> ""%string ->
  (1 <= nsteps)%Z ->
  exists st',
    run np nsteps (Some path) 0 verbose (self, w2)
      = (Raise ZeroDivisionError, st') /\
    files st'.2 !! path = None.
Proof.
  intros Hinit Hpath Hn.
  destruct (init_trajectory_fresh _ _ _ _ _ _ _ _ _ _ _ _ Hinit) as [Ht HT].
  rewrite run_removes_file by done.
  unfold bind at 1. rewrite py_range_cons, for_each_cons by lia.
  destruct (run_body_dump_zero np nsteps path verbose 1 self
              (set_files (delete path (files w2)) w2) [] [] Ht HT)
    as (st & -> & Hfiles).
  exists st. split; [done|].
  rewrite Hfiles. cbn [files set_files]. apply lookup_delete_eq.
Qed.

Lemma run_dump_frequency_zero_witness :
  exists self w1,
    LangevinSimulation_init np_example 2 1 [(0, 1)] 300 1 1 "reflective" 1
      world_example = (Ok self, w1) /\
    exists st',
      run np_example 3 (Some "out.dump"%string) 0 false (self, w1)
        = (Raise ZeroDivisionError, st') /\
      files st'.2 !! "out.dump"%string = None.
Proof.
  eexists. eexists. split; [vm_compute; reflexivity|].
  eapply (run_dump_frequency_zero np_example 2 1 [(0, 1)] 300 1 1
            "reflective" 1 world_example _ _ 3 "out.dump" false).
  - vm_compute. reflexivity.
  - discriminate.
  - lia.
Defined.

(** ** boundary.py: the name of the policy *)

Lemma lower_ascii_idempotent c : lower_ascii (lower_ascii c) = lower_ascii c.
Proof. by destruct c as [[] [] [] [] [] [] [] []]. Qed.

Lemma lower_idempotent s : lower (lower s) = lower s.
Proof.
  induction s as [|c s IH]; [done|].
  cbn [lower]. by rewrite lower_ascii_idempotent, IH.
Qed.

(** X20.  The boundary type is read without regard to letter case: a name
    yields a boundary exactly when its lower-case form does, and then the
    same one. *)
Theorem create_boundary_ignores_case boundary_type box bc :
  create_boundary boundary_type box = Ok bc <->
  create_boundary (lower boundary_type) box = Ok bc.
Proof.
  unfold create_boundary. rewrite lower_idempotent.
  by destruct (dict_get (lower boundary_type) boundary_types).
Qed.

(** ** forces.py: the shape of the force *)

(** X21.  [compute_langevin_force] returns a force array of the shape of
    the velocity array, and draws one random sample per entry. *)
Theorem compute_langevin_force_shape np (mass : ndarray1) v
    temperature_ relaxation_time_ dt_ g n d :
  has_shape n d v -> length mass = n ->
  has_shape n d
    (compute_langevin_force np mass v temperature_ relaxation_time_ dt_ g).1 /\
  (compute_langevin_force np mass v temperature_ relaxation_time_ dt_ g).2
    = (g + n * d)%nat.
Proof. apply compute_langevin_force_shape_cursor. Qed.

Lemma compute_langevin_force_shape_witness :
  has_shape 2 3
    (compute_langevin_force np_example [1; 2] [[1; 0; 0]; [0; 2; 0]]
       300 1 1 5).1 /\
  (compute_langevin_force np_example [1; 2] [[1; 0; 0]; [0; 2; 0]]
     300 1 1 5).2 = (5 + 2 * 3)%nat.
Proof.
  apply (compute_langevin_force_shape np_example [1; 2]
           [[1; 0; 0]; [0; 2; 0]] 300 1 1 5 2 3).
  - split; [reflexivity | by repeat constructor].
  - reflexivity.
Defined.

(** ** utils/analysis.py: running average *)

Lemma np_convolve_valid_ok (a v : ndarray1) :
  (length v <= length a)%nat -> v <> [] ->
  np_convolve_valid a v =
  Ok (map (fun k => np_sum (zip_with Qmult (take (length v) (drop k a))
                                          (reverse v)))
          (seq 0 (length a - length v + 1))).
Proof.
  intros Hle Hv. unfold np_convolve_valid.
  destruct (Nat.ltb_spec (length a) (length v)) as [Hlt|_]; [lia|].
  destruct v as [|y v]; [done|].
  destruct a as [|x a]; [cbn in Hle; lia|done].
Qed.

Lemma np_convolve_valid_swap (a v : ndarray1) :
  (length a < length v)%nat -> a <> [] ->
  np_convolve_valid a v =
  Ok (map (fun k => np_sum (zip_with Qmult (take (length a) (drop k v))
                                          (reverse a)))
          (seq 0 (length v - length a + 1))).
Proof.
  intros Hlt Ha. unfold np_convolve_valid.
  destruct (Nat.ltb_spec (length a) (length v)) as [_|?]; [|lia].
  destruct a as [|x a]; [done|].
  destruct v as [|y v]; [cbn in Hlt; lia|done].
Qed.

Lemma running_average_kernel (window : Z) :
  (0 <= window)%Z ->
  np_ones window = Ok (replicate (Z.to_nat window) 1).
Proof.
  intros Hw. unfold np_ones.
  by destruct (Z.ltb_spec window 0) as [?|_]; [lia|].
Qed.

(** X23.  For a window between 1 and the length of the data,
    [running_average] returns [len(data) - window + 1] values. *)
Theorem running_average_window (data : ndarray1) (window : Z) :
  (1 <= window <= Z.of_nat (length data))%Z ->
  exists out,
    running_average data window = Ok out /\
    length out = (length data - Z.to_nat window + 1)%nat.
Proof.
  intros [Hw Hlen]. unfold running_average.
  rewrite running_average_kernel by lia. cbn [result_bind].
  rewrite np_convolve_valid_ok.
  - eexists. split; [reflexivity|].
    by rewrite length_map, length_seq, length_map, length_replicate.
  - rewrite length_map, length_replicate. lia.
  - destruct (Z.to_nat window) eqn:E; [lia|done].
Qed.

Lemma running_average_window_witness :
  exists out,
    running_average [1; 2; 3; 6] 2 = Ok out /\
    length out = (length [1; 2; 3; 6] - Z.to_nat 2 + 1)%nat.
Proof. apply (running_average_window [1; 2; 3; 6] 2). cbn. lia. Defined.

(** X24.  A window longer than the (non-empty) data does not give an
    empty result: [np.convolve] swaps its arguments, so [running_average]
    returns [window - len(data) + 1] values. *)
Theorem running_average_long_window (data : ndarray1) (window : Z) :
  data <> [] -> (Z.of_nat (length data) < window)%Z ->
  exists out,
    running_average data window = Ok out /\
    length out = (Z.to_nat window - length data + 1)%nat.
Proof.
  intros Hne Hlen. unfold running_average.
  rewrite running_average_kernel by lia. cbn [result_bind].
  rewrite np_convolve_valid_swap;
    [|rewrite length_map, length_replicate; lia | done].
  eexists. split; [reflexivity|].
  by rewrite length_map, length_seq, length_map, length_replicate.
Qed.

Lemma running_average_long_window_witness :
  exists out,
    running_average [1; 2] 3 = Ok out /\
    length out = (Z.to_nat 3 - length [1; 2] + 1)%nat.
Proof. apply (running_average_long_window [1; 2] 3); [done | cbn; lia]. Defined.

(** X25.  [running_average] raises [ValueError] when the data are empty or
    the window is not positive. *)
Theorem running_average_rejects (data : ndarray1) (window : Z) :
  data = [] \/ (window <= 0)%Z ->
  exists msg, running_average data window = Raise (ValueError msg).
Proof.
  intros Hbad. unfold running_average, np_ones.
  destruct (Z.ltb_spec window 0) as [Hneg|Hnn]; [by eexists|].
  cbn [result_bind]. unfold np_convolve_valid.
  rewrite length_map, length_replicate.
  destruct (Z.to_nat window) as [|n] eqn:Ew.
  - cbn [replicate map]. destruct data as [|x data]; cbn; by eexists.
  - destruct Hbad as [->|?]; [|lia]. cbn. by eexists.
Qed.

Lemma running_average_rejects_witness :
  exists msg, running_average [1; 2; 3] 0 = Raise (ValueError msg).
Proof. apply (running_average_rejects [1; 2; 3] 0). right. lia. Defined.

(** ** boundary.py in binary64: degenerate boxes and NaN *)

Section Binary64Boundary.
Import Float64.
Local Open Scope float_scope.

Lemma is_nan_true x : Prim2SF x = S754_nan -> is_nan x = true.
Proof.
  intros H. destruct (is_nan x) eqn:E; [done|].
  by apply is_nan_false in E.
Qed.

Lemma fmod_zero_divisor a b : is_zero b = true -> fmod a b = nan.
Proof.
  intros Hb. apply is_zero_true in Hb as [s Hb]. unfold fmod. rewrite Hb.
  by destruct (Prim2SF a).
Qed.

Lemma add_nan_r x : is_nan (x + nan) = true.
Proof.
  apply is_nan_true. rewrite FloatAxioms.add_spec.
  change (Prim2SF nan) with S754_nan. by destruct (Prim2SF x).
Qed.

(** X26.  Under the periodic policy a box axis of zero length (max - min
    is 0, as for min = max) turns every position component on that axis
    into NaN: the remainder of a division by zero is NaN. *)
Theorem periodic_flat_axis_gives_nan box pos vels r i lo hi x :
  box !! i = Some (lo, hi) ->
  is_zero (hi - lo) = true ->
  get2 pos r i = Some x ->
  exists y, get2 (PeriodicBoundary_apply box pos vels).1 r i = Some y /\
            is_nan y = true.
Proof.
  intros Hb Hflat Hx. unfold PeriodicBoundary_apply. cbn [fst].
  rewrite (f64_periodic_loop box 0 pos r i (lo, hi)), Hx;
    [|lia | by rewrite Nat.sub_0_r].
  eexists. split; [done|]. cbn [fst snd].
  unfold np_mod. rewrite Hflat, fmod_zero_divisor by done. apply add_nan_r.
Qed.

Lemma periodic_flat_axis_gives_nan_witness :
  exists y,
    get2 (PeriodicBoundary_apply [(0, 10); (5, 5)] [[1; 5]] [[0; 0]]).1 0 1
      = Some y /\
    is_nan y = true.
Proof.
  apply (periodic_flat_axis_gives_nan [(0, 10); (5, 5)] [[1; 5]] [[0; 0]]
           0 1 5 5 5); reflexivity.
Defined.

(** X27.  The reflective policy never repairs a NaN: a position component
    that is NaN fails both comparisons and is left as it is. *)
Theorem reflective_keeps_nan box pos vels r i b x :
  box !! i = Some b ->
  get2 pos r i = Some x ->
  is_nan x = true ->
  get2 (ReflectiveBoundary_apply box pos vels).1 r i = Some x.
Proof.
  intros Hb Hx Hnan. unfold ReflectiveBoundary_apply.
  rewrite (f64_reflective_loop_pos box 0 pos vels r i b), Hx;
    [|lia | by rewrite Nat.sub_0_r].
  cbn. f_equal. unfold clamp1.
  destruct (x <=? b.1) eqn:E1.
  { destruct (leb_true_not_nan _ _ E1). congruence. }
  destruct (b.2 <=? x) eqn:E2; [|done].
  destruct (leb_true_not_nan _ _ E2). congruence.
Qed.

Lemma reflective_keeps_nan_witness :
  get2 (ReflectiveBoundary_apply [(0, 1)] [[nan]] [[3]]).1 0 0 = Some nan.
Proof.
  apply (reflective_keeps_nan [(0, 1)] [[nan]] [[3]] 0 0 (0, 1) nan);
    reflexivity.
Defined.

End Binary64Boundary.
